(** * Agent-2-Agent protocol: executors and request handler

    A shallow embedding of the JavaScript sources
      - [agent-a/index.js]   (client-side extraction and display helpers),
      - [agent-b/index.js]   (ProductServiceExecutor, ACPToolClient,
                              CustomRequestHandler),
      - the greeting agent   (GreetingAgentExecutor, CustomRequestHandler),
      - the test client and [verify-protocol.js] (the checks on a response),
    together with the properties the protocol description states about them
    and further properties of the code.

    JavaScript values are modelled by the type [value]; exceptions by the
    [completion] monad; the in-place mutation of the task object handed to an
    executor by returning the object's final state next to the response. *)

From stdpp Require Import base tactics option list strings countable gmap pretty.
From Stdlib Require Import ZArith Ascii.

Local Open Scope Z_scope.

(** ** JavaScript values

    The values that reach the agents are those of parsed JSON, plus
    [undefined], which the code produces itself (a missing property, an
    [id: undefined] field).  Objects keep their properties in insertion
    order, which is the order [JSON.stringify] prints them in.  Numbers are
    restricted to integers. *)

Unset Elimination Schemes.
Inductive value : Type :=
  | VUndefined
  | VNull
  | VBool (b : bool)
  | VNum (n : Z)
  | VStr (s : string)
  | VArr (elements : list value)
  | VObj (properties : list (string * value)).
Set Elimination Schemes.

(** An object is its list of own properties. *)
Definition object : Type := list (string * value).

Section value_induction.
Variable P : value → Prop.
Hypothesis Hundefined : P VUndefined.
Hypothesis Hnull : P VNull.
Hypothesis Hbool : ∀ b, P (VBool b).
Hypothesis Hnum : ∀ n, P (VNum n).
Hypothesis Hstr : ∀ s, P (VStr s).
Hypothesis Harr : ∀ l, Forall P l → P (VArr l).
Hypothesis Hobj : ∀ o : object, Forall (λ kv, P kv.2) o → P (VObj o).

Fixpoint value_nested_ind (v : value) : P v :=
  match v with
  | VUndefined => Hundefined
  | VNull => Hnull
  | VBool b => Hbool b
  | VNum n => Hnum n
  | VStr s => Hstr s
  | VArr l =>
      Harr l ((fix go (l : list value) : Forall P l :=
                 match l with
                 | [] => Forall_nil_2 P
                 | x :: l' => Forall_cons_2 P x l' (value_nested_ind x) (go l')
                 end) l)
  | VObj o =>
      Hobj o ((fix go (o : object) : Forall (λ kv, P kv.2) o :=
                 match o with
                 | [] => Forall_nil_2 _
                 | kv :: o' => Forall_cons_2 _ kv o' (value_nested_ind kv.2) (go o')
                 end) o)
  end.
End value_induction.

(** Values are encoded as generic trees, which gives them decidable equality
    and lets them serve as keys of a finite map (the task store is keyed by
    the task's [id], whatever value that is). *)
Fixpoint value_to_tree (v : value) : gen_tree (bool + Z + string) :=
  match v with
  | VUndefined => GenNode 0 []
  | VNull => GenNode 1 []
  | VBool b => GenLeaf (inl (inl b))
  | VNum n => GenLeaf (inl (inr n))
  | VStr s => GenLeaf (inr s)
  | VArr l => GenNode 2 (map value_to_tree l)
  | VObj o => GenNode 3 (map (λ kv, GenNode 4 [GenLeaf (inr kv.1); value_to_tree kv.2]) o)
  end.

Fixpoint tree_to_value (t : gen_tree (bool + Z + string)) : value :=
  match t with
  | GenLeaf (inl (inl b)) => VBool b
  | GenLeaf (inl (inr n)) => VNum n
  | GenLeaf (inr s) => VStr s
  | GenNode 1 _ => VNull
  | GenNode 2 ts => VArr (map tree_to_value ts)
  | GenNode 3 ts =>
      VObj (map (λ t, match t with
                      | GenNode _ [GenLeaf (inr k); tv] => (k, tree_to_value tv)
                      | _ => ("", VUndefined)
                      end) ts)
  | GenNode _ _ => VUndefined
  end.

Lemma tree_to_value_to_tree v : tree_to_value (value_to_tree v) = v.
Proof.
  induction v as [| | | | |l IH|o IH] using value_nested_ind; simpl; try done.
  - f_equal. induction IH as [|x l Hx _ IHl]; simpl; [done|]. by rewrite Hx, IHl.
  - f_equal. induction IH as [|[k x] o Hx _ IHo]; simpl; [done|].
    simpl in Hx. by rewrite Hx, IHo.
Qed.

#[global] Instance value_eq_dec : EqDecision value.
Proof.
  intros x y. destruct (decide (value_to_tree x = value_to_tree y)) as [E|E].
  - left. rewrite <-(tree_to_value_to_tree x), <-(tree_to_value_to_tree y). by rewrite E.
  - right. intros ->. by apply E.
Defined.

#[global] Instance value_countable : Countable value :=
  inj_countable' value_to_tree tree_to_value tree_to_value_to_tree.

(** ** Exceptions

    Everything the sources throw or catch is an [Error] object, of which only
    the [message] is ever read. *)
Inductive completion (A : Type) : Type :=
  | Normal (a : A)
  | Throw (message : string).
Arguments Normal {A} a.
Arguments Throw {A} message.

#[global] Instance completion_ret : MRet completion := @Normal.
#[global] Instance completion_bind : MBind completion := λ A B k c,
  match c with
  | Normal a => k a
  | Throw e => Throw e
  end.

(** The engine's own [TypeError]; the wording of its message is the engine's
    business and nothing below depends on it. *)
Definition TypeError {A} (what : string) : completion A :=
  Throw what.

(** ** Primitive operations *)

(** [ToBoolean]: [undefined], [null], [false], [0] and [''] are falsy. *)
Definition truthy (v : value) : bool :=
  match v with
  | VUndefined | VNull => false
  | VBool b => b
  | VNum n => negb (Z.eqb n 0)
  | VStr s => negb (String.eqb s "")
  | VArr _ | VObj _ => true
  end.

(** [a || b] *)
Definition js_or (a b : value) : value := if truthy a then a else b.

Definition is_nullish (v : value) : bool :=
  match v with
  | VUndefined | VNull => true
  | _ => false
  end.

(** Own property lookup in an object, first match. *)
Fixpoint lookup_prop (o : object) (k : string) : option value :=
  match o with
  | [] => None
  | (k', v) :: o' => if String.eqb k' k then Some v else lookup_prop o' k
  end.

(** [o.k] for an object: the property, or [undefined]. *)
Definition prop (o : object) (k : string) : value :=
  default VUndefined (lookup_prop o k).

(** [k in o] for an object. *)
Definition has_prop (o : object) (k : string) : bool :=
  match lookup_prop o k with
  | Some _ => true
  | None => false
  end.

(** [o.k = v]: an existing property keeps its place, a new one goes last. *)
Fixpoint set_prop (o : object) (k : string) (v : value) : object :=
  match o with
  | [] => [(k, v)]
  | (k', v') :: o' =>
      if String.eqb k' k then (k', v) :: o' else (k', v') :: set_prop o' k v
  end.

(** [v.k] for the property names the sources read ([params], [message],
    [parts], [type], [text], [data], [id], [status], [history], [name], ...):
    a [TypeError] on [undefined] and [null], the property or [undefined] on
    an object, [length] on arrays and strings, [undefined] otherwise. *)
Definition get_prop (v : value) (k : string) : completion value :=
  match v with
  | VUndefined => TypeError ("Cannot read properties of undefined (reading '" +:+ k +:+ "')")
  | VNull => TypeError ("Cannot read properties of null (reading '" +:+ k +:+ "')")
  | VObj o => Normal (prop o k)
  | VArr l => Normal (if String.eqb k "length" then VNum (Z.of_nat (length l)) else VUndefined)
  | VStr s => Normal (if String.eqb k "length" then VNum (Z.of_nat (String.length s)) else VUndefined)
  | VBool _ | VNum _ => Normal VUndefined
  end.

(** [v?.k] *)
Definition get_prop_opt (v : value) (k : string) : value :=
  match get_prop v k with
  | Normal x => x
  | Throw _ => VUndefined
  end.

(** [k in v] for the names [result], [id] and [status]: a [TypeError] unless
    [v] is an object or an array; an array owns none of these names. *)
Definition js_in (k : string) (v : value) : completion bool :=
  match v with
  | VObj o => Normal (has_prop o k)
  | VArr _ => Normal false
  | _ => TypeError ("Cannot use 'in' operator to search for '" +:+ k +:+ "'")
  end.

(** [v === 'literal'] *)
Definition strict_eq_str (v : value) (s : string) : bool :=
  match v with
  | VStr s' => String.eqb s' s
  | _ => false
  end.

(** [typeof v === "object"] *)
Definition typeof_object (v : value) : bool :=
  match v with
  | VNull | VArr _ | VObj _ => true
  | _ => false
  end.

(** ** Strings

    Strings are sequences of 8-bit code units; [toLowerCase] is modelled on
    the ASCII letters, which is all the keywords tested below consist of. *)
Definition lower_ascii (c : ascii) : ascii :=
  let n := N_of_ascii c in
  if ((65 <=? n) && (n <=? 90))%N then ascii_of_N (n + 32) else c.

Fixpoint toLowerCase (s : string) : string :=
  match s with
  | EmptyString => EmptyString
  | String c s' => String (lower_ascii c) (toLowerCase s')
  end.

(** [s.includes(sub)] *)
Fixpoint includes (s sub : string) : bool :=
  String.prefix sub s ||
  match s with
  | EmptyString => false
  | String _ s' => includes s' sub
  end.

(** [ToString] of a value that can be converted to a string.  An array is
    converted by [join]: its [undefined] and [null] elements give the empty
    string.  A number is an integer, printed by its decimal digits, as the
    engine prints every integer of magnitude below 10^21. *)
Fixpoint ToString (v : value) : string :=
  match v with
  | VUndefined => "undefined"
  | VNull => "null"
  | VBool b => if b then "true" else "false"
  | VNum n => pretty n
  | VStr s => s
  | VArr l => String.concat "," (map (λ x, if is_nullish x then "" else ToString x) l)
  | VObj _ => "[object Object]"
  end.

(** An object with an own property [toString] cannot be converted to a
    primitive: the property shadows the method of the prototype, and nothing
    that was parsed from JSON is callable.  [join] converts the elements of an
    array one by one. *)
Fixpoint printable (v : value) : bool :=
  match v with
  | VObj o => negb (has_prop o "toString")
  | VArr l => forallb printable l
  | _ => true
  end.

(** The conversion a template literal applies to an interpolated value. *)
Definition interpolate (v : value) : completion string :=
  if printable v then Normal (ToString v)
  else TypeError "Cannot convert object to primitive value".

(** [l.join(sep)]: the elements are converted one after the other, and the
    first that cannot be converted makes the call throw. *)
Definition join (sep : string) (l : list value) : completion string :=
  texts ← mapM (λ x, if is_nullish x then mret "" else interpolate x) l;
  mret (String.concat sep texts).

(** *** JSON.stringify *)

Definition hex_digit (n : N) : ascii :=
  ascii_of_N (if (n <? 10)%N then 48 + n else 87 + n).

(** The escape of one code unit inside a JSON string literal. *)
Definition json_escape (c : ascii) : string :=
  let n := N_of_ascii c in
  if (n =? 34)%N then String "\" (String c EmptyString)
  else if (n =? 92)%N then String "\" (String c EmptyString)
  else if (n =? 8)%N then "\b"
  else if (n =? 9)%N then "\t"
  else if (n =? 10)%N then "\n"
  else if (n =? 12)%N then "\f"
  else if (n =? 13)%N then "\r"
  else if (n <? 32)%N then
    "\u00" +:+ String (hex_digit (n / 16)) (String (hex_digit (n mod 16)) EmptyString)
  else String c EmptyString.

Fixpoint json_escape_string (s : string) : string :=
  match s with
  | EmptyString => EmptyString
  | String c s' => json_escape c +:+ json_escape_string s'
  end.

Definition json_quote (s : string) : string :=
  String "034" (json_escape_string s +:+ String "034" EmptyString).

(** [JSON.stringify(v)]; [None] stands for the result [undefined].  Inside an
    array [undefined] prints as [null]; inside an object a property whose
    value is [undefined] is left out. *)
Fixpoint JSON_stringify (v : value) : option string :=
  match v with
  | VUndefined => None
  | VNull => Some "null"
  | VBool b => Some (if b then "true" else "false")
  | VNum n => Some (pretty n)
  | VStr s => Some (json_quote s)
  | VArr l =>
      Some ("[" +:+ String.concat "," (map (λ x, default "null" (JSON_stringify x)) l) +:+ "]")
  | VObj o =>
      Some ("{" +:+ String.concat ","
              (omap (λ kv, (λ s, json_quote kv.1 +:+ ":" +:+ s) <$> JSON_stringify kv.2) o)
            +:+ "}")
  end.

(** ** Messages and parts (agent-a/index.js, and the same expressions inside
    the executors) *)

(** The receiver of an array method: [undefined] and [null] have no
    properties, and anything else that is not an array has no such method. *)
Definition as_array (v : value) (method : string) : completion (list value) :=
  match v with
  | VArr l => Normal l
  | VUndefined | VNull => get_prop v method ≫= λ _, Normal []
  | _ => TypeError (method +:+ " is not a function")
  end.

(** [parts.filter(part => part.type === ty)] *)
Fixpoint filter_by_type (ty : string) (parts : list value) : completion (list value) :=
  match parts with
  | [] => Normal []
  | part :: rest =>
      t ← get_prop part "type";
      kept ← filter_by_type ty rest;
      mret (if strict_eq_str t ty then part :: kept else kept)
  end.

(** [parts.find(part => part.type === ty)] *)
Fixpoint find_by_type (ty : string) (parts : list value) : completion value :=
  match parts with
  | [] => Normal VUndefined
  | part :: rest =>
      t ← get_prop part "type";
      if strict_eq_str t ty then mret part else find_by_type ty rest
  end.

(** [parts.filter(part => part.type === 'text').map(part => part.text).join('')] *)
Definition text_of_parts (parts : value) : completion string :=
  l ← as_array parts "filter";
  textParts ← filter_by_type "text" l;
  texts ← mapM (λ part, get_prop part "text") textParts;
  join "" texts.

(** [extractMessageText(message)] *)
Definition extractMessageText (message : value) : completion string :=
  if negb (truthy message) then mret ""
  else
    parts ← get_prop message "parts";
    if negb (truthy parts) then mret "" else text_of_parts parts.

(** [extractDataFromMessage(message)] *)
Definition extractDataFromMessage (message : value) : completion value :=
  if negb (truthy message) then mret VNull
  else
    parts ← get_prop message "parts";
    if negb (truthy parts) then mret VNull
    else
      l ← as_array parts "find";
      dataPart ← find_by_type "data" l;
      if truthy dataPart then get_prop dataPart "data" else mret VNull.

(** ** What the agents import from the a2a-js package *)

(** Modelled from the spec: the member [User] of the enumeration [Role]
    (Enum{User, Agent}) of the a2a-js package, which is not among the sources;
    its value is the wire value the repository's protocol notes list. *)
Definition Role_User : value := VStr "user".

(** Modelled from the spec: the member [Agent] of the enumeration [Role] of
    the a2a-js package, with its wire value. *)
Definition Role_Agent : value := VStr "agent".

(** Modelled from the spec: the member [Working] of the enumeration
    [TaskState] (Enum{Submitted, Working, Completed, Failed, Canceled}) of the
    a2a-js package, with its wire value. *)
Definition TaskState_Working : value := VStr "working".

(** Modelled from the spec: the member [Completed] of the enumeration
    [TaskState] of the a2a-js package, with its wire value. *)
Definition TaskState_Completed : value := VStr "completed".

(** Modelled from the spec: the task store of the a2a-js package, which is
    not among the sources: a keyed container of tasks, the task's [id] being
    the sole primary key. *)
Abbreviation TaskStore := (gmap value object).

(** Modelled from the spec: [get(id)] of the task store looks a task up by its
    primary key; it never fails and returns none if the task is absent. *)
Definition TaskStore_get (store : TaskStore) (id : value) : option object :=
  store !! id.

(** Modelled from the spec: [save(task)] of the task store upserts by
    [task.id] and overwrites any existing entry entirely. *)
Definition TaskStore_save (task : object) (store : TaskStore) : TaskStore :=
  <[prop task "id" := task]> store.

(** The readings of the clock, [new Date().toISOString()], taken during one
    call: for the status of a freshly created task, for the artifact's
    metadata, and for the final status. *)
Record Dates := { now_created : string; now_artifact : string; now_completed : string }.

(** What one call of an executor's [onMessageSend(request, task)] leaves
    behind: the returned envelope, or the exception that escaped, and the final
    state of the object that was passed as [task] (the executors update it in
    place). *)
Record execution := { response : completion value; task_after : option object }.

Definition Executor : Type := value → option object → execution.

(** The envelope [{ jsonrpc: '2.0', id: request.id, error: { code, message } }]. *)
Definition error_response (request : value) (code : Z) (message : string) : completion value :=
  id ← get_prop request "id";
  mret (VObj [("jsonrpc", VStr "2.0"); ("id", id);
              ("error", VObj [("code", VNum code); ("message", VStr message)])]).

(** The envelope [{ jsonrpc: '2.0', id: request.id, result }]. *)
Definition result_response (request : value) (result : value) : completion value :=
  id ← get_prop request "id";
  mret (VObj [("jsonrpc", VStr "2.0"); ("id", id); ("result", result)]).

(** [error.message || fallback] *)
Definition message_or (message fallback : string) : string :=
  if String.eqb message "" then fallback else message.

(** The error codes of the two executors: [-32000] in the [catch] clause,
    [-32602] for a request the product service agent does not handle. *)
Definition INTERNAL_ERROR : Z := -32000.
Definition INVALID_PARAMS : Z := -32602.

(** The [catch] clause shared by both executors: the exception becomes an
    error envelope with code -32000. *)
Definition catch_all (fallback : string) (request : value) (run : execution) : execution :=
  match response run with
  | Normal _ => run
  | Throw e =>
      {| response := error_response request INTERNAL_ERROR (message_or e fallback);
         task_after := task_after run |}
  end.

(** [{ state, message, timestamp }] *)
Definition status_object (state message : value) (timestamp : string) : value :=
  VObj [("state", state); ("message", message); ("timestamp", VStr timestamp)].

(** [{ role: Role.Agent, parts: [{ type: 'text', text }] }] *)
Definition agent_text_message (text : string) : value :=
  VObj [("role", Role_Agent); ("parts", VArr [VObj [("type", VStr "text"); ("text", VStr text)]])].

(** The object passed as [task] is the one the executor works on, when there
    is one; a task the executor created itself is not visible through
    [task]. *)
Definition alias (task : option object) (taskObj : object) : option object :=
  match task with
  | Some _ => Some taskObj
  | None => None
  end.

(** ** The greeting agent *)

Section Greeting.
(** [JSON.parse] is the engine's; [None] stands for its [SyntaxError]. *)
Variable JSON_parse : string → option value.

(** [GreetingAgent.handleGreeting(input)] *)
Definition handleGreeting (input : value) : completion string :=
  name ← interpolate (js_or (get_prop_opt input "name") (VStr "friend"));
  mret ("Hey " +:+ name +:+ ", greetings from Agent B 🤝").

(** The first half of the [try] block of
    [GreetingAgentExecutor.onMessageSend]: from the request to the agent's
    response message. *)
Definition greeting_agentMessage (request : value) : completion value :=
  params ← get_prop request "params";
  message ← get_prop params "message";
  parts ← get_prop message "parts";
  messageText ← text_of_parts parts;
  let taskData :=
    match JSON_parse messageText with
    | Some parsed => parsed
    | None => VObj [("type", VStr "greeting"); ("input", VObj [("message", VStr messageText)])]
    end in
  type ← get_prop taskData "type";
  result ← (if strict_eq_str type "greeting"
            then input ← get_prop taskData "input"; handleGreeting input
            else mret "Unsupported task type");
  mret (agent_text_message result).

(** The task a tasks/send request starts from when [task] is absent. *)
Definition greeting_new_task (d : Dates) (taskId sessionId : value) : object :=
  [("id", taskId); ("sessionId", sessionId);
   ("status", status_object TaskState_Working VNull (now_created d));
   ("history", VArr []); ("metadata", VObj [])].

(** The updates of [taskObj] in the tasks/send branch; the second component
    is the state [taskObj] is left in. *)
Definition greeting_update (d : Dates) (userMessage agentMessage : value) (taskObj : object)
    : completion value * object :=
  let taskObj1 :=
    set_prop taskObj "status" (status_object TaskState_Completed agentMessage (now_completed d)) in
  let taskObj2 :=
    if negb (truthy (prop taskObj1 "history")) then set_prop taskObj1 "history" (VArr [])
    else taskObj1 in
  match prop taskObj2 "history" with
  | VArr history =>
      let userMessageExists :=
        existsb (λ msg, bool_decide (JSON_stringify msg = JSON_stringify userMessage)) history in
      let history1 := if negb userMessageExists then history ++ [userMessage] else history in
      let taskObj3 := set_prop taskObj2 "history" (VArr (history1 ++ [agentMessage])) in
      (Normal (VObj taskObj3), taskObj3)
  | _ => (TypeError "taskObj.history.some is not a function", taskObj2)
  end.

(** The [try] block up to the test of [isTaskRequest]: the agent's message,
    [request.params] and [request.params.id]. *)
Definition greeting_prefix (request : value) : completion (value * value * value) :=
  agentMessage ← greeting_agentMessage request;
  params ← get_prop request "params";
  isTaskRequest ← get_prop params "id";
  mret (agentMessage, params, isTaskRequest).

(** The [try] block of [GreetingAgentExecutor.onMessageSend]. *)
Definition Greeting_try (d : Dates) (request : value) (task : option object) : execution :=
  match greeting_prefix request with
  | Throw e => {| response := Throw e; task_after := task |}
  | Normal (agentMessage, params, isTaskRequest) =>
      if truthy isTaskRequest then
        let taskId := isTaskRequest in
        (* [request.params] was read above, so it is neither undefined nor
           null and reading its properties again cannot throw *)
        let sessionId := js_or (get_prop_opt params "sessionId") VNull in
        let taskObj := default (greeting_new_task d taskId sessionId) task in
        let userMessage := get_prop_opt params "message" in
        let '(result, taskObj') := greeting_update d userMessage agentMessage taskObj in
        {| response := result ← result; result_response request result;
           task_after := alias task taskObj' |}
      else
        {| response := result_response request agentMessage; task_after := task |}
  end.

(** [GreetingAgentExecutor.onMessageSend(request, task)] *)
Definition Greeting_onMessageSend (d : Dates) : Executor := λ request task,
  catch_all "Internal error" request (Greeting_try d request task).
End Greeting.

(** ** The product service agent (agent-b/index.js) *)

(** What the network answers to [fetch(ACP_TOOL_ENDPOINT, ...)]: the promise
    is rejected, or a response arrives, with its [ok] flag, [status],
    [statusText] and the outcome of [response.json()]. *)
Inductive fetch_outcome : Type :=
  | FetchRejected (message : string)
  | FetchResponse (ok : bool) (status : Z) (statusText : string) (json : completion value).

(** The callback of [.map] in [ACPToolClient.getProducts]. *)
Definition normalize_product (product : value) : completion value :=
  id ← get_prop product "id";
  sku ← get_prop product "sku";
  name ← get_prop product "name";
  description ← get_prop product "description";
  price ← get_prop product "price";
  availability ← get_prop product "availability";
  category ← get_prop product "category";
  attributes ← get_prop product "attributes";
  mret (VObj [("id", id); ("sku", sku); ("name", name);
              ("description", js_or description (VStr ""));
              ("price", js_or (get_prop_opt price "amount") (VNum 0));
              ("currency", js_or (get_prop_opt price "currency") (VStr "USD"));
              ("inStock", js_or (get_prop_opt availability "inStock") (VBool false));
              ("quantity", js_or (get_prop_opt availability "quantity") (VNum 0));
              ("category", js_or category (VStr ""));
              ("vendor", js_or (get_prop_opt attributes "vendor") (VStr ""));
              ("tags", js_or (get_prop_opt attributes "tags") (VArr []))]).

(** [ACPToolClient.getProducts(filters)]; the [filters] are not used, and the
    [catch] clause rethrows what it caught. *)
Definition getProducts (net : fetch_outcome) : completion value :=
  match net with
  | FetchRejected e => Throw e
  | FetchResponse ok status statusText json =>
      if negb ok then
        Throw ("ACP endpoint error: " +:+ pretty status +:+ " " +:+ statusText)
      else
        acpResponse ← json;
        (* the log line prints [acpResponse.products?.length || 0] *)
        logged ← get_prop acpResponse "products";
        _ ← interpolate (js_or (get_prop_opt logged "length") (VNum 0));
        products ← get_prop acpResponse "products";
        l ← as_array (js_or products (VArr [])) "map";
        normalizedProducts ← mapM normalize_product l;
        metadata ← get_prop acpResponse "metadata";
        shop ← get_prop acpResponse "shop";
        mret (VObj [("products", VArr normalizedProducts);
                    ("metadata",
                     VObj [("total", js_or (get_prop_opt metadata "total")
                                           (VNum (Z.of_nat (length normalizedProducts))));
                           ("shop", js_or (get_prop_opt shop "name") (VStr "Unknown"));
                           ("currency", js_or (get_prop_opt shop "currency") (VStr "USD"));
                           ("lastSync", js_or (get_prop_opt shop "lastSync") VNull)])])
  end.

(** The test [isProductRequest] of [ProductServiceExecutor.onMessageSend]. *)
Definition isProductRequest (messageText : string) (structuredRequest : value) : bool :=
  includes (toLowerCase messageText) "product" ||
  includes (toLowerCase messageText) "inventory" ||
  includes (toLowerCase messageText) "get" ||
  (truthy structuredRequest && strict_eq_str (get_prop_opt structuredRequest "action") "get_products").

(** The task a request starts from when [task] is absent. *)
Definition product_new_task (d : Dates) (taskId sessionId : value) : object :=
  [("id", taskId); ("sessionId", sessionId);
   ("status", status_object TaskState_Working VNull (now_created d));
   ("history", VArr []); ("artifacts", VArr []); ("metadata", VObj [])].

(** [productArtifact] *)
Definition productArtifact (d : Dates) (productData : value) : value :=
  VObj [("name", VStr "Product Inventory");
        ("description", VStr "Current inventory of available products");
        ("parts", VArr [VObj [("type", VStr "data"); ("data", productData)]]);
        ("index", VNum 0);
        ("metadata", VObj [("source", VStr "ACP Tool"); ("timestamp", VStr (now_artifact d))])].

(** [Found ${productData.products?.length || 0} products in inventory.] *)
Definition product_agentMessage (productData : value) : completion value :=
  products ← get_prop productData "products";
  count ← interpolate (js_or (get_prop_opt products "length") (VNum 0));
  mret (agent_text_message ("Found " +:+ count +:+ " products in inventory.")).

(** [taskObj.history.push(message)] *)
Definition history_push (taskObj : object) (message : value) : completion object :=
  match prop taskObj "history" with
  | VArr history => Normal (set_prop taskObj "history" (VArr (history ++ [message])))
  | _ => TypeError "taskObj.history.push is not a function"
  end.

(** The updates of [taskObj], from "Add user message to history" to "Add
    artifact to task"; the second component is the state [taskObj] is left
    in. *)
Definition product_update (d : Dates) (message productData : value) (taskObj : object)
    : completion value * object :=
  let taskObj1 :=
    if negb (truthy (prop taskObj "history")) then set_prop taskObj "history" (VArr [])
    else taskObj in
  match history_push taskObj1 message with
  | Throw e => (Throw e, taskObj1)
  | Normal taskObj2 =>
      match product_agentMessage productData with
      | Throw e => (Throw e, taskObj2)
      | Normal agentMessage =>
          match history_push taskObj2 agentMessage with
          | Throw e => (Throw e, taskObj2)
          | Normal taskObj3 =>
              let taskObj4 :=
                set_prop taskObj3 "status"
                  (status_object TaskState_Completed agentMessage (now_completed d)) in
              let taskObj5 :=
                set_prop taskObj4 "artifacts" (VArr [productArtifact d productData]) in
              (Normal (VObj taskObj5), taskObj5)
          end
      end
  end.

(** The [try] block up to "Get or create task object": either the rejection
    of a request that is not about products, or the message, the product data,
    [request.params.id] and [request.params.sessionId || null]. *)
Definition product_prefix (net : fetch_outcome) (request : value)
    : completion (value + value * value * value * value) :=
  (* the first log lines print [request.id] and [request.method] *)
  id ← get_prop request "id";
  _ ← interpolate id;
  method ← get_prop request "method";
  _ ← interpolate method;
  params ← get_prop request "params";
  message ← get_prop params "message";
  parts ← get_prop message "parts";
  messageText ← text_of_parts parts;
  l ← as_array parts "find";
  dataPart ← find_by_type "data" l;
  structuredRequest ← (if truthy dataPart then get_prop dataPart "data" else mret VNull);
  if negb (isProductRequest messageText structuredRequest) then
    rejection ← error_response request INVALID_PARAMS
                  "This agent only handles product inventory requests";
    mret (inl rejection)
  else
    productData ← getProducts net;
    taskId ← get_prop params "id";
    sessionId ← get_prop params "sessionId";
    mret (inr (message, productData, taskId, js_or sessionId VNull)).

(** The [try] block of [ProductServiceExecutor.onMessageSend]. *)
Definition Product_try (d : Dates) (net : fetch_outcome) (request : value)
    (task : option object) : execution :=
  match product_prefix net request with
  | Throw e => {| response := Throw e; task_after := task |}
  | Normal (inl rejection) => {| response := Normal rejection; task_after := task |}
  | Normal (inr (message, productData, taskId, sessionId)) =>
      let taskObj := default (product_new_task d taskId sessionId) task in
      let '(result, taskObj') := product_update d message productData taskObj in
      {| response := result ← result; result_response request result;
         task_after := alias task taskObj' |}
  end.

(** [ProductServiceExecutor.onMessageSend(request, task)] *)
Definition Product_onMessageSend (d : Dates) (net : fetch_outcome) : Executor := λ request task,
  catch_all "Internal error processing product request" request (Product_try d net request task).

(** ** The request handler *)

(** Modelled from the spec: the part of
    [DefaultA2ARequestHandler.onMessageSend] (a2a-js package, not among the
    sources) that follows the loading of the task.  It invokes the executor
    with the request and the loaded task; the store hands out the stored
    object itself, so what the executor did to that object in place shows in
    the store under the request's id.  As the comments on
    [CustomRequestHandler] tell, it then saves a result only when that has a
    [taskId] property. *)
Definition DefaultA2ARequestHandler_resume (agentExecutor : Executor)
    (request : value) (task : option object) (store : TaskStore) : completion value * TaskStore :=
  let id := get_prop_opt (get_prop_opt request "params") "id" in
  let run := agentExecutor request task in
  let store1 :=
    match task_after run with
    | Some taskObj => <[id := taskObj]> store
    | None => store
    end in
  match response run with
  | Throw e => (Throw e, store1)
  | Normal response =>
      match get_prop_opt response "result" with
      | VObj result =>
          (Normal response, if has_prop result "taskId" then TaskStore_save result store1 else store1)
      | _ => (Normal response, store1)
      end
  end.

(** Modelled from the spec: the dispatcher of the a2a-js package, which is
    not among the sources, rejects a malformed request, one whose required
    [message] is missing, before it reaches the executor, with the code
    reserved for invalid params. *)
Definition DefaultA2ARequestHandler_reject (request : value) : option value :=
  if is_nullish (get_prop_opt (get_prop_opt request "params") "message") then
    Some (VObj [("jsonrpc", VStr "2.0"); ("id", get_prop_opt request "id");
                ("error", VObj [("code", VNum INVALID_PARAMS);
                                ("message", VStr "Invalid params")])])
  else None.

(** Modelled from the spec: the task the dispatcher of the a2a-js package
    loads for a request: the one stored under [params.id] when the request
    has a task id and the store has a task for it, none otherwise. *)
Definition DefaultA2ARequestHandler_load (request : value) (store : TaskStore)
    : option object :=
  let id := get_prop_opt (get_prop_opt request "params") "id" in
  if is_nullish id then None else TaskStore_get store id.

(** Modelled from the spec: [DefaultA2ARequestHandler.onMessageSend] of the
    a2a-js package, which is not among the sources: it rejects a request
    without a message, loads the task of any other request, and goes on as
    above. *)
Definition DefaultA2ARequestHandler_onMessageSend (agentExecutor : Executor)
    (request : value) (store : TaskStore) : completion value * TaskStore :=
  match DefaultA2ARequestHandler_reject request with
  | Some rejection => (Normal rejection, store)
  | None =>
      DefaultA2ARequestHandler_resume agentExecutor request
        (DefaultA2ARequestHandler_load request store) store
  end.

(** The condition under which [CustomRequestHandler.onMessageSend] saves:
    ["result" in response && response.result &&
     typeof response.result === "object" &&
     "id" in response.result && "status" in response.result]. *)
Definition is_Task_response (response : value) : completion bool :=
  has_result ← js_in "result" response;
  if negb has_result then mret false
  else
    result ← get_prop response "result";
    if negb (truthy result) then mret false
    else if negb (typeof_object result) then mret false
    else
      has_id ← js_in "id" result;
      if negb has_id then mret false else js_in "status" result.

Section CustomRequestHandler.
(** The parent's method, [super.onMessageSend]. *)
Variable super_onMessageSend : value → TaskStore → completion value * TaskStore.

(** [CustomRequestHandler.onMessageSend(request)], the same in both agents. *)
Definition CustomRequestHandler_onMessageSend (request : value) (store : TaskStore)
    : completion value * TaskStore :=
  match super_onMessageSend request store with
  | (Throw e, store1) => (Throw e, store1)
  | (Normal response, store1) =>
      match is_Task_response response with
      | Throw e => (Throw e, store1)
      | Normal false => (Normal response, store1)
      | Normal true =>
          match get_prop_opt response "result" with
          | VObj result => (Normal response, TaskStore_save result store1)
          | _ => (Normal response, store1)
          end
      end
  end.
End CustomRequestHandler.

(** [new CustomRequestHandler(executor)]: the handler the server is started
    with. *)
Definition requestHandler_onMessageSend (agentExecutor : Executor)
    : value → TaskStore → completion value * TaskStore :=
  CustomRequestHandler_onMessageSend (DefaultA2ARequestHandler_onMessageSend agentExecutor).

(** ** The two agents

    An executor together with what its surroundings do during one call: the
    readings of the clock, the engine's [JSON.parse], the answer of the
    network. *)
Inductive AgentExecutor : Type :=
  | GreetingAgentExecutor (JSON_parse : string → option value) (d : Dates)
  | ProductServiceExecutor (d : Dates) (net : fetch_outcome).

Definition try_block (a : AgentExecutor) : Executor :=
  match a with
  | GreetingAgentExecutor JSON_parse d => Greeting_try JSON_parse d
  | ProductServiceExecutor d net => Product_try d net
  end.

Definition onMessageSend (a : AgentExecutor) : Executor :=
  match a with
  | GreetingAgentExecutor JSON_parse d => Greeting_onMessageSend JSON_parse d
  | ProductServiceExecutor d net => Product_onMessageSend d net
  end.

(** The message the [catch] clause falls back on. *)
Definition fallback_message (a : AgentExecutor) : string :=
  match a with
  | GreetingAgentExecutor _ _ => "Internal error"
  | ProductServiceExecutor _ _ => "Internal error processing product request"
  end.

(** One request served by the agent's request handler. *)
Definition serve (a : AgentExecutor) (request : value) (store : TaskStore) : completion value * TaskStore :=
  requestHandler_onMessageSend (onMessageSend a) request store.

(** Requests served strictly one after another. *)
Fixpoint serve_all (calls : list (AgentExecutor * value)) (store : TaskStore) : TaskStore :=
  match calls with
  | [] => store
  | (a, request) :: rest => serve_all rest (serve a request store).2
  end.

(** [request.params.id], the key under which the handler looks the task up. *)
Definition request_task_id (request : value) : value :=
  get_prop_opt (get_prop_opt request "params") "id".

(** [request.params.message] *)
Definition request_message (request : value) : value :=
  get_prop_opt (get_prop_opt request "params") "message".

(** ** The data model of the protocol, and its encoding as values *)

(** Who speaks. *)
Inductive Role : Type := User | Agent.

(** One unit of message content: text, structured data, or a file given by
    its bytes or by a URI. *)
Inductive Part : Type :=
  | Text (text : string)
  | Data (data : value)
  | File (name mimeType : string) (content : string + string).

(** A message: a role and an ordered sequence of parts. *)
Record Message := { role : Role; parts : list Part }.

(** The values the client puts on the wire for them. *)
Definition Role_value (r : Role) : value :=
  match r with
  | User => Role_User
  | Agent => Role_Agent
  end.

Definition Part_value (p : Part) : value :=
  match p with
  | Text text => VObj [("type", VStr "text"); ("text", VStr text)]
  | Data data => VObj [("type", VStr "data"); ("data", data)]
  | File name mimeType content =>
      VObj [("type", VStr "file");
            ("file", VObj [("name", VStr name); ("mimeType", VStr mimeType);
                           match content with
                           | inl bytes => ("bytes", VStr bytes)
                           | inr uri => ("uri", VStr uri)
                           end])]
  end.

Definition Message_value (m : Message) : value :=
  VObj [("role", Role_value (role m)); ("parts", VArr (map Part_value (parts m)))].

(** The text of a message as the protocol description words it: the [text]
    of every [Text] part, in order, concatenated. *)
Fixpoint spec_extractText (parts : list Part) : string :=
  match parts with
  | [] => ""
  | Text text :: rest => text +:+ spec_extractText rest
  | _ :: rest => spec_extractText rest
  end.

Definition is_Text (p : Part) : bool :=
  match p with
  | Text _ => true
  | _ => false
  end.

(** The entries of a task's history as the executors find it: those of the
    array, or none yet when the property is missing or falsy.  A truthy value
    that is not an array is no history at all. *)
Definition history_of (taskObj : object) : option (list value) :=
  match prop taskObj "history" with
  | VArr history => Some history
  | v => if truthy v then None else Some []
  end.

(** The history update as the protocol description words it ([applyResult],
    steps 1 and 2): the inbound message is appended unless an existing entry
    is structurally identical, the outbound message always.  Two messages are
    structurally identical when they serialise to the same JSON text. *)
Definition same_json (a b : value) : bool :=
  bool_decide (JSON_stringify a = JSON_stringify b).

Definition is_duplicate (history : list value) (inbound : value) : bool :=
  existsb (λ entry, same_json entry inbound) history.

Definition spec_applyResult_history (history : list value) (inbound outbound : value) : list value :=
  (if is_duplicate history inbound then history else history ++ [inbound]) ++ [outbound].

(** The history after a sequence of exchanges, and the number of inbound
    messages suppressed on the way. *)
Fixpoint spec_history (history : list value) (exchanges : list (value * value)) : list value :=
  match exchanges with
  | [] => history
  | (inbound, outbound) :: rest =>
      spec_history (spec_applyResult_history history inbound outbound) rest
  end.

Fixpoint suppressed (history : list value) (exchanges : list (value * value)) : nat :=
  match exchanges with
  | [] => 0
  | (inbound, outbound) :: rest =>
      ((if is_duplicate history inbound then 1 else 0)
       + suppressed (spec_applyResult_history history inbound outbound) rest)%nat
  end.

(** The task the tasks/send branch of the greeting agent leaves behind when it
    started from [taskObj] with the entries [history]. *)
Definition greeting_result (d : Dates) (userMessage agentMessage : value) (taskObj : object)
    (history : list value) : object :=
  set_prop
    (set_prop taskObj "status"
       (status_object TaskState_Completed agentMessage (now_completed d)))
    "history" (VArr (spec_applyResult_history history userMessage agentMessage)).

(** The task a successful cycle of the product service agent leaves behind. *)
Definition product_result (d : Dates) (message agentMessage productData : value)
    (taskObj : object) (history : list value) : object :=
  set_prop
    (set_prop
       (set_prop taskObj "history" (VArr (history ++ [message; agentMessage])))
       "status" (status_object TaskState_Completed agentMessage (now_completed d)))
    "artifacts" (VArr [productArtifact d productData]).

(** The payloads the greeting agent fails on: [null], whose [type] cannot be
    read, and a greeting whose [input.name] cannot be converted to a string. *)
Definition unanswerable (taskData : value) : bool :=
  is_nullish taskData
  || (strict_eq_str (get_prop_opt taskData "type") "greeting"
      && negb (printable (get_prop_opt (get_prop_opt taskData "input") "name"))).

(** An executor accepts a request with the text [text]: the greeting agent
    unless [JSON.parse] turns the text into a payload it fails on; the product
    service agent when [request.id] and [request.method] can be converted to
    strings, the text is about products and the catalogue answers. *)
Definition accepts (a : AgentExecutor) (request : value) (text : string) : Prop :=
  match a with
  | GreetingAgentExecutor JSON_parse _ =>
      ∀ parsed, JSON_parse text = Some parsed → unanswerable parsed = false
  | ProductServiceExecutor _ net =>
      printable (get_prop_opt request "id") = true
      ∧ printable (get_prop_opt request "method") = true
      ∧ isProductRequest text VNull = true
      ∧ ∃ productData, getProducts net = Normal productData
  end.

(** The outcome the protocol description expects of a first tasks/send: a
    task in state Completed whose history is the user's message followed by
    the agent's. *)
Definition completes_with_two_messages (run : execution) : Prop :=
  ∃ envelope result userMessage agentMessage,
    response run = Normal envelope
    ∧ get_prop envelope "result" = Normal (VObj result)
    ∧ get_prop_opt (prop result "status") "state" = TaskState_Completed
    ∧ prop result "history" = VArr [userMessage; agentMessage]
    ∧ get_prop_opt userMessage "role" = Role_User
    ∧ get_prop_opt agentMessage "role" = Role_Agent.

(** What either executor returns, when it returns a result, is described by
    one of three shapes. *)
Inductive result_shape (a : AgentExecutor) (request : value) (task : option object)
    (result : value) : Prop :=
  | greeting_message JSON_parse d :
      a = GreetingAgentExecutor JSON_parse d →
      truthy (request_task_id request) = false →
      greeting_agentMessage JSON_parse request = Normal result →
      task_after (onMessageSend a request task) = task →
      result_shape a request task result
  | greeting_task JSON_parse d agentMessage taskObj history :
      a = GreetingAgentExecutor JSON_parse d →
      truthy (request_task_id request) = true →
      greeting_agentMessage JSON_parse request = Normal agentMessage →
      taskObj = default (greeting_new_task d (request_task_id request)
                           (js_or (get_prop_opt (get_prop_opt request "params") "sessionId") VNull))
                        task →
      history_of taskObj = Some history →
      result = VObj (greeting_result d (request_message request) agentMessage taskObj history) →
      task_after (onMessageSend a request task)
      = alias task (greeting_result d (request_message request) agentMessage taskObj history) →
      result_shape a request task result
  | product_task d net productData agentMessage taskObj history :
      a = ProductServiceExecutor d net →
      getProducts net = Normal productData →
      product_agentMessage productData = Normal agentMessage →
      taskObj = default (product_new_task d (request_task_id request)
                           (js_or (get_prop_opt (get_prop_opt request "params") "sessionId") VNull))
                        task →
      history_of taskObj = Some history →
      result = VObj (product_result d (request_message request) agentMessage productData
                       taskObj history) →
      task_after (onMessageSend a request task)
      = alias task (product_result d (request_message request) agentMessage productData
                      taskObj history) →
      result_shape a request task result.

(** ** Serving requests *)

(** The handler's method from the point where the task has been loaded. *)
Definition resume (a : AgentExecutor) (request : value) (task : option object)
    (store : TaskStore) : completion value * TaskStore :=
  CustomRequestHandler_onMessageSend
    (λ request store, DefaultA2ARequestHandler_resume (onMessageSend a) request task store)
    request store.

(** The store after the executor ran: what it did to the loaded task shows
    under the request's id. *)
Definition written_back (a : AgentExecutor) (request : value) (task : option object)
    (store : TaskStore) : TaskStore :=
  match task_after (onMessageSend a request task) with
  | Some taskObj => <[request_task_id request := taskObj]> store
  | None => store
  end.

(** Two calls whose cycles interleave.  The product service agent awaits the
    network in the middle of [onMessageSend]; a second request that arrives
    meanwhile is dispatched, and its task loaded, before the first call
    resumes.  A task that was loaded is the stored object itself, so the
    second call finds it in the state the first left it in; a call that
    loaded nothing goes on with nothing. *)
Definition interleaved (a1 : AgentExecutor) (request1 : value)
    (a2 : AgentExecutor) (request2 : value) (store : TaskStore) : TaskStore :=
  let task1 := DefaultA2ARequestHandler_load request1 store in
  let task2 := DefaultA2ARequestHandler_load request2 store in
  let store1 := (resume a1 request1 task1 store).2 in
  let task2' :=
    match task2 with
    | Some _ => TaskStore_get store1 (request_task_id request2)
    | None => None
    end in
  (resume a2 request2 task2' store1).2.

(** ** The statements of the protocol description *)

(** message/send: the store is left as it was, and what is returned is not a
    task. *)
Definition message_send_leaves_store (a : AgentExecutor) (request : value)
    (store : TaskStore) : Prop :=
  (serve a request store).2 = store
  ∧ ∀ envelope, (serve a request store).1 = Normal envelope →
                is_Task_response envelope = Normal false.

(** One cycle on an existing task: the inbound message is appended unless the
    history has a structurally identical entry, the outbound message
    always. *)
Definition appends_unless_duplicate (a : AgentExecutor) (request : value) (task : object)
    : Prop :=
  ∀ envelope result history,
    response (onMessageSend a request (Some task)) = Normal envelope →
    get_prop_opt envelope "result" = VObj result →
    has_prop result "status" = true →
    history_of task = Some history →
    ∃ agentMessage,
      prop result "history"
      = VArr (spec_applyResult_history history (request_message request) agentMessage).

(** No lost update: after two interleaved calls the stored task's history has
    the inbound messages of both. *)
Definition no_lost_update (a1 : AgentExecutor) (request1 : value)
    (a2 : AgentExecutor) (request2 : value) (store : TaskStore) : Prop :=
  ∃ task history,
    TaskStore_get (interleaved a1 request1 a2 request2 store) (request_task_id request1)
    = Some task
    ∧ prop task "history" = VArr history
    ∧ request_message request1 ∈ history
    ∧ request_message request2 ∈ history.



(** A task stored under [id], carrying that [id], with the entries
    [history]. *)
Definition stored_task (store : TaskStore) (id : value) (history : list value) : Prop :=
  ∃ task, TaskStore_get store id = Some task
          ∧ lookup_prop task "id" = Some id
          ∧ prop task "history" = VArr history.

(** The calls of a client that sends its requests to the greeting agent. *)
Definition greeting_call (JSON_parse : string → option value) (call : Dates * value)
    : AgentExecutor * value :=
  (GreetingAgentExecutor JSON_parse call.1, call.2).

(** ** Reading JSON texts back *)

(** Reading back one escaped code unit. *)
Definition hex_value (c : ascii) : N :=
  let n := N_of_ascii c in if (n <? 58)%N then n - 48 else n - 87.

Definition json_unescape (s : string) : option (ascii * string) :=
  match s with
  | String "\" (String "u" (String "0" (String "0" (String h (String l rest))))) =>
      Some (ascii_of_N (16 * hex_value h + hex_value l), rest)
  | String "\" (String "b" rest) => Some ("008"%char, rest)
  | String "\" (String "t" rest) => Some ("009"%char, rest)
  | String "\" (String "n" rest) => Some ("010"%char, rest)
  | String "\" (String "f" rest) => Some ("012"%char, rest)
  | String "\" (String "r" rest) => Some ("013"%char, rest)
  | String "\" (String c rest) => Some (c, rest)
  | String "034" _ => None
  | String c rest => Some (c, rest)
  | EmptyString => None
  end.

(** Decimal numerals. *)
Definition is_digit (c : ascii) : bool :=
  let n := N_of_ascii c in (48 <=? n)%N && (n <=? 57)%N.

Fixpoint all_digits (s : string) : bool :=
  match s with
  | EmptyString => true
  | String c s' => is_digit c && all_digits s'
  end.

(** What follows a value in a JSON text does not start with a digit. *)
Definition delimited (s : string) : bool :=
  match s with
  | EmptyString => true
  | String c _ => negb (is_digit c)
  end.

(** A JSON value: no [undefined] anywhere inside. *)
Fixpoint defined (v : value) : bool :=
  match v with
  | VUndefined => false
  | VArr l => forallb defined l
  | VObj o => forallb (λ kv, defined kv.2) o
  | _ => true
  end.

(** The text [JSON.stringify] gives a value inside an array. *)
Definition json_text (v : value) : string := default "null" (JSON_stringify v).

Definition json_entry (kv : string * value) : string :=
  json_quote kv.1 +:+ ":" +:+ json_text kv.2.

(** What [String.concat ","] puts after the first element. *)
Fixpoint comma_tail (l : list string) : string :=
  match l with
  | [] => ""
  | x :: xs => "," +:+ x +:+ comma_tail xs
  end.

(** The first character of a value's text tells its kind. *)
Definition kind (v : value) : nat :=
  match v with
  | VNull => 0 | VBool _ => 1 | VNum _ => 2 | VStr _ => 3 | VArr _ => 4 | VObj _ => 5
  | VUndefined => 6
  end.

Definition head_kind (s : string) : nat :=
  match s with
  | String c _ =>
      if Ascii.eqb c "n" then 0
      else if Ascii.eqb c "t" || Ascii.eqb c "f" then 1
      else if is_digit c || Ascii.eqb c "-" then 2
      else if Ascii.eqb c "034" then 3
      else if Ascii.eqb c "[" then 4
      else if Ascii.eqb c "{" then 5
      else 7
  | EmptyString => 7
  end%nat.

(** A value whose text, followed by anything that does not start with a
    digit, can only be read back as that value. *)
Definition text_determines (a : value) : Prop :=
  defined a = true →
  ∀ b r1 r2,
    defined b = true → delimited r1 = true → delimited r2 = true →
    json_text a +:+ r1 = json_text b +:+ r2 → a = b ∧ r1 = r2.

(** ** The client's other helpers (agent-a/index.js) *)

(** [Array.isArray(v)] *)
Definition Array_isArray (v : value) : bool :=
  match v with
  | VArr _ => true
  | _ => false
  end.

(** The object [{ name, description, data }] that [extractArtifacts] makes
    of an artifact. *)
Record extracted_artifact := {
  artifact_name : value;
  artifact_description : value;
  artifact_data : list value
}.

(** The callback of [.map] in [extractArtifacts]. *)
Definition extract_artifact (artifact : value) : completion extracted_artifact :=
  parts ← get_prop artifact "parts";
  l ← as_array parts "filter";
  dataParts ← filter_by_type "data" l;
  name ← get_prop artifact "name";
  description ← get_prop artifact "description";
  data ← mapM (λ part, get_prop part "data") dataParts;
  mret {| artifact_name := name; artifact_description := description; artifact_data := data |}.

(** [extractArtifacts(task)] *)
Definition extractArtifacts (task : value) : completion (list extracted_artifact) :=
  if negb (truthy task) then mret []
  else
    artifacts ← get_prop task "artifacts";
    if negb (truthy artifacts) then mret []
    else if negb (Array_isArray artifacts) then mret []
    else
      l ← as_array artifacts "map";
      mapM extract_artifact l.

(** The line feed of the templates. *)
Definition LF : string := String "010" EmptyString.

(** [priceStr] in [formatProductsForDisplay] *)
Definition priceStr (product : value) : completion string :=
  currency ← get_prop product "currency";
  if truthy currency then
    currency ← interpolate currency;
    price ← interpolate (get_prop_opt product "price");
    mret (currency +:+ " " +:+ price)
  else
    price ← interpolate (js_or (get_prop_opt product "price") (VStr "N/A"));
    mret ("$" +:+ price).

(** [stockStatus] in [formatProductsForDisplay] *)
Definition stockStatus (product : value) : completion string :=
  inStock ← get_prop product "inStock";
  if truthy inStock then
    quantity ← interpolate (get_prop_opt product "quantity");
    mret ("✅ In Stock (" +:+ quantity +:+ " available)")
  else mret "❌ Out of Stock".

(** The last two lines of a block: the label and the value when there is
    one, nothing otherwise. *)
Definition labelled (label : string) (v : value) : completion string :=
  if truthy v then text ← interpolate v; mret (label +:+ ": " +:+ text) else mret "".

(** The callback of [.map] in [formatProductsForDisplay]. *)
Definition format_product (index : nat) (product : value) : completion string :=
  priceStr ← priceStr product;
  stockStatus ← stockStatus product;
  (* [product.currency] was read, so [product] is neither undefined nor
     null and reading its other properties cannot throw *)
  name ← interpolate (js_or (get_prop_opt product "name") (VStr "Unnamed Product"));
  sku ← interpolate (js_or (get_prop_opt product "sku") (VStr "N/A"));
  category ← labelled "Category" (get_prop_opt product "category");
  vendor ← labelled "Vendor" (get_prop_opt product "vendor");
  mret (LF +:+ pretty (Z.of_nat index + 1) +:+ ". " +:+ name +:+ LF
        +:+ "   SKU: " +:+ sku +:+ LF
        +:+ "   Price: " +:+ priceStr +:+ LF
        +:+ "   Status: " +:+ stockStatus +:+ LF
        +:+ "   " +:+ category +:+ LF
        +:+ "   " +:+ vendor).

(** [products.map((product, index) => ...)], from [index] on. *)
Fixpoint format_products (index : nat) (products : list value) : completion (list string) :=
  match products with
  | [] => Normal []
  | product :: rest =>
      block ← format_product index product;
      blocks ← format_products (S index) rest;
      mret (block :: blocks)
  end.

(** [formatProductsForDisplay(products)] *)
Definition formatProductsForDisplay (products : value) : completion string :=
  if negb (truthy products) then mret "No products found"
  else if negb (Array_isArray products) then mret "No products found"
  else
    l ← as_array products "map";
    blocks ← format_products 0 l;
    mret (String.concat LF blocks).

(** ** What the client prints (agent-a/index.js, [requestProducts]) *)

(** A line written by [console.log] or by [console.error]. *)
Inductive line : Type :=
  | Out (text : string)
  | Err (text : string).

(** A computation that prints: the lines printed so far, and the outcome. *)
Definition printing (A : Type) : Type := (list line * completion A)%type.

#[global] Instance printing_ret : MRet printing := λ A a, ([], Normal a).
#[global] Instance printing_bind : MBind printing := λ A B k m,
  match m.2 with
  | Normal a => (m.1 ++ (k a).1, (k a).2)
  | Throw e => (m.1, Throw e)
  end.

(** [console.log(text)], [console.error(text)], and an expression that is
    evaluated between two of them. *)
Definition console_log (text : string) : printing () := ([Out text], Normal ()).
Definition console_error (text : string) : printing () := ([Err text], Normal ()).
Definition eval {A} (c : completion A) : printing A := ([], c).

(** [for (const x of l) body] *)
Fixpoint for_of {A} (body : A → printing ()) (l : list A) : printing () :=
  match l with
  | [] => mret ()
  | x :: rest => body x ;; for_of body rest
  end.

(** The lines that close the report. *)
Definition summary : printing () :=
  console_log (LF +:+ String.concat "" (replicate 60 "="));;
  console_log "✅ A2A Transaction Complete!";;
  console_log (LF +:+ "📊 Summary:");;
  console_log "  ✓ Agent discovery via /.well-known/agent.json";;
  console_log "  ✓ Product request sent via tasks/send";;
  console_log "  ✓ Product data received via artifacts";;
  console_log "  ✓ All communication via A2A Protocol (JSON-RPC 2.0)";;
  console_log "".

(** A computation after some lines have been printed. *)
Definition prepend {A} (l : list line) (m : printing A) : printing A := (l ++ m.1, m.2).

Section requestProducts.
(** [JSON.stringify(v, null, 2)] is the engine's. *)
Variable JSON_stringify_indented : value → string.

(** The body of [for (const data of artifact.data)]. *)
Definition report_data (data : value) : printing () :=
  products ← eval (get_prop data "products");
  if truthy products && Array_isArray products then
    (* [data.products] was read, so [data] is neither undefined nor null *)
    let metadata := get_prop_opt data "metadata" in
    (if truthy metadata then
       shop ← eval (interpolate (js_or (get_prop_opt metadata "shop") (VStr "Unknown")));
       console_log (LF +:+ "🏪 Shop: " +:+ shop);;
       currency ← eval (interpolate (js_or (get_prop_opt metadata "currency") (VStr "USD")));
       console_log ("   Currency: " +:+ currency);;
       total ← eval (interpolate (js_or (get_prop_opt metadata "total")
                                        (get_prop_opt products "length")));
       console_log ("   Total Products: " +:+ total);;
       if truthy (get_prop_opt metadata "lastSync") then
         lastSync ← eval (interpolate (get_prop_opt metadata "lastSync"));
         console_log ("   Last Sync: " +:+ lastSync)
       else mret ()
     else mret ());;
    count ← eval (interpolate (get_prop_opt products "length"));
    console_log (LF +:+ "📦 Products Received: " +:+ count +:+ " items");;
    text ← eval (formatProductsForDisplay products);
    console_log text
  else if truthy data then console_log ("   Data: " +:+ JSON_stringify_indented data)
  else mret ().

(** The body of [for (const artifact of artifacts)]. *)
Definition report_artifact (artifact : extracted_artifact) : printing () :=
  name ← eval (interpolate (js_or (artifact_name artifact) (VStr "Unnamed")));
  console_log ("   Artifact: " +:+ name);;
  (if truthy (artifact_description artifact) then
     description ← eval (interpolate (artifact_description artifact));
     console_log ("   Description: " +:+ description)
   else mret ());;
  for_of report_data (artifact_data artifact).

(** The fallback when the task has no artifacts. *)
Definition report_message (task : value) : printing () :=
  let responseMessage := get_prop_opt (get_prop_opt task "status") "message" in
  if truthy responseMessage then
    responseText ← eval (extractMessageText responseMessage);
    console_log "📝 Response Message:";;
    console_log responseText;;
    messageData ← eval (extractDataFromMessage responseMessage);
    if truthy messageData && truthy (get_prop_opt messageData "products") then
      console_log (LF +:+ "📦 Products in Message:");;
      text ← eval (formatProductsForDisplay (get_prop_opt messageData "products"));
      console_log text
    else mret ()
  else
    console_log "⚠️  No artifacts or message found in response";;
    console_log ("   Full Task: " +:+ JSON_stringify_indented task).

(** [requestProducts], from the point where [client.sendTask] has resolved
    with [task] to the end of the [try] block: what is printed, and whether
    the block came to its end or threw (the [catch] clause then prints the
    error and exits with status 1). *)
Definition requestProducts_report (task : value) : printing () :=
  if negb (truthy task) then console_error "❌ Failed to receive task response"
  else
    console_log "✅ Task Response Received";;
    id ← eval (interpolate (get_prop_opt task "id"));
    console_log ("   Task ID: " +:+ id);;
    state ← eval (interpolate (get_prop_opt (get_prop_opt task "status") "state"));
    console_log ("   Task State: " +:+ state);;
    console_log "";;
    console_log "📥 Step 4: Extracting Product Data";;
    artifacts ← eval (extractArtifacts task);
    (if bool_decide (0 < length artifacts)%nat then
       console_log ("✅ Found " +:+ pretty (length artifacts) +:+ " artifact(s)");;
       for_of report_artifact artifacts
     else report_message task);;
    summary.
End requestProducts.

(** ** Streaming

    What the consumer of an async generator gets: the values yielded, in
    order, and how the generator ended; next to it the final state of the
    object that was passed as [task]. *)
Record stream := {
  yielded : list value;
  ended : completion ();
  stream_task_after : option object
}.

(** [GreetingAgentExecutor.onMessageStream(request, task)] *)
Definition Greeting_onMessageStream (JSON_parse : string → option value) (d : Dates)
    (request : value) (task : option object) : stream :=
  let run := Greeting_onMessageSend JSON_parse d request task in
  let event :=
    envelope ← response run;
    result ← get_prop envelope "result";
    id ← get_prop request "id";
    if truthy result then
      mret (VObj [("jsonrpc", VStr "2.0"); ("id", id);
                  ("result",
                   VObj [("type", VStr "taskStatusUpdate");
                         ("status", VObj [("state", VStr "completed"); ("message", result)])])])
    else
      error ← get_prop envelope "error";
      mret (VObj [("jsonrpc", VStr "2.0"); ("id", id); ("error", error)]) in
  match event with
  | Normal event => {| yielded := [event]; ended := Normal (); stream_task_after := task_after run |}
  | Throw e => {| yielded := []; ended := Throw e; stream_task_after := task_after run |}
  end.

Section Product_stream.
(** The engine's conversion of a string to a number, compared with zero, and
    the engine's string iterator. *)
Variable string_gt_zero : string → bool.
Variable string_iterator : string → list string.

(** [v > 0] *)
Definition gt_zero (v : value) : completion bool :=
  match v with
  | VUndefined | VNull => Normal false
  | VBool b => Normal b
  | VNum n => Normal (0 <? n)
  | VStr s => Normal (string_gt_zero s)
  | VArr _ | VObj _ =>
      if printable v then Normal (string_gt_zero (ToString v))
      else TypeError "Cannot convert object to primitive value"
  end.

(** The values [for (const artifact of artifacts)] goes through. *)
Definition iterate (artifacts : value) : completion (list value) :=
  match artifacts with
  | VArr l => Normal l
  | VStr s => Normal (VStr <$> string_iterator s)
  | _ => TypeError "response.result.artifacts is not iterable"
  end.

(** [ProductServiceExecutor.onMessageStream(request, task)] *)
Definition Product_onMessageStream (d : Dates) (net : fetch_outcome)
    (request : value) (task : option object) : stream :=
  let run := Product_onMessageSend d net request task in
  let first :=
    envelope ← response run;
    result ← get_prop envelope "result";
    id ← get_prop request "id";
    if truthy result then
      taskId ← get_prop result "id";
      status ← get_prop result "status";
      mret (VObj [("jsonrpc", VStr "2.0"); ("id", id);
                  ("result", VObj [("type", VStr "taskStatusUpdate"); ("id", taskId);
                                   ("status", status); ("final", VBool true)])],
            Some (id, taskId, result))
    else
      error ← get_prop envelope "error";
      mret (VObj [("jsonrpc", VStr "2.0"); ("id", id); ("error", error)],
            @None (value * value * value)) in
  match first with
  | Throw e => {| yielded := []; ended := Throw e; stream_task_after := task_after run |}
  | Normal (event, None) =>
      {| yielded := [event]; ended := Normal (); stream_task_after := task_after run |}
  | Normal (event, Some (id, taskId, result)) =>
      let artifacts :=
        artifacts ← get_prop result "artifacts";
        if negb (truthy artifacts) then mret []
        else
          length ← get_prop artifacts "length";
          nonempty ← gt_zero length;
          if negb nonempty then mret [] else iterate artifacts in
      match artifacts with
      | Throw e => {| yielded := [event]; ended := Throw e; stream_task_after := task_after run |}
      | Normal l =>
          {| yielded :=
               event :: map (λ artifact,
                               VObj [("jsonrpc", VStr "2.0"); ("id", id);
                                     ("result", VObj [("type", VStr "taskArtifactUpdate");
                                                      ("id", taskId); ("artifact", artifact)])]) l;
             ended := Normal ();
             stream_task_after := task_after run |}
      end
  end.
End Product_stream.

(** ** The protocol verification script (verify-protocol.js) *)

(** [v !== undefined] *)
Definition is_defined (v : value) : bool :=
  match v with
  | VUndefined => false
  | _ => true
  end.

(** [checks] of [verifyJSONRPCStructure]: the names and the outcomes. *)
Definition jsonrpc_checks (jsonRpcResponse : value) : completion (list (string * bool)) :=
  jsonrpc ← get_prop jsonRpcResponse "jsonrpc";
  id ← get_prop jsonRpcResponse "id";
  result ← get_prop jsonRpcResponse "result";
  error ← get_prop jsonRpcResponse "error";
  mret [("Has jsonrpc field", strict_eq_str jsonrpc "2.0");
        ("Has id field", is_defined id);
        ("Has result or error", is_defined result || is_defined error)].

(** [taskChecks] *)
Definition task_checks (task : value) : completion (list (string * bool)) :=
  id ← get_prop task "id";
  status ← get_prop task "status";
  mret [("Has id field", is_defined id);
        ("Has status field", is_defined status);
        ("Status has state", is_defined (get_prop_opt status "state"));
        ("Status has message", is_defined (get_prop_opt status "message"))].

(** [parts.every(p => p.type && (p.text || p.data || p.file))] *)
Fixpoint every_part_has_content (parts : list value) : completion bool :=
  match parts with
  | [] => Normal true
  | p :: rest =>
      type ← get_prop p "type";
      if truthy type
         && (truthy (get_prop_opt p "text") || truthy (get_prop_opt p "data")
             || truthy (get_prop_opt p "file"))
      then every_part_has_content rest
      else mret false
  end.

(** [messageChecks] *)
Definition message_checks (message : value) : completion (list (string * bool)) :=
  role ← get_prop message "role";
  parts ← get_prop message "parts";
  l ← as_array parts "every";
  content ← every_part_has_content l;
  mret [("Message has role", is_defined role);
        ("Message has parts", Array_isArray parts);
        ("Parts have type and content", content)].

(** [verifyJSONRPCStructure], from the parsed response on: the checks it
    prints, in order, and whether it got to its end or into its [catch]
    clause. *)
Definition verifyJSONRPCStructure_checks (jsonRpcResponse : value)
    : list (string * bool) * completion () :=
  match jsonrpc_checks jsonRpcResponse with
  | Throw e => ([], Throw e)
  | Normal checks =>
      let task := get_prop_opt jsonRpcResponse "result" in
      if negb (truthy task) then (checks, Normal ())
      else
        match task_checks task with
        | Throw e => (checks, Throw e)
        | Normal taskChecks =>
            let message := get_prop_opt (get_prop_opt task "status") "message" in
            if negb (truthy message) then (checks ++ taskChecks, Normal ())
            else
              match message_checks message with
              | Throw e => (checks ++ taskChecks, Throw e)
              | Normal messageChecks => (checks ++ taskChecks ++ messageChecks, Normal ())
              end
        end
  end.

(** ** Messages, artifacts and catalogues of the data model *)

(** The structured data of a message: the [data] of its first [Data] part,
    [null] when it has none. *)
Fixpoint first_data (parts : list Part) : value :=
  match parts with
  | [] => VNull
  | Data data :: _ => data
  | _ :: rest => first_data rest
  end.

(** The [data] of the [Data] parts, in order. *)
Fixpoint data_parts (parts : list Part) : list value :=
  match parts with
  | [] => []
  | Data data :: rest => data :: data_parts rest
  | _ :: rest => data_parts rest
  end.

(** An artifact given by its object and the parts it carries, and what the
    client keeps of it: the name, the description and the data. *)
Definition extracted (artifact : object * list Part) : extracted_artifact :=
  {| artifact_name := prop artifact.1 "name";
     artifact_description := prop artifact.1 "description";
     artifact_data := data_parts artifact.2 |}.

(** The products of a catalogue as [getProducts] takes them: those of the
    array [acpResponse.products], or none when that property is missing or
    falsy.  A truthy value that is not an array has no [map]. *)
Definition catalogue_products (acpResponse : value) : option (list value) :=
  match get_prop_opt acpResponse "products" with
  | VArr products => Some products
  | v => if truthy v then None else Some []
  end.

(** The properties [normalize_product] fills in when the catalogue leaves
    them out. *)
Definition defaulted_fields : list string :=
  ["description"; "price"; "currency"; "inStock"; "quantity"; "category"; "vendor"; "tags"].

(** A product of the catalogue and its normalized form: an object with the
    eleven properties in their order, [id], [sku] and [name] as the catalogue
    has them, and none of the others [undefined] or [null]. *)
Definition normalized_from (product normalized : value) : Prop :=
  ∃ fields,
    normalized = VObj fields
    ∧ map fst fields
      = ["id"; "sku"; "name"; "description"; "price"; "currency"; "inStock"; "quantity";
         "category"; "vendor"; "tags"]
    ∧ (∀ k, k ∈ ["id"; "sku"; "name"] → prop fields k = get_prop_opt product k)
    ∧ (∀ k, k ∈ defaulted_fields → is_nullish (prop fields k) = false).

(** A product all of whose displayed properties can be converted to text. *)
Definition displayable (product : value) : bool :=
  negb (is_nullish product)
  && forallb (λ k, printable (get_prop_opt product k))
       ["currency"; "price"; "name"; "sku"; "category"; "vendor"]
  && (negb (truthy (get_prop_opt product "inStock"))
      || printable (get_prop_opt product "quantity")).

(** The payload [{ type: 'greeting', input: { name } }] that the test client
    and the verification script serialise into the text of their message. *)
Definition greeting_payload (name : string) : value :=
  VObj [("type", VStr "greeting"); ("input", VObj [("name", VStr name)])].

(** ** Sample requests *)

(** A stand-in for the engine's [JSON.parse] in the examples: it reads the
    three literals and rejects any other text, as the engine rejects the
    sample texts below. *)
Definition JSON_parse_literals (s : string) : option value :=
  if String.eqb s "null" then Some VNull
  else if String.eqb s "true" then Some (VBool true)
  else if String.eqb s "false" then Some (VBool false)
  else None.

Definition sample_dates : Dates :=
  {| now_created := "2025-01-01T00:00:00.000Z";
     now_artifact := "2025-01-01T00:00:01.000Z";
     now_completed := "2025-01-01T00:00:02.000Z" |}.

Definition user_text (text : string) : Message := {| role := User; parts := [Text text] |}.

(** [{ jsonrpc: '2.0', id: 1, method: 'tasks/send', params: { id, message } }] *)
Definition tasks_send (taskId : string) (message : Message) : value :=
  VObj [("jsonrpc", VStr "2.0"); ("id", VNum 1); ("method", VStr "tasks/send");
        ("params", VObj [("id", VStr taskId); ("message", Message_value message)])].

(** [{ jsonrpc: '2.0', id: 2, method: 'message/send', params: { message } }] *)
Definition message_send (message : Message) : value :=
  VObj [("jsonrpc", VStr "2.0"); ("id", VNum 2); ("method", VStr "message/send");
        ("params", VObj [("message", Message_value message)])].

(** A catalogue with one product, and a network that is down. *)
Definition sample_catalogue : fetch_outcome :=
  FetchResponse true 200 "OK"
    (Normal (VObj [("products", VArr [VObj [("id", VStr "p1"); ("name", VStr "Mug")]]);
                   ("shop", VObj [("name", VStr "Store")])])).

Definition network_down : fetch_outcome := FetchRejected "fetch failed".

Definition sample_greeter : AgentExecutor := GreetingAgentExecutor JSON_parse_literals sample_dates.
Definition sample_shop : AgentExecutor := ProductServiceExecutor sample_dates sample_catalogue.

(** The task the greeting agent answers [tasks_send "t1" (user_text "hello")]
    with. *)
Definition sample_greeted_task : object :=
  [("id", VStr "t1"); ("sessionId", VNull);
   ("status", status_object TaskState_Completed
                (agent_text_message "Hey friend, greetings from Agent B 🤝")
                (now_completed sample_dates));
   ("history", VArr [Message_value (user_text "hello");
                     agent_text_message "Hey friend, greetings from Agent B 🤝"]);
   ("metadata", VObj [])].

(** The envelope and the result of a call, for the examples. *)
Definition envelope_of (run : execution) : value :=
  match response run with
  | Normal envelope => envelope
  | Throw _ => VUndefined
  end.

Definition result_of (run : execution) : object :=
  match get_prop_opt (envelope_of run) "result" with
  | VObj result => result
  | _ => []
  end.

(** What [getProducts] makes of the sample catalogue. *)
Definition sample_productData : value :=
  Eval vm_compute in
    match getProducts sample_catalogue with
    | Normal productData => productData
    | Throw _ => VUndefined
    end.

(** The task the product service agent answers a first
    [tasks_send "t1" (user_text "Get all products")] with, and its answer
    when the same request comes again for that task. *)
Definition sample_listed_task : object :=
  Eval vm_compute in
    result_of (onMessageSend sample_shop (tasks_send "t1" (user_text "Get all products")) None).

Definition sample_relisted : execution :=
  onMessageSend sample_shop (tasks_send "t1" (user_text "Get all products"))
    (Some sample_listed_task).

(** A stand-in for [JSON.parse] that also reads back the text
    [JSON.stringify] gives [payload]. *)
Definition JSON_parse_payload (payload : value) (s : string) : option value :=
  if String.eqb s (json_text payload) then Some payload else JSON_parse_literals s.

(** A stored task whose [history] is not an array. *)
Definition sample_damaged_task : object :=
  [("id", VStr "t1"); ("sessionId", VStr "s1"); ("status", VNull); ("history", VStr "lost")].

(** A tasks/send request without a message. *)
Definition sample_no_message : value :=
  VObj [("jsonrpc", VStr "2.0"); ("id", VNum 3); ("method", VStr "tasks/send");
        ("params", VObj [("id", VStr "t1")])].

(** A greeting whose [input.name] is an object with an own [toString]
    property, which no template literal can print. *)
Definition sample_unnamed : value :=
  VObj [("type", VStr "greeting");
        ("input", VObj [("name", VObj [("toString", VNum 1)])])].

(** A tasks/send request whose JSON-RPC [id] is such an object. *)
Definition sample_unprintable_id : value :=
  VObj [("jsonrpc", VStr "2.0"); ("id", VObj [("toString", VNum 1)]);
        ("method", VStr "tasks/send");
        ("params", VObj [("id", VStr "t1");
                         ("message", Message_value (user_text "Get all products"))])].

(** A product of a catalogue that gives no price, and its normalized form. *)
Definition sample_product : value := VObj [("id", VStr "p1"); ("name", VStr "Mug")].

Definition sample_normalized : value :=
  Eval vm_compute in
    match normalize_product sample_product with
    | Normal normalized => normalized
    | Throw _ => VUndefined
    end.


(** The text [formatProductsForDisplay] gives for the products of the sample
    catalogue. *)
Definition sample_formatted : string :=
  Eval vm_compute in
    match formatProductsForDisplay (get_prop_opt sample_productData "products") with
    | Normal text => text
    | Throw _ => ""
    end.

(** A task with an artifact whose data part has no [data]. *)
Definition sample_empty_data_task : value :=
  VObj [("id", VStr "t1");
        ("artifacts", VArr [VObj [("name", VStr "Product Inventory");
                                  ("parts", VArr [VObj [("type", VStr "data")]])]])].

(** * Properties *)

Example JSON_stringify_message :
  JSON_stringify (VObj [("role", VStr "user"); ("x", VUndefined);
                        ("parts", VArr [VObj [("type", VStr "text"); ("n", VNum (-12))]; VUndefined])])
  = Some (String.concat (String "034" EmptyString)
            ["{"; "role"; ":"; "user"; ","; "parts"; ":[{"; "type"; ":"; "text"; ","; "n"; ":-12},null]}"]).
Proof. reflexivity. Qed.

(** The greeting agent cannot read a property of [null]: the text "null"
    leads into the [catch] clause. *)
Example greeting_null_text :
  response (onMessageSend sample_greeter (tasks_send "t1" (user_text "null")) None)
  = Normal (VObj [("jsonrpc", VStr "2.0"); ("id", VNum 1);
                  ("error", VObj [("code", VNum (-32000));
                                  ("message",
                                   VStr "Cannot read properties of null (reading 'type')")])]).
Proof. reflexivity. Qed.

Example includes_lower : includes (toLowerCase "Show me the INVENTORY") "inventory" = true.
Proof. reflexivity. Qed.

(** ** JSON texts determine their values *)

Lemma string_app_nil_r (s : string) : s +:+ "" = s.
Proof.
  induction s as [|c s IH]; [done|].
  change (String c s +:+ "") with (String c (s +:+ "")). by f_equal.
Qed.

Lemma string_app_assoc (a b c : string) : (a +:+ b) +:+ c = a +:+ (b +:+ c).
Proof.
  induction a as [|x a IH]; [done|].
  change (String x ((a +:+ b) +:+ c) = String x (a +:+ (b +:+ c))). by f_equal.
Qed.

Lemma string_app_cons (x : ascii) (a b : string) : String x a +:+ b = String x (a +:+ b).
Proof. done. Qed.

Lemma json_unescape_escape c rest : json_unescape (json_escape c +:+ rest) = Some (c, rest).
Proof. by destruct c as [[] [] [] [] [] [] [] []]. Qed.

Lemma json_escape_string_inj s1 : ∀ s2 r1 r2,
  json_escape_string s1 +:+ String "034" r1 = json_escape_string s2 +:+ String "034" r2 →
  s1 = s2 ∧ r1 = r2.
Proof.
  induction s1 as [|c1 s1 IH]; intros [|c2 s2] r1 r2 H; cbn [json_escape_string] in H.
  - by injection H as ->.
  - apply (f_equal json_unescape) in H.
    by rewrite string_app_assoc, json_unescape_escape in H.
  - apply (f_equal json_unescape) in H.
    by rewrite string_app_assoc, json_unescape_escape in H.
  - apply (f_equal json_unescape) in H.
    rewrite !string_app_assoc, !json_unescape_escape in H.
    injection H as -> H. by destruct (IH _ _ _ H) as [-> ->].
Qed.

Lemma json_quote_inj s1 s2 r1 r2 :
  json_quote s1 +:+ r1 = json_quote s2 +:+ r2 → s1 = s2 ∧ r1 = r2.
Proof.
  unfold json_quote. rewrite !string_app_cons, !string_app_assoc, !string_app_cons.
  intros [= H]. by apply json_escape_string_inj in H.
Qed.

Lemma pretty_N_char_digit x : is_digit (pretty_N_char x) = true.
Proof. unfold pretty_N_char. by repeat case_match. Qed.

Lemma pretty_N_go_digits x : ∀ s,
  ∃ ds, pretty_N_go x s = ds +:+ s ∧ all_digits ds = true ∧ ((0 < x)%N → ds ≠ "").
Proof.
  induction (N.lt_wf_0 x) as [x _ IH]; intros s.
  assert (x = 0 ∨ 0 < x)%N as [->|Hx] by lia.
  - exists "". rewrite pretty_N_go_0. split_and!; [done..|lia].
  - rewrite pretty_N_go_step by done.
    destruct (IH (x `div` 10)%N (N.div_lt x 10 Hx eq_refl)
                (String (pretty_N_char (x `mod` 10)) s)) as (ds & -> & Hds & _).
    exists (ds +:+ String (pretty_N_char (x `mod` 10)) "").
    rewrite string_app_assoc. split_and!; [done| |].
    + clear -Hds. induction ds as [|c ds IH]; simpl in *.
      * by rewrite pretty_N_char_digit.
      * apply andb_true_iff in Hds as [-> ?]. by apply IH.
    + by destruct ds.
Qed.

Lemma pretty_N_digits (x : N) : ∃ c ds, pretty x = String c ds ∧ all_digits (String c ds) = true.
Proof.
  unfold pretty, pretty_N. case_decide as Hx; [by exists "0"%char, ""|].
  destruct (pretty_N_go_digits x "") as (ds & -> & Hds & Hne).
  rewrite string_app_nil_r. destruct ds as [|c ds]; [destruct Hne; [lia|done]|]. eauto.
Qed.

Lemma digits_prefix ds1 : ∀ ds2 r1 r2,
  all_digits ds1 = true → all_digits ds2 = true →
  delimited r1 = true → delimited r2 = true →
  ds1 +:+ r1 = ds2 +:+ r2 → ds1 = ds2 ∧ r1 = r2.
Proof.
  induction ds1 as [|c1 ds1 IH]; intros [|c2 ds2] r1 r2 H1 H2 Hr1 Hr2 H; simpl in *.
  - done.
  - change ("" +:+ r1) with r1 in H. rewrite string_app_cons in H. subst r1.
    apply andb_true_iff in H2 as [H2 _]. simpl in Hr1. by rewrite H2 in Hr1.
  - change ("" +:+ r2) with r2 in H. rewrite string_app_cons in H. subst r2.
    apply andb_true_iff in H1 as [H1 _]. simpl in Hr2. by rewrite H1 in Hr2.
  - rewrite !string_app_cons in H. injection H as -> H.
    apply andb_true_iff in H1 as [_ H1]. apply andb_true_iff in H2 as [_ H2].
    by destruct (IH _ _ _ H1 H2 Hr1 Hr2 H) as [-> ->].
Qed.

(** A numeral is a digit string, or a dash and a digit string. *)
Lemma pretty_Z_shape (n : Z) :
  ∃ c ds, all_digits (String c ds) = true
          ∧ (pretty n = String c ds ∨ pretty n = String "-" (String c ds)).
Proof.
  unfold pretty, pretty_Z. destruct n as [|p|p].
  - exists "0"%char, "". by split; [|left].
  - destruct (pretty_N_digits (Npos p)) as (c & ds & H & Hds).
    exists c, ds. split; [done|by left].
  - destruct (pretty_N_digits (Npos p)) as (c & ds & H & Hds).
    exists c, ds. split; [done|right]. unfold pretty, pretty_positive. by rewrite H.
Qed.

Lemma pretty_Z_prefix (n m : Z) r1 r2 :
  delimited r1 = true → delimited r2 = true →
  pretty n +:+ r1 = pretty m +:+ r2 → n = m ∧ r1 = r2.
Proof.
  intros Hr1 Hr2 H.
  destruct (pretty_Z_shape n) as (c1 & ds1 & Hd1 & Hn).
  destruct (pretty_Z_shape m) as (c2 & ds2 & Hd2 & Hm).
  assert (pretty n = pretty m ∧ r1 = r2) as [Heq ->]; [|by apply (inj pretty) in Heq].
  assert (is_digit "-" = false) as Hdash by done.
  destruct Hn as [Hn|Hn], Hm as [Hm|Hm]; rewrite Hn, Hm in *.
  - by apply digits_prefix.
  - rewrite !string_app_cons in H. injection H as -> _.
    apply andb_true_iff in Hd1 as [Hd1 _]. by rewrite Hdash in Hd1.
  - rewrite !string_app_cons in H. injection H as <- _.
    apply andb_true_iff in Hd2 as [Hd2 _]. by rewrite Hdash in Hd2.
  - rewrite !string_app_cons in H. injection H as -> H.
    apply andb_true_iff in Hd1 as [_ Hd1]. apply andb_true_iff in Hd2 as [_ Hd2].
    by apply digits_prefix in H as [-> ->].
Qed.

Lemma concat_comma_tail x xs : String.concat "," (x :: xs) = x +:+ comma_tail xs.
Proof.
  revert x. induction xs as [|y xs IH]; intros x.
  - simpl. by rewrite string_app_nil_r.
  - change (String.concat "," (x :: y :: xs)) with (x +:+ "," +:+ String.concat "," (y :: xs)).
    by rewrite IH.
Qed.

Lemma JSON_stringify_defined v : defined v = true → JSON_stringify v ≠ None.
Proof. by destruct v. Qed.

Lemma json_text_VArr l :
  json_text (VArr l) = "[" +:+ String.concat "," (map json_text l) +:+ "]".
Proof. done. Qed.

Lemma json_text_VObj o :
  forallb (λ kv, defined kv.2) o = true →
  json_text (VObj o) = "{" +:+ String.concat "," (map json_entry o) +:+ "}".
Proof.
  intros Ho.
  assert (omap (λ kv : string * value,
                  (λ s, json_quote kv.1 +:+ ":" +:+ s) <$> JSON_stringify kv.2) o
          = map json_entry o) as Hentries.
  { induction o as [|[k v] o IH]; [done|].
    cbn [forallb] in Ho. apply andb_true_iff in Ho as [Hv Ho].
    cbn [omap map list_omap]. unfold json_entry at 1, json_text. cbn [fst snd].
    destruct (JSON_stringify v) as [s|] eqn:Hs; [|by apply JSON_stringify_defined in Hv].
    cbn. by rewrite (IH Ho). }
  unfold json_text at 1. cbn [JSON_stringify]. by rewrite Hentries.
Qed.

Lemma head_kind_digit c r : is_digit c = true → head_kind (String c r) = 2%nat.
Proof. by destruct c as [[] [] [] [] [] [] [] []]. Qed.

Lemma head_kind_pretty (n : Z) r : head_kind (pretty n +:+ r) = 2%nat.
Proof.
  destruct (pretty_Z_shape n) as (c & ds & Hd & [->| ->]); [|done].
  apply andb_true_iff in Hd as [Hc _]. rewrite string_app_cons. by apply head_kind_digit.
Qed.

Lemma head_kind_json_text v r :
  defined v = true → head_kind (json_text v +:+ r) = kind v.
Proof.
  destruct v as [| |[]|n|s|l|o]; try done.
  intros _. apply head_kind_pretty.
Qed.

Lemma head_kind_quote k r : head_kind (json_quote k +:+ r) = 3%nat.
Proof. done. Qed.

Lemma delimited_comma_tail l c r :
  is_digit c = false → delimited (comma_tail l +:+ String c r) = true.
Proof. intros Hc. destruct l; simpl; [by rewrite Hc|done]. Qed.

Lemma elements_prefix l :
  Forall text_determines l → forallb defined l = true →
  ∀ l' r1 r2,
    forallb defined l' = true →
    comma_tail (map json_text l) +:+ String "]" r1
    = comma_tail (map json_text l') +:+ String "]" r2 →
    l = l' ∧ r1 = r2.
Proof.
  intros Hl. induction Hl as [|a l Ha _ IH]; intros Hd [|b l'] r1 r2 Hd' H.
  - by injection H as ->.
  - done.
  - done.
  - cbn [map comma_tail forallb] in *.
    apply andb_true_iff in Hd as [Hda Hd]. apply andb_true_iff in Hd' as [Hdb Hd'].
    rewrite !string_app_assoc in H. apply (inj (String.app ",")) in H.
    apply Ha in H as [-> H]; auto using delimited_comma_tail.
    by destruct (IH Hd _ _ _ Hd' H) as [-> ->].
Qed.

Lemma json_entry_app k v r :
  json_entry (k, v) +:+ r = json_quote k +:+ ":" +:+ json_text v +:+ r.
Proof. unfold json_entry. by rewrite !string_app_assoc. Qed.

Lemma entries_prefix (o : object) :
  Forall (λ kv, text_determines kv.2) o → forallb (λ kv, defined kv.2) o = true →
  ∀ (o' : object) r1 r2,
    forallb (λ kv, defined kv.2) o' = true →
    comma_tail (map json_entry o) +:+ String "}" r1
    = comma_tail (map json_entry o') +:+ String "}" r2 →
    o = o' ∧ r1 = r2.
Proof.
  intros Ho. induction Ho as [|[k a] o Ha _ IH]; intros Hd [|[k' b] o'] r1 r2 Hd' H.
  - by injection H as ->.
  - done.
  - done.
  - cbn [map comma_tail forallb fst snd] in *.
    apply andb_true_iff in Hd as [Hda Hd]. apply andb_true_iff in Hd' as [Hdb Hd'].
    rewrite !string_app_assoc in H. apply (inj (String.app ",")) in H.
    rewrite !json_entry_app in H.
    apply json_quote_inj in H as [-> H]. apply (inj (String.app ":")) in H.
    apply Ha in H as [-> H]; auto using delimited_comma_tail.
    by destruct (IH Hd _ _ _ Hd' H) as [-> ->].
Qed.

Lemma JSON_text_determines a : text_determines a.
Proof.
  induction a as [| |x|n|s|l IH|o IH] using value_nested_ind;
    intros Ha b r1 r2 Hb Hr1 Hr2 H; [done|..];
    pose proof (f_equal head_kind H) as Hkind;
    rewrite !head_kind_json_text in Hkind by done;
    destruct b as [| |y|m|s'|l'|o']; try discriminate Hkind; clear Hkind.
  - vm_compute in H. by simplify_eq.
  - destruct x, y; vm_compute in H; by simplify_eq.
  - change (pretty n +:+ r1 = pretty m +:+ r2) in H.
    by apply pretty_Z_prefix in H as [-> ->].
  - change (json_quote s +:+ r1 = json_quote s' +:+ r2) in H.
    by apply json_quote_inj in H as [-> ->].
  - rewrite !json_text_VArr, !string_app_assoc in H.
    cbn [defined] in Ha, Hb. apply (inj (String.app "[")) in H.
    destruct l as [|a l], l' as [|b l'].
    + vm_compute in H. by simplify_eq.
    + exfalso. apply (f_equal head_kind) in H. cbn [forallb] in Hb.
      apply andb_true_iff in Hb as [Hb _].
      rewrite map_cons, concat_comma_tail, !string_app_assoc, head_kind_json_text in H by done.
      by destruct b.
    + exfalso. apply (f_equal head_kind) in H. cbn [forallb] in Ha.
      apply andb_true_iff in Ha as [Ha _].
      rewrite map_cons, concat_comma_tail, !string_app_assoc, head_kind_json_text in H by done.
      by destruct a.
    + rewrite !map_cons, !concat_comma_tail, !string_app_assoc in H.
      cbn [forallb] in Ha, Hb.
      apply andb_true_iff in Ha as [Ha Hl]. apply andb_true_iff in Hb as [Hb Hl'].
      inversion_clear IH as [|? ? IHa IHl].
      apply IHa in H as [-> H]; try done;
        try (by apply (delimited_comma_tail _ "]"%char)).
      by destruct (elements_prefix _ IHl Hl _ _ _ Hl' H) as [-> ->].
  - cbn [defined] in Ha, Hb.
    rewrite !json_text_VObj, !string_app_assoc in H by done.
    apply (inj (String.app "{")) in H.
    destruct o as [|[k a] o], o' as [|[k' b] o'].
    + vm_compute in H. by simplify_eq.
    + rewrite map_cons, concat_comma_tail, !string_app_assoc, json_entry_app in H.
      apply (f_equal head_kind) in H. by rewrite head_kind_quote in H.
    + rewrite map_cons, concat_comma_tail, !string_app_assoc, json_entry_app in H.
      apply (f_equal head_kind) in H. by rewrite head_kind_quote in H.
    + rewrite !map_cons, !concat_comma_tail, !string_app_assoc in H.
      cbn [forallb fst snd] in Ha, Hb.
      apply andb_true_iff in Ha as [Ha Ho]. apply andb_true_iff in Hb as [Hb Ho'].
      inversion_clear IH as [|? ? IHa IHo]. cbn [snd] in IHa.
      rewrite !json_entry_app in H.
      apply json_quote_inj in H as [-> H]. apply (inj (String.app ":")) in H.
      apply IHa in H as [-> H]; try done;
        try (by apply (delimited_comma_tail _ "}"%char)).
      by destruct (entries_prefix _ IHo Ho _ _ _ Ho' H) as [-> ->].
Qed.

(** For JSON values, serialising to the same text is being the same value. *)
Lemma same_json_defined a b :
  defined a = true → defined b = true → same_json a b = true ↔ a = b.
Proof.
  intros Ha Hb. unfold same_json. rewrite bool_decide_eq_true. split; [|by intros ->].
  intros H.
  assert (json_text a +:+ "" = json_text b +:+ "") as Htext
    by (unfold json_text; by rewrite H).
  by apply JSON_text_determines in Htext as [-> _].
Qed.

Lemma is_duplicate_elem_of history inbound :
  forallb defined history = true → defined inbound = true →
  is_duplicate history inbound = true ↔ inbound ∈ history.
Proof.
  intros Hh Hi. unfold is_duplicate. rewrite existsb_exists. split.
  - intros (entry & Hin & Hsame). apply list_elem_of_In.
    apply forallb_forall with (x := entry) in Hh; [|done].
    by apply same_json_defined in Hsame as ->.
  - intros Hin. exists inbound. split; [by apply list_elem_of_In|].
    by apply same_json_defined.
Qed.

(** ** Objects *)

Lemma lookup_set_prop_eq o k v : lookup_prop (set_prop o k v) k = Some v.
Proof.
  induction o as [|[k' v'] o IH]; simpl.
  - by rewrite String.eqb_refl.
  - destruct (String.eqb k' k) eqn:E; simpl; rewrite E; done.
Qed.

Lemma lookup_set_prop_ne o k k' v :
  k ≠ k' → lookup_prop (set_prop o k v) k' = lookup_prop o k'.
Proof.
  intros Hne. induction o as [|[k0 v0] o IH]; simpl.
  - destruct (String.eqb k k') eqn:E; [|done]. by apply String.eqb_eq in E.
  - destruct (String.eqb k0 k) eqn:E; simpl.
    + apply String.eqb_eq in E as ->.
      destruct (String.eqb k k') eqn:E'; [|done]. by apply String.eqb_eq in E'.
    + by rewrite IH.
Qed.

Lemma prop_set_prop_eq o k v : prop (set_prop o k v) k = v.
Proof. unfold prop. by rewrite lookup_set_prop_eq. Qed.

Lemma prop_set_prop_ne o k k' v : k ≠ k' → prop (set_prop o k v) k' = prop o k'.
Proof. intros. unfold prop. by rewrite lookup_set_prop_ne. Qed.

Lemma has_prop_prop o k v : prop o k = v → v ≠ VUndefined → has_prop o k = true.
Proof. unfold prop, has_prop. destruct (lookup_prop o k); naive_solver. Qed.

(** Reading a property of something that is neither [undefined] nor [null]
    does not throw. *)
Lemma get_prop_Normal v k x : get_prop v k = Normal x → get_prop_opt v k = x.
Proof. unfold get_prop_opt. by intros ->. Qed.

Lemma get_prop_not_nullish v k : is_nullish v = false → get_prop v k = Normal (get_prop_opt v k).
Proof. unfold get_prop_opt. by destruct v. Qed.

Lemma get_prop_nullish v k x : get_prop v k = Normal x → is_nullish v = false.
Proof. by destruct v. Qed.

(** ** Conversion to a string *)

Lemma strict_eq_str_true v s : strict_eq_str v s = true ↔ v = VStr s.
Proof.
  destruct v; simpl; try (split; [done|by intros [=]]).
  rewrite String.eqb_eq. split; [by intros ->|by intros [= ->]].
Qed.

Lemma js_or_truthy v w : truthy v = true → js_or v w = v.
Proof. intros H. unfold js_or. by rewrite H. Qed.

Lemma js_or_idempotent v w : js_or (js_or v w) w = js_or v w.
Proof. unfold js_or. destruct (truthy v) eqn:E; [by rewrite E|]. by destruct (truthy w). Qed.

Lemma truthy_js_or v w : truthy w = true → truthy (js_or v w) = true.
Proof. intros Hw. unfold js_or. by destruct (truthy v) eqn:E. Qed.

Lemma falsy_printable v : truthy v = false → printable v = true.
Proof. by destruct v. Qed.

Lemma printable_js_or v w : printable w = true → printable (js_or v w) = printable v.
Proof.
  intros Hw. unfold js_or. destruct (truthy v) eqn:E; [done|].
  by rewrite Hw, falsy_printable.
Qed.

Lemma interpolate_printable v : printable v = true → interpolate v = Normal (ToString v).
Proof. intros H. unfold interpolate. by rewrite H. Qed.

Lemma interpolate_unprintable v : printable v = false → ∃ e, interpolate v = Throw e.
Proof. intros H. unfold interpolate. rewrite H. by eexists. Qed.

Lemma interpolate_Normal v : (∃ text, interpolate v = Normal text) ↔ printable v = true.
Proof.
  unfold interpolate. destruct (printable v); split; try done; eauto. by intros [? ?].
Qed.

(** The greeting names [input.name], or friend when that is falsy; it fails
    exactly when the name cannot be converted. *)
Lemma handleGreeting_printable input :
  printable (get_prop_opt input "name") = true →
  handleGreeting input
  = Normal ("Hey " +:+ ToString (js_or (get_prop_opt input "name") (VStr "friend"))
            +:+ ", greetings from Agent B 🤝").
Proof.
  intros H. unfold handleGreeting.
  rewrite interpolate_printable by by rewrite printable_js_or. done.
Qed.

Lemma handleGreeting_unprintable input :
  printable (get_prop_opt input "name") = false → ∃ e, handleGreeting input = Throw e.
Proof.
  intros H. unfold handleGreeting.
  destruct (interpolate_unprintable (js_or (get_prop_opt input "name") (VStr "friend")))
    as [e ->]; [by rewrite printable_js_or|]. by exists e.
Qed.

Lemma bind_assoc_type A (taskData : value) (k : value → completion string)
    (f : string → completion A) :
  (type ← get_prop taskData "type"; result ← k type; f result)
  = (result ← (type ← get_prop taskData "type"; k type); f result).
Proof. by destruct (get_prop taskData "type"). Qed.

(** What the greeting agent makes of the payload [taskData]. *)
Lemma taskData_answerable taskData :
  unanswerable taskData = false →
  ∃ reply,
    (type ← get_prop taskData "type";
     if strict_eq_str type "greeting"
     then input ← get_prop taskData "input"; handleGreeting input
     else mret "Unsupported task type") = Normal reply.
Proof.
  unfold unanswerable. intros H. apply orb_false_iff in H as [Hnn H].
  rewrite (get_prop_not_nullish _ "type" Hnn). cbn [mbind completion_bind].
  destruct (strict_eq_str _ _); [|by eexists].
  rewrite (get_prop_not_nullish _ "input" Hnn). cbn [mbind completion_bind].
  cbn [andb] in H. apply negb_false_iff in H.
  rewrite (handleGreeting_printable _ H). by eexists.
Qed.

Lemma taskData_unanswerable taskData :
  unanswerable taskData = true →
  ∃ e,
    (type ← get_prop taskData "type";
     if strict_eq_str type "greeting"
     then input ← get_prop taskData "input"; handleGreeting input
     else mret "Unsupported task type") = Throw e.
Proof.
  unfold unanswerable. intros H.
  destruct (is_nullish taskData) eqn:Hnn; [destruct taskData; try done; by eexists|].
  cbn [orb] in H. apply andb_true_iff in H as [Htype H]. apply negb_true_iff in H.
  rewrite (get_prop_not_nullish _ "type" Hnn). cbn [mbind completion_bind]. rewrite Htype.
  rewrite (get_prop_not_nullish _ "input" Hnn). cbn [mbind completion_bind].
  by apply handleGreeting_unprintable.
Qed.

(** ** The text of a message *)

Lemma concat_empty_cons (t : string) (ts : list string) :
  String.concat "" (t :: ts) = t +:+ String.concat "" ts.
Proof.
  destruct ts as [|t' ts]; simpl; [|done].
  induction t as [|c t IH]; [done|].
  change (String c t +:+ "") with (String c (t +:+ "")). by f_equal.
Qed.

Lemma filter_by_type_text ps :
  filter_by_type "text" (map Part_value ps) = Normal (map Part_value (filter is_Text ps)).
Proof.
  induction ps as [|p ps IH]; [done|].
  cbn [map filter_by_type]. rewrite IH. by destruct p.
Qed.

Lemma mapM_text_join ps :
  (mapM (λ part, get_prop part "text") (map Part_value (filter is_Text ps))
     ≫= join "") = Normal (spec_extractText ps).
Proof.
  assert (∀ ps, ∃ texts,
    mapM (λ part, get_prop part "text") (map Part_value (filter is_Text ps)) = Normal texts
    ∧ join "" texts = Normal (spec_extractText ps)) as Hgen.
  { clear ps. induction ps as [|p ps (texts & Hm & Hj)]; [by exists []|].
    destruct p as [text| |]; simpl; [|by exists texts..].
    exists (VStr text :: texts). cbn [filter map mapM]. split.
    - simpl. by rewrite Hm.
    - unfold join in *. cbn [mapM is_nullish interpolate printable ToString].
      cbn [mbind completion_bind] in *.
      destruct (mapM _ texts) as [strings|]; [|done]. cbn [mbind completion_bind] in *.
      cbn [mret completion_ret] in *. injection Hj as Hj.
      change (Normal (String.concat "" (text :: strings))
              = Normal (text +:+ spec_extractText ps)).
      by rewrite concat_empty_cons, Hj. }
  destruct (Hgen ps) as (texts & -> & <-). done.
Qed.

Lemma text_of_parts_spec ps :
  text_of_parts (VArr (map Part_value ps)) = Normal (spec_extractText ps).
Proof.
  unfold text_of_parts. cbn [as_array mbind completion_bind].
  rewrite filter_by_type_text. apply mapM_text_join.
Qed.




(** C9. The client-side helpers are total at the interface boundary: for a
    [null] or [undefined] message, or a message without a [parts] property,
    [extractMessageText] returns the empty string and
    [extractDataFromMessage] returns [null]; neither throws. *)
Theorem extraction_helpers_total (message : value) :
  message = VUndefined ∨ message = VNull ∨ get_prop message "parts" = Normal VUndefined →
  extractMessageText message = Normal "" ∧ extractDataFromMessage message = Normal VNull.
Proof.
  intros [->|[->|Hparts]]; [done..|].
  unfold extractMessageText, extractDataFromMessage.
  destruct (truthy message); [|done]. cbn [negb]. by rewrite Hparts.
Qed.

Lemma extraction_helpers_total_witness :
  (extractMessageText VNull = Normal "" ∧ extractDataFromMessage VNull = Normal VNull)
  ∧ (extractMessageText (VObj [("role", Role_Agent)]) = Normal ""
     ∧ extractDataFromMessage (VObj [("role", Role_Agent)]) = Normal VNull).
Proof.
  split.
  - apply (extraction_helpers_total VNull). right. left. reflexivity.
  - apply (extraction_helpers_total (VObj [("role", Role_Agent)])). right. right. reflexivity.
Defined.

(** ** The request handler saves every task it returns *)

Lemma is_Task_response_true response result :
  get_prop response "result" = Normal (VObj result) →
  has_prop result "id" = true → has_prop result "status" = true →
  is_Task_response response = Normal true.
Proof.
  intros Hres Hid Hstatus. unfold is_Task_response.
  destruct response as [| | | | s | l | o]; try done.
  - cbn [js_in mbind completion_bind].
    simpl in Hres. injection Hres as Hres.
    rewrite (has_prop_prop o "result" (VObj result)); [|done..].
    cbn [negb get_prop mbind completion_bind]. rewrite Hres.
    cbn. by rewrite Hid, Hstatus.
Qed.

(** C1. Whatever the parent's method did and whatever the request was: when
    the response that [CustomRequestHandler.onMessageSend] returns has a
    [result] that is an object with both an [id] and a [status] property,
    that result is in the task store, under its [id], when the response is
    returned. *)
Theorem task_result_is_saved
    (super_onMessageSend : value → TaskStore → completion value * TaskStore)
    (request : value) (store : TaskStore) (response : value) (result : object) :
  (CustomRequestHandler_onMessageSend super_onMessageSend request store).1 = Normal response →
  get_prop response "result" = Normal (VObj result) →
  has_prop result "id" = true →
  has_prop result "status" = true →
  TaskStore_get (CustomRequestHandler_onMessageSend super_onMessageSend request store).2
    (prop result "id") = Some result.
Proof.
  intros Hret Hres Hid Hstatus. unfold CustomRequestHandler_onMessageSend in *.
  destruct (super_onMessageSend request store) as [[response1|e] store1]; [|done].
  destruct (is_Task_response response1) as [[]|e] eqn:Htask.
  - destruct (get_prop_opt response1 "result") eqn:Hr;
      simpl in Hret; injection Hret as ->;
      rewrite (get_prop_Normal _ _ _ Hres) in Hr; try discriminate.
    injection Hr as ->. apply lookup_insert_eq.
  - simpl in Hret. injection Hret as ->.
    by rewrite (is_Task_response_true _ _ Hres Hid Hstatus) in Htask.
  - done.
Qed.

Lemma task_result_is_saved_witness :
  TaskStore_get (serve sample_greeter (tasks_send "t1" (user_text "hello")) ∅).2 (VStr "t1")
  = Some sample_greeted_task.
Proof.
  apply (task_result_is_saved
           (DefaultA2ARequestHandler_onMessageSend (onMessageSend sample_greeter))
           (tasks_send "t1" (user_text "hello")) ∅
           (VObj [("jsonrpc", VStr "2.0"); ("id", VNum 1);
                  ("result", VObj sample_greeted_task)])
           sample_greeted_task);
    reflexivity.
Defined.

(** ** Sequencing *)

Lemma bind_Normal_inv {A B} (c : completion A) (k : A → completion B) (b : B) :
  c ≫= k = Normal b → ∃ a, c = Normal a ∧ k a = Normal b.
Proof. destruct c as [a|e]; [eauto|done]. Qed.

(** ** Envelopes *)

Lemma set_prop_set_prop o k v v' : set_prop (set_prop o k v) k v' = set_prop o k v'.
Proof.
  induction o as [|[k0 v0] o IH]; simpl.
  - by rewrite String.eqb_refl.
  - destruct (String.eqb k0 k) eqn:E; simpl; rewrite E; [done|]. by rewrite IH.
Qed.

Lemma result_response_Normal request result :
  is_nullish request = false →
  result_response request result
  = Normal (VObj [("jsonrpc", VStr "2.0"); ("id", get_prop_opt request "id"); ("result", result)]).
Proof. intros H. unfold result_response. by rewrite (get_prop_not_nullish _ _ H). Qed.

Lemma error_response_Normal request code message :
  is_nullish request = false →
  error_response request code message
  = Normal (VObj [("jsonrpc", VStr "2.0"); ("id", get_prop_opt request "id");
                  ("error", VObj [("code", VNum code); ("message", VStr message)])]).
Proof. intros H. unfold error_response. by rewrite (get_prop_not_nullish _ _ H). Qed.

(** ** One cycle of the greeting agent *)

Section Greeting_cycle.
Variable JSON_parse : string → option value.
Variable d : Dates.

Lemma greeting_agentMessage_text request agentMessage :
  greeting_agentMessage JSON_parse request = Normal agentMessage →
  ∃ text, agentMessage = agent_text_message text.
Proof.
  unfold greeting_agentMessage. intros H.
  apply bind_Normal_inv in H as (params & _ & H).
  apply bind_Normal_inv in H as (message & _ & H).
  apply bind_Normal_inv in H as (parts & _ & H).
  apply bind_Normal_inv in H as (messageText & _ & H).
  apply bind_Normal_inv in H as (type & _ & H).
  apply bind_Normal_inv in H as (result & _ & H).
  injection H as <-. eauto.
Qed.

Lemma greeting_prefix_Normal request agentMessage params isTaskRequest :
  greeting_prefix JSON_parse request = Normal (agentMessage, params, isTaskRequest) →
  greeting_agentMessage JSON_parse request = Normal agentMessage
  ∧ is_nullish request = false
  ∧ params = get_prop_opt request "params"
  ∧ isTaskRequest = request_task_id request
  ∧ get_prop_opt params "message" = request_message request.
Proof.
  unfold greeting_prefix, request_task_id, request_message. intros H.
  apply bind_Normal_inv in H as (am & Ham & H).
  apply bind_Normal_inv in H as (params' & Hp & H).
  apply bind_Normal_inv in H as (id & Hid & H).
  injection H as <- <- <-.
  rewrite (get_prop_Normal _ _ _ Hp), (get_prop_Normal _ _ _ Hid).
  split_and!; try done. by eapply get_prop_nullish.
Qed.

Lemma greeting_update_history userMessage agentMessage taskObj history :
  history_of taskObj = Some history →
  greeting_update d userMessage agentMessage taskObj
  = (Normal (VObj (greeting_result d userMessage agentMessage taskObj history)),
     greeting_result d userMessage agentMessage taskObj history).
Proof.
  unfold history_of, greeting_update, greeting_result. intros H.
  rewrite !prop_set_prop_ne by done.
  destruct (prop taskObj "history") as [| | [] | n | s | l | o] eqn:E;
    cbn [truthy negb] in H |- *;
    try (destruct (Z.eqb n 0)); try (destruct (String.eqb s ""));
    cbn [negb] in H |- *; try discriminate; injection H as <-;
    rewrite ?prop_set_prop_eq, ?set_prop_set_prop;
    rewrite ?prop_set_prop_ne, ?E by done; try done.
  unfold spec_applyResult_history, is_duplicate, same_json.
  by destruct (existsb _ _).
Qed.

Lemma greeting_update_no_history userMessage agentMessage taskObj :
  history_of taskObj = None →
  ∃ e, (greeting_update d userMessage agentMessage taskObj).1 = Throw e.
Proof.
  unfold history_of, greeting_update. intros H.
  rewrite !prop_set_prop_ne by done.
  destruct (prop taskObj "history") as [| | [] | n | s | l | o] eqn:E;
    cbn [truthy negb] in H |- *;
    try (destruct (Z.eqb n 0)); try (destruct (String.eqb s ""));
    cbn [negb] in H |- *; try discriminate;
    rewrite prop_set_prop_ne, E by done; eauto.
Qed.

(** The four ways through the [try] block. *)
Lemma Greeting_try_throw request task e :
  greeting_prefix JSON_parse request = Throw e →
  Greeting_try JSON_parse d request task = {| response := Throw e; task_after := task |}.
Proof. unfold Greeting_try. by intros ->. Qed.

Lemma Greeting_try_message request task agentMessage params isTaskRequest :
  greeting_prefix JSON_parse request = Normal (agentMessage, params, isTaskRequest) →
  truthy isTaskRequest = false →
  Greeting_try JSON_parse d request task
  = {| response := result_response request agentMessage; task_after := task |}.
Proof. unfold Greeting_try. by intros -> ->. Qed.

Lemma Greeting_try_task request task agentMessage params isTaskRequest history :
  let taskObj :=
    default (greeting_new_task d isTaskRequest (js_or (get_prop_opt params "sessionId") VNull))
            task in
  let result := greeting_result d (get_prop_opt params "message") agentMessage taskObj history in
  greeting_prefix JSON_parse request = Normal (agentMessage, params, isTaskRequest) →
  truthy isTaskRequest = true →
  history_of taskObj = Some history →
  Greeting_try JSON_parse d request task
  = {| response := result_response request (VObj result); task_after := alias task result |}.
Proof.
  intros taskObj result Hprefix Hid Hhist. unfold Greeting_try.
  rewrite Hprefix, Hid. cbv zeta. fold taskObj.
  by rewrite (greeting_update_history _ _ _ _ Hhist).
Qed.

Lemma Greeting_try_no_history request task agentMessage params isTaskRequest :
  let taskObj :=
    default (greeting_new_task d isTaskRequest (js_or (get_prop_opt params "sessionId") VNull))
            task in
  greeting_prefix JSON_parse request = Normal (agentMessage, params, isTaskRequest) →
  truthy isTaskRequest = true →
  history_of taskObj = None →
  ∃ e, response (Greeting_try JSON_parse d request task) = Throw e.
Proof.
  intros taskObj Hprefix Hid Hhist. unfold Greeting_try.
  rewrite Hprefix, Hid. cbv zeta. fold taskObj.
  destruct (greeting_update_no_history (get_prop_opt params "message") agentMessage
              taskObj Hhist) as [e He].
  destruct (greeting_update _ _ _ _) as [r t]. simpl in He. subst r. by exists e.
Qed.
End Greeting_cycle.

(** ** One cycle of the product service agent *)

(** [getProducts] returns an object whose [products] are an array, or
    throws. *)
Lemma getProducts_shape net productData :
  getProducts net = Normal productData →
  ∃ products metadata, productData = VObj [("products", VArr products); ("metadata", metadata)].
Proof.
  unfold getProducts. destruct net as [|[] status statusText json]; try done.
  cbn [negb]. intros H.
  apply bind_Normal_inv in H as (acpResponse & _ & H).
  apply bind_Normal_inv in H as (? & _ & H).
  apply bind_Normal_inv in H as (? & _ & H).
  apply bind_Normal_inv in H as (products & _ & H).
  apply bind_Normal_inv in H as (l & _ & H).
  apply bind_Normal_inv in H as (normalizedProducts & _ & H).
  apply bind_Normal_inv in H as (metadata & _ & H).
  apply bind_Normal_inv in H as (shop & _ & H).
  injection H as <-. eauto.
Qed.

(** The reply counts the products. *)
Lemma product_agentMessage_count products metadata :
  product_agentMessage (VObj [("products", VArr products); ("metadata", metadata)])
  = Normal (agent_text_message
              ("Found " +:+ pretty (Z.of_nat (length products)) +:+ " products in inventory.")).
Proof.
  unfold product_agentMessage, js_or.
  cbn [get_prop prop lookup_prop String.eqb Ascii.eqb Bool.eqb default from_option id
       get_prop_opt mbind completion_bind truthy].
  destruct (Z.eqb _ 0) eqn:E; cbn [negb]; [|done].
  apply Z.eqb_eq in E. by rewrite E.
Qed.

Lemma product_agentMessage_Normal net productData :
  getProducts net = Normal productData →
  ∃ text, product_agentMessage productData = Normal (agent_text_message text).
Proof.
  intros (products & metadata & ->)%getProducts_shape.
  rewrite product_agentMessage_count. eauto.
Qed.

Section Product_cycle.
Variable d : Dates.
Variable net : fetch_outcome.

Lemma product_prefix_accepted request message productData taskId sessionId :
  product_prefix net request = Normal (inr (message, productData, taskId, sessionId)) →
  is_nullish request = false
  ∧ message = request_message request
  ∧ taskId = request_task_id request
  ∧ sessionId = js_or (get_prop_opt (get_prop_opt request "params") "sessionId") VNull
  ∧ getProducts net = Normal productData.
Proof.
  unfold product_prefix, request_task_id, request_message. intros H.
  apply bind_Normal_inv in H as (? & _ & H).
  apply bind_Normal_inv in H as (? & _ & H).
  apply bind_Normal_inv in H as (? & _ & H).
  apply bind_Normal_inv in H as (? & _ & H).
  apply bind_Normal_inv in H as (params & Hp & H).
  apply bind_Normal_inv in H as (message' & Hm & H).
  apply bind_Normal_inv in H as (parts & _ & H).
  apply bind_Normal_inv in H as (messageText & _ & H).
  apply bind_Normal_inv in H as (l & _ & H).
  apply bind_Normal_inv in H as (dataPart & _ & H).
  apply bind_Normal_inv in H as (structuredRequest & _ & H).
  destruct (negb _).
  { apply bind_Normal_inv in H as (? & _ & H). discriminate. }
  apply bind_Normal_inv in H as (productData' & Hpd & H).
  apply bind_Normal_inv in H as (taskId' & Hid & H).
  apply bind_Normal_inv in H as (sessionId' & Hsid & H).
  injection H as <- <- <- <-.
  rewrite (get_prop_Normal _ _ _ Hp), (get_prop_Normal _ _ _ Hm), (get_prop_Normal _ _ _ Hid),
    (get_prop_Normal _ _ _ Hsid).
  split_and!; try done. by eapply get_prop_nullish.
Qed.

Lemma product_prefix_rejected request rejection :
  product_prefix net request = Normal (inl rejection) →
  is_nullish request = false
  ∧ rejection
    = VObj [("jsonrpc", VStr "2.0"); ("id", get_prop_opt request "id");
            ("error", VObj [("code", VNum INVALID_PARAMS);
                            ("message", VStr "This agent only handles product inventory requests")])].
Proof.
  unfold product_prefix. intros H.
  apply bind_Normal_inv in H as (? & _ & H).
  apply bind_Normal_inv in H as (? & _ & H).
  apply bind_Normal_inv in H as (? & _ & H).
  apply bind_Normal_inv in H as (? & _ & H).
  apply bind_Normal_inv in H as (params & Hp & H).
  assert (is_nullish request = false) as Hreq by by eapply get_prop_nullish.
  apply bind_Normal_inv in H as (message' & Hm & H).
  apply bind_Normal_inv in H as (parts & _ & H).
  apply bind_Normal_inv in H as (messageText & _ & H).
  apply bind_Normal_inv in H as (l & _ & H).
  apply bind_Normal_inv in H as (dataPart & _ & H).
  apply bind_Normal_inv in H as (structuredRequest & _ & H).
  destruct (negb _).
  - rewrite (error_response_Normal _ _ _ Hreq) in H. by injection H as <-.
  - apply bind_Normal_inv in H as (? & _ & H).
    apply bind_Normal_inv in H as (? & _ & H).
    apply bind_Normal_inv in H as (? & _ & H). discriminate.
Qed.

Lemma product_update_history message agentMessage productData taskObj history :
  history_of taskObj = Some history →
  product_agentMessage productData = Normal agentMessage →
  product_update d message productData taskObj
  = (Normal (VObj (product_result d message agentMessage productData taskObj history)),
     product_result d message agentMessage productData taskObj history).
Proof.
  unfold history_of, product_update, product_result, history_push. intros H ->.
  destruct (prop taskObj "history") as [| | [] | n | s | l | o] eqn:E;
    cbn [truthy negb] in H |- *;
    try (destruct (Z.eqb n 0)); try (destruct (String.eqb s ""));
    cbn [negb] in H |- *; try discriminate; injection H as <-;
    rewrite ?prop_set_prop_eq, ?E; rewrite ?prop_set_prop_eq, ?set_prop_set_prop;
    by rewrite <-?(assoc_L (++)).
Qed.

Lemma product_update_no_history message productData taskObj :
  history_of taskObj = None →
  ∃ e, product_update d message productData taskObj = (Throw e, taskObj).
Proof.
  unfold history_of, product_update, history_push. intros H.
  destruct (prop taskObj "history") as [| | [] | n | s | l | o] eqn:E;
    cbn [truthy negb] in H |- *;
    try (destruct (Z.eqb n 0)); try (destruct (String.eqb s ""));
    cbn [negb] in H |- *; try discriminate; rewrite E; eauto.
Qed.

Lemma Product_try_throw request task e :
  product_prefix net request = Throw e →
  Product_try d net request task = {| response := Throw e; task_after := task |}.
Proof. unfold Product_try. by intros ->. Qed.

Lemma Product_try_rejected request task rejection :
  product_prefix net request = Normal (inl rejection) →
  Product_try d net request task = {| response := Normal rejection; task_after := task |}.
Proof. unfold Product_try. by intros ->. Qed.

Lemma Product_try_accepted request task message productData taskId sessionId
    agentMessage history :
  let taskObj := default (product_new_task d taskId sessionId) task in
  let result := product_result d message agentMessage productData taskObj history in
  product_prefix net request = Normal (inr (message, productData, taskId, sessionId)) →
  product_agentMessage productData = Normal agentMessage →
  history_of taskObj = Some history →
  Product_try d net request task
  = {| response := result_response request (VObj result); task_after := alias task result |}.
Proof.
  intros taskObj result Hprefix Ham Hhist. unfold Product_try.
  rewrite Hprefix. cbv zeta. fold taskObj.
  by rewrite (product_update_history _ _ _ _ _ Hhist Ham).
Qed.

Lemma Product_try_no_history request task message productData taskId sessionId :
  let taskObj := default (product_new_task d taskId sessionId) task in
  product_prefix net request = Normal (inr (message, productData, taskId, sessionId)) →
  history_of taskObj = None →
  ∃ e, Product_try d net request task = {| response := Throw e; task_after := task |}.
Proof.
  intros taskObj Hprefix Hhist. unfold Product_try.
  rewrite Hprefix. cbv zeta. fold taskObj.
  destruct (product_update_no_history message productData taskObj Hhist) as [e ->].
  exists e. cbn. f_equal. unfold alias, taskObj. by destruct task.
Qed.
End Product_cycle.

(** ** What an executor returns *)

Lemma catch_all_Normal fallback request run envelope :
  response run = Normal envelope → catch_all fallback request run = run.
Proof. unfold catch_all. by intros ->. Qed.

Lemma catch_all_Throw fallback request run e :
  response run = Throw e →
  is_nullish request = false →
  catch_all fallback request run
  = {| response :=
         Normal (VObj [("jsonrpc", VStr "2.0"); ("id", get_prop_opt request "id");
                       ("error", VObj [("code", VNum INTERNAL_ERROR);
                                       ("message", VStr (message_or e fallback))])]);
       task_after := task_after run |}.
Proof.
  unfold catch_all. intros -> Hreq. by rewrite (error_response_Normal _ _ _ Hreq).
Qed.

(** A caught exception never yields a result. *)
Lemma catch_all_Throw_no_result fallback request run e envelope :
  response run = Throw e →
  response (catch_all fallback request run) = Normal envelope →
  get_prop_opt envelope "result" = VUndefined.
Proof.
  unfold catch_all. intros -> H. cbn [response] in H. unfold error_response in H.
  apply bind_Normal_inv in H as (id & _ & H). by injection H as <-.
Qed.

Lemma onMessageSend_result a request task envelope :
  response (onMessageSend a request task) = Normal envelope →
  get_prop_opt envelope "result" ≠ VUndefined →
  is_nullish request = false
  ∧ envelope = VObj [("jsonrpc", VStr "2.0"); ("id", get_prop_opt request "id");
                     ("result", get_prop_opt envelope "result")]
  ∧ result_shape a request task (get_prop_opt envelope "result").
Proof.
  intros Hret Hres. destruct a as [JSON_parse d|d net].
  - cbn [onMessageSend] in Hret. unfold Greeting_onMessageSend in Hret.
    destruct (greeting_prefix JSON_parse request) as [[[am params] id]|e] eqn:Hprefix.
    + destruct (greeting_prefix_Normal _ _ _ _ _ Hprefix) as (Ham & Hreq & -> & -> & Hmsg).
      destruct (truthy (request_task_id request)) eqn:Hid.
      * destruct (history_of (default (greeting_new_task d (request_task_id request)
                    (js_or (get_prop_opt (get_prop_opt request "params") "sessionId") VNull))
                    task)) as [history|] eqn:Hh.
        -- pose proof (Greeting_try_task _ d _ task _ _ _ _ Hprefix Hid Hh) as Htry.
           cbv zeta in Htry. rewrite Hmsg in Htry.
           assert (onMessageSend (GreetingAgentExecutor JSON_parse d) request task
                   = Greeting_try JSON_parse d request task) as Hrun.
           { cbn [onMessageSend]. unfold Greeting_onMessageSend.
             eapply catch_all_Normal. rewrite Htry. cbn [response].
             by apply result_response_Normal. }
           rewrite Htry in Hret. unfold catch_all in Hret. cbn [response] in Hret.
           rewrite (result_response_Normal _ _ Hreq) in Hret. cbn [response] in Hret.
           injection Hret as <-. split_and!; [done..|].
           eapply greeting_task; try done. by rewrite Hrun, Htry.
        -- destruct (Greeting_try_no_history _ d _ task _ _ _ Hprefix Hid Hh) as [e He].
           by rewrite (catch_all_Throw_no_result _ _ _ _ _ He Hret) in Hres.
      * pose proof (Greeting_try_message _ d _ task _ _ _ Hprefix Hid) as Htry.
        assert (onMessageSend (GreetingAgentExecutor JSON_parse d) request task
                = Greeting_try JSON_parse d request task) as Hrun.
        { cbn [onMessageSend]. unfold Greeting_onMessageSend.
          eapply catch_all_Normal. rewrite Htry. cbn [response].
          by apply result_response_Normal. }
        rewrite Htry in Hret. unfold catch_all in Hret. cbn [response] in Hret.
        rewrite (result_response_Normal _ _ Hreq) in Hret. cbn [response] in Hret.
        injection Hret as <-. split_and!; [done..|].
        eapply greeting_message; try done. by rewrite Hrun, Htry.
    + pose proof (Greeting_try_throw _ d _ task _ Hprefix) as Htry.
      assert (response (Greeting_try JSON_parse d request task) = Throw e) as He
        by by rewrite Htry.
      by rewrite (catch_all_Throw_no_result _ _ _ _ _ He Hret) in Hres.
  - cbn [onMessageSend] in Hret. unfold Product_onMessageSend in Hret.
    destruct (product_prefix net request) as [[rejection|[[[message pd] taskId] sessionId]]|e]
      eqn:Hprefix.
    + destruct (product_prefix_rejected _ _ _ Hprefix) as (Hreq & ->).
      rewrite (Product_try_rejected _ _ _ task _ Hprefix) in Hret.
      cbn in Hret. injection Hret as <-. done.
    + destruct (product_prefix_accepted _ _ _ _ _ _ Hprefix) as (Hreq & -> & -> & -> & Hpd).
      destruct (product_agentMessage_Normal _ _ Hpd) as [text Ham].
      destruct (history_of (default (product_new_task d (request_task_id request)
                  (js_or (get_prop_opt (get_prop_opt request "params") "sessionId") VNull))
                  task)) as [history|] eqn:Hh.
      * pose proof (Product_try_accepted d net _ task _ _ _ _ _ _ Hprefix Ham Hh) as Htry.
        cbv zeta in Htry.
        assert (onMessageSend (ProductServiceExecutor d net) request task
                = Product_try d net request task) as Hrun.
        { cbn [onMessageSend]. unfold Product_onMessageSend.
          eapply catch_all_Normal. rewrite Htry. cbn [response].
          by apply result_response_Normal. }
        rewrite Htry in Hret. unfold catch_all in Hret. cbn [response] in Hret.
        rewrite (result_response_Normal _ _ Hreq) in Hret. cbn [response] in Hret.
        injection Hret as <-. split_and!; [done..|].
        eapply product_task; try done. by rewrite Hrun, Htry.
      * destruct (Product_try_no_history d net _ task _ _ _ _ Hprefix Hh) as [e Htry].
        assert (response (Product_try d net request task) = Throw e) as He
          by by rewrite Htry.
        by rewrite (catch_all_Throw_no_result _ _ _ _ _ He Hret) in Hres.
    + pose proof (Product_try_throw d net _ task _ Hprefix) as Htry.
      assert (response (Product_try d net request task) = Throw e) as He
        by by rewrite Htry.
      by rewrite (catch_all_Throw_no_result _ _ _ _ _ He Hret) in Hres.
Qed.

(** ** The properties of the task a cycle leaves behind *)

Lemma greeting_result_history d um am taskObj h :
  prop (greeting_result d um am taskObj h) "history" = VArr (spec_applyResult_history h um am).
Proof. apply prop_set_prop_eq. Qed.

Lemma greeting_result_status d um am taskObj h :
  prop (greeting_result d um am taskObj h) "status"
  = status_object TaskState_Completed am (now_completed d).
Proof. unfold greeting_result. rewrite prop_set_prop_ne by done. apply prop_set_prop_eq. Qed.

Lemma greeting_result_other d um am taskObj h k :
  k ≠ "status" → k ≠ "history" →
  lookup_prop (greeting_result d um am taskObj h) k = lookup_prop taskObj k.
Proof. intros. unfold greeting_result. by rewrite !lookup_set_prop_ne. Qed.

Lemma product_result_history d m am pd taskObj h :
  prop (product_result d m am pd taskObj h) "history" = VArr (h ++ [m; am]).
Proof. unfold product_result. rewrite !prop_set_prop_ne by done. apply prop_set_prop_eq. Qed.

Lemma product_result_status d m am pd taskObj h :
  prop (product_result d m am pd taskObj h) "status"
  = status_object TaskState_Completed am (now_completed d).
Proof. unfold product_result. rewrite prop_set_prop_ne by done. apply prop_set_prop_eq. Qed.

Lemma product_result_artifacts d m am pd taskObj h :
  prop (product_result d m am pd taskObj h) "artifacts" = VArr [productArtifact d pd].
Proof. apply prop_set_prop_eq. Qed.

Lemma product_result_other d m am pd taskObj h k :
  k ≠ "status" → k ≠ "history" → k ≠ "artifacts" →
  lookup_prop (product_result d m am pd taskObj h) k = lookup_prop taskObj k.
Proof. intros. unfold product_result. by rewrite !lookup_set_prop_ne. Qed.

(** C10. Whenever [onMessageSend] of either executor returns a task (a result
    with a [status]), the task's [status.message] is the last entry of its
    [history], and its [status.state] is Completed. *)
Theorem status_message_is_last_of_history (a : AgentExecutor) (request : value)
    (task : option object) (envelope : value) (result : object) :
  response (onMessageSend a request task) = Normal envelope →
  get_prop_opt envelope "result" = VObj result →
  has_prop result "status" = true →
  ∃ history,
    prop result "history" = VArr history
    ∧ last history = Some (get_prop_opt (prop result "status") "message")
    ∧ get_prop_opt (prop result "status") "state" = TaskState_Completed.
Proof.
  intros Hret Hres Hstatus.
  destruct (onMessageSend_result a request task envelope Hret) as (_ & _ & Hshape);
    [by rewrite Hres|].
  rewrite Hres in Hshape.
  destruct Hshape as [JSON_parse d _ _ Ham _
                     |JSON_parse d am taskObj h _ _ _ _ _ Hresult _
                     |d net pd am taskObj h _ _ _ _ _ Hresult _].
  - apply greeting_agentMessage_text in Ham as [text Ham].
    injection Ham as ->. done.
  - injection Hresult as ->. eexists. split; [apply greeting_result_history|].
    rewrite greeting_result_status. split; [|done].
    unfold spec_applyResult_history. apply last_snoc.
  - injection Hresult as ->. eexists. split; [apply product_result_history|].
    rewrite product_result_status. split; [|done].
    change [request_message request; am] with ([request_message request] ++ [am]).
    rewrite (assoc_L (++)). apply last_snoc.
Qed.

(** C7. Whenever the product service agent returns a task, the task's
    [artifacts] are exactly the one artifact made from the product data of
    this cycle, whatever artifacts the task held before. *)
Theorem artifacts_replaced_wholesale (d : Dates) (net : fetch_outcome) (request : value)
    (task : option object) (envelope : value) (result : object) :
  response (onMessageSend (ProductServiceExecutor d net) request task) = Normal envelope →
  get_prop_opt envelope "result" = VObj result →
  ∃ productData,
    getProducts net = Normal productData
    ∧ prop result "artifacts" = VArr [productArtifact d productData].
Proof.
  intros Hret Hres.
  destruct (onMessageSend_result _ request task envelope Hret) as (_ & _ & Hshape);
    [by rewrite Hres|].
  rewrite Hres in Hshape.
  destruct Hshape as [JSON_parse d' Ha _ _ _
                     |JSON_parse d' am taskObj h Ha _ _ _ _ _ _
                     |d' net' pd am taskObj h Ha Hpd _ _ _ Hresult _]; try discriminate.
  injection Ha as <- <-. injection Hresult as ->.
  exists pd. split; [done|]. apply product_result_artifacts.
Qed.

(** ** A first tasks/send *)

Lemma greeting_agentMessage_single_text JSON_parse request params text :
  get_prop request "params" = Normal params →
  get_prop params "message" = Normal (Message_value (user_text text)) →
  (∀ parsed, JSON_parse text = Some parsed → unanswerable parsed = false) →
  ∃ reply, greeting_agentMessage JSON_parse request = Normal (agent_text_message reply).
Proof.
  intros Hparams Hmessage Haccepts. unfold greeting_agentMessage.
  rewrite Hparams. cbn [mbind completion_bind]. rewrite Hmessage.
  cbn [mbind completion_bind Message_value get_prop user_text parts].
  change (prop _ "parts") with (VArr (map Part_value [Text text])).
  rewrite text_of_parts_spec. cbn [mbind completion_bind spec_extractText].
  rewrite string_app_nil_r.
  destruct (JSON_parse text) as [parsed|] eqn:Hparse.
  - rewrite bind_assoc_type.
    destruct (taskData_answerable parsed (Haccepts parsed eq_refl)) as [reply ->].
    by eexists.
  - by eexists.
Qed.

Lemma product_prefix_single_text net request params taskId text productData :
  printable (get_prop_opt request "id") = true →
  printable (get_prop_opt request "method") = true →
  get_prop request "params" = Normal params →
  get_prop params "id" = Normal taskId →
  get_prop params "message" = Normal (Message_value (user_text text)) →
  isProductRequest text VNull = true →
  getProducts net = Normal productData →
  product_prefix net request
  = Normal (inr (Message_value (user_text text), productData, taskId,
                 js_or (get_prop_opt params "sessionId") VNull)).
Proof.
  intros Hpid Hpmethod Hparams Hid Hmessage Habout Hpd. unfold product_prefix.
  rewrite (get_prop_not_nullish request "id") by by eapply get_prop_nullish.
  cbn [mbind completion_bind]. rewrite (interpolate_printable _ Hpid).
  rewrite (get_prop_not_nullish request "method") by by eapply get_prop_nullish.
  cbn [mbind completion_bind]. rewrite (interpolate_printable _ Hpmethod).
  cbn [mbind completion_bind].
  rewrite Hparams. cbn [mbind completion_bind]. rewrite Hmessage.
  cbn [mbind completion_bind Message_value get_prop user_text parts].
  change (prop _ "parts") with (VArr (map Part_value [Text text])).
  rewrite text_of_parts_spec. cbn [mbind completion_bind spec_extractText].
  rewrite string_app_nil_r.
  cbn [as_array map Part_value find_by_type mbind completion_bind].
  change (get_prop (VObj [("type", VStr "text"); ("text", VStr text)]) "type")
    with (Normal (A:=value) (VStr "text")).
  cbn [mbind completion_bind]. change (strict_eq_str (VStr "text") "data") with false.
  cbn [truthy mret completion_ret mbind completion_bind].
  rewrite Habout. cbn [negb]. rewrite Hpd. cbn [mbind completion_bind].
  rewrite Hid. cbn [mbind completion_bind].
  rewrite (get_prop_not_nullish params "sessionId") by by eapply get_prop_nullish.
  done.
Qed.

(** C6 (amended). For a tasks/send request with a non-empty task id, no task
    stored yet, and a message of role User with a single Text part: when the
    executor accepts the request, the result is a task in state Completed
    whose history has exactly two entries, the first of role User and the
    second of role Agent. *)
Theorem first_send_completes (a : AgentExecutor) (request params : value)
    (taskId text : string) :
  get_prop request "params" = Normal params →
  get_prop params "id" = Normal (VStr taskId) →
  taskId ≠ "" →
  get_prop params "message" = Normal (Message_value (user_text text)) →
  accepts a request text →
  completes_with_two_messages (onMessageSend a request None).
Proof.
  intros Hparams Hid Hne Hmessage Haccepts.
  assert (is_nullish request = false) as Hreq by by eapply get_prop_nullish.
  assert (truthy (VStr taskId) = true) as Htruthy.
  { cbn. destruct (String.eqb taskId "") eqn:E; [|done]. by apply String.eqb_eq in E. }
  destruct a as [JSON_parse d|d net]; cbn [accepts] in Haccepts.
  - destruct (greeting_agentMessage_single_text _ _ _ _ Hparams Hmessage Haccepts)
      as [reply Ham].
    assert (greeting_prefix JSON_parse request
            = Normal (agent_text_message reply, params, VStr taskId)) as Hprefix.
    { unfold greeting_prefix. rewrite Ham. cbn [mbind completion_bind].
      rewrite Hparams. cbn [mbind completion_bind]. by rewrite Hid. }
    pose proof (Greeting_try_task JSON_parse d request None _ _ _ [] Hprefix Htruthy eq_refl)
      as Htry.
    cbv zeta in Htry. rewrite (result_response_Normal _ _ Hreq) in Htry.
    cbn [onMessageSend]. unfold Greeting_onMessageSend.
    erewrite catch_all_Normal by by rewrite Htry.
    rewrite Htry. cbn [response default].
    eexists _, _, (Message_value (user_text text)), (agent_text_message reply).
    split_and!; [reflexivity|reflexivity| | |done|done].
    + by rewrite greeting_result_status.
    + by rewrite greeting_result_history, (get_prop_Normal _ _ _ Hmessage).
  - destruct Haccepts as (Hpid & Hpmethod & Habout & productData & Hpd).
    destruct (product_agentMessage_Normal _ _ Hpd) as [reply Ham].
    pose proof (product_prefix_single_text _ _ _ _ _ _ Hpid Hpmethod Hparams Hid Hmessage
                  Habout Hpd) as Hprefix.
    pose proof (Product_try_accepted d net request None _ _ _ _ _ [] Hprefix Ham eq_refl)
      as Htry.
    cbv zeta in Htry. rewrite (result_response_Normal _ _ Hreq) in Htry.
    cbn [onMessageSend]. unfold Product_onMessageSend.
    erewrite catch_all_Normal by by rewrite Htry.
    rewrite Htry. cbn [response default].
    eexists _, _, (Message_value (user_text text)), (agent_text_message reply).
    split_and!; [reflexivity|reflexivity| | |done|done].
    + by rewrite product_result_status.
    + by rewrite product_result_history.
Qed.

(** ** The request handler, step by step *)

Lemma load_task_id request store :
  is_nullish (request_task_id request) = false →
  DefaultA2ARequestHandler_load request store
  = TaskStore_get store (request_task_id request).
Proof. unfold DefaultA2ARequestHandler_load, request_task_id. by intros ->. Qed.

Lemma load_fresh request store :
  TaskStore_get store (request_task_id request) = None →
  DefaultA2ARequestHandler_load request store = None.
Proof.
  unfold DefaultA2ARequestHandler_load, request_task_id. intros ->. by destruct (is_nullish _).
Qed.

(** A request with a message is served from the loaded task on; one without
    is answered with the rejection, and nothing is stored. *)
Lemma serve_resume a request store :
  is_nullish (request_message request) = false →
  serve a request store = resume a request (DefaultA2ARequestHandler_load request store) store.
Proof.
  intros H. unfold serve, requestHandler_onMessageSend, resume,
    CustomRequestHandler_onMessageSend, DefaultA2ARequestHandler_onMessageSend,
    DefaultA2ARequestHandler_reject.
  unfold request_message in H. by rewrite H.
Qed.

Lemma serve_rejected a request store :
  is_nullish (request_message request) = true →
  ∃ error,
    serve a request store
    = (Normal (VObj [("jsonrpc", VStr "2.0"); ("id", get_prop_opt request "id");
                     ("error", error)]), store).
Proof.
  intros H. unfold serve, requestHandler_onMessageSend, CustomRequestHandler_onMessageSend,
    DefaultA2ARequestHandler_onMessageSend, DefaultA2ARequestHandler_reject.
  unfold request_message in H. rewrite H. by eexists.
Qed.

(** The message of a request either executor got past reading. *)
Lemma text_of_message_Normal request params message parts :
  get_prop request "params" = Normal params →
  get_prop params "message" = Normal message →
  get_prop message "parts" = Normal parts →
  is_nullish (request_message request) = false.
Proof.
  intros Hp Hm Hparts. unfold request_message.
  rewrite (get_prop_Normal _ _ _ Hp), (get_prop_Normal _ _ _ Hm).
  by eapply get_prop_nullish.
Qed.

Lemma greeting_agentMessage_message JSON_parse request reply :
  greeting_agentMessage JSON_parse request = Normal reply →
  is_nullish (request_message request) = false.
Proof.
  unfold greeting_agentMessage. intros H.
  apply bind_Normal_inv in H as (params & Hp & H).
  apply bind_Normal_inv in H as (message & Hm & H).
  apply bind_Normal_inv in H as (parts & Hparts & _).
  by eapply text_of_message_Normal.
Qed.

Lemma product_prefix_message net request outcome :
  product_prefix net request = Normal outcome →
  is_nullish (request_message request) = false.
Proof.
  unfold product_prefix. intros H.
  apply bind_Normal_inv in H as (? & _ & H).
  apply bind_Normal_inv in H as (? & _ & H).
  apply bind_Normal_inv in H as (? & _ & H).
  apply bind_Normal_inv in H as (? & _ & H).
  apply bind_Normal_inv in H as (params & Hp & H).
  apply bind_Normal_inv in H as (message & Hm & H).
  apply bind_Normal_inv in H as (parts & Hparts & _).
  by eapply text_of_message_Normal.
Qed.

Lemma envelope_result id result :
  get_prop_opt (VObj [("jsonrpc", VStr "2.0"); ("id", id); ("result", result)]) "result" = result.
Proof. done. Qed.

Lemma resume_Throw a request task store e :
  response (onMessageSend a request task) = Throw e →
  resume a request task store = (Throw e, written_back a request task store).
Proof.
  intros H. unfold resume, CustomRequestHandler_onMessageSend, DefaultA2ARequestHandler_resume.
  by rewrite H.
Qed.

Lemma resume_error a request task store id error :
  response (onMessageSend a request task)
  = Normal (VObj [("jsonrpc", VStr "2.0"); ("id", id); ("error", error)]) →
  resume a request task store
  = (Normal (VObj [("jsonrpc", VStr "2.0"); ("id", id); ("error", error)]),
     written_back a request task store).
Proof.
  intros H. unfold resume, CustomRequestHandler_onMessageSend, DefaultA2ARequestHandler_resume.
  by rewrite H.
Qed.

Lemma resume_message a request task store id text :
  response (onMessageSend a request task)
  = Normal (VObj [("jsonrpc", VStr "2.0"); ("id", id); ("result", agent_text_message text)]) →
  resume a request task store
  = (Normal (VObj [("jsonrpc", VStr "2.0"); ("id", id); ("result", agent_text_message text)]),
     written_back a request task store).
Proof.
  intros H. unfold resume, CustomRequestHandler_onMessageSend, DefaultA2ARequestHandler_resume.
  by rewrite H.
Qed.

Lemma resume_task a request task store id result :
  response (onMessageSend a request task)
  = Normal (VObj [("jsonrpc", VStr "2.0"); ("id", id); ("result", VObj result)]) →
  has_prop result "id" = true →
  has_prop result "status" = true →
  resume a request task store
  = (Normal (VObj [("jsonrpc", VStr "2.0"); ("id", id); ("result", VObj result)]),
     <[prop result "id" := result]> (written_back a request task store)).
Proof.
  intros H Hid Hstatus.
  unfold resume, CustomRequestHandler_onMessageSend, DefaultA2ARequestHandler_resume.
  rewrite H, envelope_result. cbv beta iota.
  fold (request_task_id request). fold (written_back a request task store).
  rewrite (is_Task_response_true _ result), envelope_result; [|done..].
  f_equal. unfold TaskStore_save. destruct (has_prop result "taskId"); [|done].
  apply insert_insert_eq.
Qed.

(** ** A failing executor *)

Lemma onMessageSend_catch a request task :
  onMessageSend a request task
  = catch_all (fallback_message a) request (try_block a request task).
Proof. by destruct a. Qed.

Lemma history_of_default_greeting d taskId sessionId task :
  (∀ t, task = Some t → is_Some (history_of t)) →
  is_Some (history_of (default (greeting_new_task d taskId sessionId) task)).
Proof. destruct task as [t|]; [eauto|by eexists]. Qed.

Lemma history_of_default_product d taskId sessionId task :
  (∀ t, task = Some t → is_Some (history_of t)) →
  is_Some (history_of (default (product_new_task d taskId sessionId) task)).
Proof. destruct task as [t|]; [eauto|by eexists]. Qed.




(** ** message/send *)

Lemma written_back_same a request store :
  task_after (onMessageSend a request (DefaultA2ARequestHandler_load request store))
  = DefaultA2ARequestHandler_load request store →
  written_back a request (DefaultA2ARequestHandler_load request store) store = store.
Proof.
  unfold written_back. intros ->. unfold DefaultA2ARequestHandler_load, TaskStore_get.
  fold (request_task_id request). destruct (is_nullish _); [done|].
  destruct (store !! request_task_id request) eqn:E; [|done]. by apply insert_id.
Qed.

Lemma error_response_inv request code message envelope :
  error_response request code message = Normal envelope →
  envelope = VObj [("jsonrpc", VStr "2.0"); ("id", get_prop_opt request "id");
                   ("error", VObj [("code", VNum code); ("message", VStr message)])].
Proof.
  unfold error_response. intros H.
  apply bind_Normal_inv in H as (id & Hid & H). injection H as <-.
  by rewrite (get_prop_Normal _ _ _ Hid).
Qed.

(** Without a task id the greeting agent leaves its [task] alone and returns
    either an error or its message. *)
Lemma greeting_message_send JSON_parse d request task :
  truthy (request_task_id request) = false →
  task_after (onMessageSend (GreetingAgentExecutor JSON_parse d) request task) = task
  ∧ ∀ envelope,
      response (onMessageSend (GreetingAgentExecutor JSON_parse d) request task)
      = Normal envelope →
      (∃ error, envelope = VObj [("jsonrpc", VStr "2.0"); ("id", get_prop_opt request "id");
                                 ("error", error)])
      ∨ (∃ text, greeting_agentMessage JSON_parse request = Normal (agent_text_message text)
                 ∧ envelope = VObj [("jsonrpc", VStr "2.0"); ("id", get_prop_opt request "id");
                                    ("result", agent_text_message text)]).
Proof.
  intros Hid. cbn [onMessageSend]. unfold Greeting_onMessageSend.
  destruct (greeting_prefix JSON_parse request) as [[[am params] id]|e] eqn:Hprefix.
  - destruct (greeting_prefix_Normal _ _ _ _ _ Hprefix) as (Ham & Hreq & -> & -> & _).
    rewrite (Greeting_try_message _ d _ task _ _ _ Hprefix Hid).
    unfold catch_all. cbn [response]. rewrite (result_response_Normal _ _ Hreq).
    cbn [response task_after]. split; [done|].
    intros envelope [= <-]. right.
    destruct (greeting_agentMessage_text _ _ _ Ham) as [text ->]. eauto.
  - rewrite (Greeting_try_throw _ d _ task _ Hprefix).
    unfold catch_all. cbn [response task_after]. split; [done|].
    intros envelope ->%error_response_inv. left. eauto.
Qed.

(** C4 (amended). A message/send request (no task id in [params]) served by
    the greeting agent leaves the task store as it was, and the response, when
    it carries a result, carries the agent's message and not a task.  The
    product service agent has no such branch: for an id under which nothing is
    stored it answers every accepted request with a task, which the handler
    saves under that id. *)
Theorem message_send_by_agent :
  (∀ JSON_parse d request store,
     truthy (request_task_id request) = false →
     message_send_leaves_store (GreetingAgentExecutor JSON_parse d) request store
     ∧ ∀ envelope,
         (serve (GreetingAgentExecutor JSON_parse d) request store).1 = Normal envelope →
         get_prop_opt envelope "result" ≠ VUndefined →
         greeting_agentMessage JSON_parse request = Normal (get_prop_opt envelope "result"))
  ∧ (∀ d net request store envelope result,
       TaskStore_get store (request_task_id request) = None →
       (serve (ProductServiceExecutor d net) request store).1 = Normal envelope →
       get_prop_opt envelope "result" = VObj result →
       is_Task_response envelope = Normal true
       ∧ (serve (ProductServiceExecutor d net) request store).2
         = <[request_task_id request := result]> store).
Proof.
  split.
  - intros JSON_parse d request store Hid.
    destruct (is_nullish (request_message request)) eqn:Hmessage.
    { destruct (serve_rejected (GreetingAgentExecutor JSON_parse d) request store Hmessage)
        as [error Hserve].
      unfold message_send_leaves_store. rewrite Hserve. cbn [fst snd].
      split_and!; [done|by intros ? [= <-]|by intros ? [= <-]]. }
    destruct (greeting_message_send JSON_parse d request
                (DefaultA2ARequestHandler_load request store) Hid) as [Hafter Hret].
    pose proof (written_back_same _ _ _ Hafter) as Hstore.
    unfold message_send_leaves_store. rewrite (serve_resume _ _ _ Hmessage).
    destruct (response (onMessageSend (GreetingAgentExecutor JSON_parse d) request
                          (DefaultA2ARequestHandler_load request store)))
      as [envelope|e] eqn:Hrun.
    + destruct (Hret envelope eq_refl) as [[error ->]|(text & Ham & ->)].
      * rewrite (resume_error _ _ _ _ _ _ Hrun), Hstore.
        split_and!; [done|by intros ? [= <-]|by intros ? [= <-]].
      * rewrite (resume_message _ _ _ _ _ _ Hrun), Hstore.
        split_and!; [done|by intros ? [= <-]|by intros ? [= <-]].
    + rewrite (resume_Throw _ _ _ _ _ Hrun), Hstore. done.
  - intros d net request store envelope result Hfresh Hret Hres.
    destruct (is_nullish (request_message request)) eqn:Hmessage.
    { destruct (serve_rejected (ProductServiceExecutor d net) request store Hmessage)
        as [error Hserve].
      rewrite Hserve in Hret. injection Hret as <-. discriminate Hres. }
    rewrite (serve_resume _ _ _ Hmessage), (load_fresh _ _ Hfresh) in *.
    destruct (response (onMessageSend (ProductServiceExecutor d net) request None))
      as [envelope'|e] eqn:Hrun; [|by rewrite (resume_Throw _ _ _ _ _ Hrun) in Hret].
    assert (envelope' = envelope) as ->.
    { unfold resume, CustomRequestHandler_onMessageSend, DefaultA2ARequestHandler_resume
        in Hret.
      rewrite Hrun in Hret.
      by repeat (case_match; simplify_eq/=). }
    destruct (onMessageSend_result _ _ _ _ Hrun) as (_ & Henv & Hshape); [by rewrite Hres|].
    rewrite Hres in Henv, Hshape.
    destruct Hshape as [? ? [=]|? ? ? ? ? [=]
                       |d' net' pd am taskObj h [= <- <-] _ _ -> _ [= ->] Hafter].
    cbn [default] in *.
    assert (lookup_prop (product_result d (request_message request) am pd
              (product_new_task d (request_task_id request)
                 (js_or (get_prop_opt (get_prop_opt request "params") "sessionId") VNull)) h)
              "id" = Some (request_task_id request)) as Hlookup
      by by rewrite product_result_other.
    assert (has_prop (product_result d (request_message request) am pd
              (product_new_task d (request_task_id request)
                 (js_or (get_prop_opt (get_prop_opt request "params") "sessionId") VNull)) h)
              "id" = true) as Hhas_id by (unfold has_prop; by rewrite Hlookup).
    assert (has_prop (product_result d (request_message request) am pd
              (product_new_task d (request_task_id request)
                 (js_or (get_prop_opt (get_prop_opt request "params") "sessionId") VNull)) h)
              "status" = true) as Hhas_status.
    { apply has_prop_prop with (v := status_object TaskState_Completed am (now_completed d));
        [apply product_result_status|done]. }
    subst envelope. rewrite (resume_task _ _ _ _ _ _ Hrun Hhas_id Hhas_status).
    split; [by eapply is_Task_response_true|].
    cbn [snd]. unfold prop at 1. rewrite Hlookup. cbn [default].
    unfold written_back. by rewrite Hafter.
Qed.

(** ** The history over one cycle and over a sequence of cycles *)

Lemma history_of_array taskObj history :
  prop taskObj "history" = VArr history → history_of taskObj = Some history.
Proof. unfold history_of. by intros ->. Qed.

Lemma spec_applyResult_history_length history inbound outbound :
  (length (spec_applyResult_history history inbound outbound)
   + (if is_duplicate history inbound then 1 else 0) = length history + 2)%nat.
Proof.
  unfold spec_applyResult_history. destruct (is_duplicate history inbound);
    rewrite !length_app; simpl; lia.
Qed.

Lemma spec_history_length exchanges : ∀ history,
  (length (spec_history history exchanges) + suppressed history exchanges
   = length history + 2 * length exchanges)%nat.
Proof.
  induction exchanges as [|[inbound outbound] exchanges IH]; intros history; simpl; [lia|].
  specialize (IH (spec_applyResult_history history inbound outbound)).
  pose proof (spec_applyResult_history_length history inbound outbound). lia.
Qed.

Lemma greeting_prefix_of_agentMessage JSON_parse request reply :
  greeting_agentMessage JSON_parse request = Normal reply →
  greeting_prefix JSON_parse request
  = Normal (reply, get_prop_opt request "params", request_task_id request).
Proof.
  intros Ham. unfold greeting_prefix. rewrite Ham. cbn [mbind completion_bind].
  unfold greeting_agentMessage in Ham.
  apply bind_Normal_inv in Ham as (params & Hparams & Ham).
  apply bind_Normal_inv in Ham as (message & Hmessage & _).
  rewrite Hparams. cbn [mbind completion_bind].
  rewrite (get_prop_not_nullish params "id") by by eapply get_prop_nullish.
  unfold request_task_id. by rewrite (get_prop_Normal _ _ _ Hparams).
Qed.

(** One tasks/send served by the greeting agent's handler, on a task that is
    either not stored yet or stored with the entries [history]. *)
Lemma greeting_serve_step JSON_parse d request store taskId reply history :
  taskId ≠ "" →
  request_task_id request = VStr taskId →
  greeting_agentMessage JSON_parse request = Normal reply →
  (TaskStore_get store (VStr taskId) = None ∧ history = [])
  ∨ stored_task store (VStr taskId) history →
  stored_task (serve (GreetingAgentExecutor JSON_parse d) request store).2 (VStr taskId)
    (spec_applyResult_history history (request_message request) reply).
Proof.
  intros Hne Hid Ham Hstore.
  pose proof (greeting_prefix_of_agentMessage _ _ _ Ham) as Hprefix.
  destruct (greeting_prefix_Normal _ _ _ _ _ Hprefix) as (_ & Hreq & _).
  assert (truthy (request_task_id request) = true) as Htruthy.
  { rewrite Hid. cbn. destruct (String.eqb taskId "") eqn:E; [|done].
    by apply String.eqb_eq in E. }
  assert (∃ task,
    TaskStore_get store (VStr taskId) = task
    ∧ history_of (default (greeting_new_task d (request_task_id request)
                    (js_or (get_prop_opt (get_prop_opt request "params") "sessionId") VNull))
                    task) = Some history
    ∧ lookup_prop (default (greeting_new_task d (request_task_id request)
                    (js_or (get_prop_opt (get_prop_opt request "params") "sessionId") VNull))
                    task) "id" = Some (VStr taskId)) as (task & Htask & Hh & Hlookup).
  { destruct Hstore as [[H ->]|(t & H & Ht & Hh)]; rewrite H; eexists; split_and!;
      try reflexivity; cbn [default]; [by rewrite Hid|by apply history_of_array|done]. }
  rewrite (serve_resume _ _ _ (greeting_agentMessage_message _ _ _ Ham)), load_task_id, Hid, Htask
    by by rewrite Hid.
  set (taskObj := default (greeting_new_task d (request_task_id request)
                    (js_or (get_prop_opt (get_prop_opt request "params") "sessionId") VNull))
                    task) in *.
  pose proof (Greeting_try_task _ d _ task _ _ _ _ Hprefix Htruthy Hh) as Htry.
  cbv zeta in Htry. fold taskObj in Htry.
  change (get_prop_opt (get_prop_opt request "params") "message")
    with (request_message request) in Htry.
  rewrite (result_response_Normal _ _ Hreq) in Htry.
  set (result := greeting_result d (request_message request) reply taskObj history) in *.
  assert (onMessageSend (GreetingAgentExecutor JSON_parse d) request task
          = Greeting_try JSON_parse d request task) as Hrun.
  { cbn [onMessageSend]. unfold Greeting_onMessageSend.
    eapply catch_all_Normal. by rewrite Htry. }
  assert (lookup_prop result "id" = Some (VStr taskId)) as Hresult_id
    by by (unfold result; rewrite greeting_result_other).
  erewrite resume_task.
  - exists result. cbn [snd]. unfold prop at 1. rewrite Hresult_id. cbn [default].
    split_and!; [apply lookup_insert_eq|done|apply greeting_result_history].
  - by rewrite Hrun, Htry.
  - unfold has_prop. by rewrite Hresult_id.
  - eapply has_prop_prop; [apply greeting_result_status|done].
Qed.

Lemma greeting_serve_all JSON_parse taskId calls replies :
  taskId ≠ "" →
  Forall2 (λ call reply, request_task_id call.2 = VStr taskId
                         ∧ greeting_agentMessage JSON_parse call.2 = Normal reply)
          calls replies →
  ∀ store history,
    stored_task store (VStr taskId) history →
    stored_task (serve_all (map (greeting_call JSON_parse) calls) store) (VStr taskId)
      (spec_history history (zip (map (λ call, request_message call.2) calls) replies)).
Proof.
  intros Hne Hcalls.
  induction Hcalls as [|[d request] reply calls replies [Hid Ham] _ IH];
    intros store history Hstored; [done|].
  cbn [map zip zip_with serve_all greeting_call fst snd spec_history].
  apply IH. apply greeting_serve_step; auto.
Qed.

(** C2 (amended). The greeting agent appends the inbound message only if no
    entry of the history serialises to the same JSON text (for JSON values:
    only if the message is not already an entry), and always appends its own
    message; so after any sequence of accepted tasks/send calls for one fresh
    task id, served one after another, the stored history has
    2 * (number of calls) - (number of suppressed inbound messages) entries.
    The product service agent appends both messages in every successful
    cycle, duplicates included. *)
Theorem history_by_agent :
  (∀ JSON_parse d request task,
     appends_unless_duplicate (GreetingAgentExecutor JSON_parse d) request task)
  ∧ (∀ history inbound,
       forallb defined history = true → defined inbound = true →
       is_duplicate history inbound = true ↔ inbound ∈ history)
  ∧ (∀ JSON_parse taskId calls replies store,
       taskId ≠ "" →
       TaskStore_get store (VStr taskId) = None →
       calls ≠ [] →
       Forall2 (λ call reply, request_task_id call.2 = VStr taskId
                              ∧ greeting_agentMessage JSON_parse call.2 = Normal reply)
               calls replies →
       let exchanges := zip (map (λ call, request_message call.2) calls) replies in
       stored_task (serve_all (map (greeting_call JSON_parse) calls) store) (VStr taskId)
         (spec_history [] exchanges)
       ∧ length (spec_history [] exchanges)
         = (2 * length calls - suppressed [] exchanges)%nat)
  ∧ (∀ d net request task envelope result history,
       response (onMessageSend (ProductServiceExecutor d net) request (Some task))
       = Normal envelope →
       get_prop_opt envelope "result" = VObj result →
       history_of task = Some history →
       ∃ agentMessage,
         prop result "history" = VArr (history ++ [request_message request; agentMessage])).
Proof.
  split_and!.
  - intros JSON_parse d request task envelope result history Hret Hres Hstatus Hhistory.
    destruct (onMessageSend_result _ _ _ _ Hret) as (_ & _ & Hshape); [by rewrite Hres|].
    rewrite Hres in Hshape.
    destruct Hshape as [JSON_parse' d' _ _ Ham _
                       |JSON_parse' d' am taskObj h _ _ _ -> Hh [= ->] _
                       |? ? ? ? ? ? [=]].
    + apply greeting_agentMessage_text in Ham as [text [= ->]]. done.
    + change (history_of task = Some h) in Hh. rewrite Hhistory in Hh. injection Hh as <-.
      exists am. apply greeting_result_history.
  - apply is_duplicate_elem_of.
  - intros JSON_parse taskId calls replies store Hne Hfresh Hcalls Hall exchanges.
    assert (length exchanges = length calls) as Hlen.
    { unfold exchanges. rewrite length_zip_with, length_map.
      apply Forall2_length in Hall. lia. }
    split.
    + destruct Hall as [|[d request] reply calls replies [Hid Ham] Hall]; [done|].
      cbn [map zip zip_with serve_all greeting_call fst snd spec_history] in *.
      apply greeting_serve_all; [done..|].
      apply greeting_serve_step; auto.
    + pose proof (spec_history_length exchanges []) as H. simpl in H. lia.
  - intros d net request task envelope result history Hret Hres Hhistory.
    destruct (onMessageSend_result _ _ _ _ Hret) as (_ & _ & Hshape); [by rewrite Hres|].
    rewrite Hres in Hshape.
    destruct Hshape as [? ? [=]|? ? ? ? ? [=]
                       |d' net' pd am taskObj h _ _ _ -> Hh [= ->] _].
    change (history_of task = Some h) in Hh. rewrite Hhistory in Hh. injection Hh as <-.
    exists am. apply product_result_history.
Qed.

(** ** Two calls for one task id *)

(** The product service agent resumes with the task it loaded: with none, it
    starts a task of its own and the handler saves that one over whatever is
    stored; with one, it appends to it. *)
Lemma product_resume_step d net request task store message productData taskId sessionId
    reply history :
  product_prefix net request = Normal (inr (message, productData, VStr taskId, sessionId)) →
  product_agentMessage productData = Normal reply →
  match task with
  | None => history = []
  | Some t => lookup_prop t "id" = Some (VStr taskId) ∧ prop t "history" = VArr history
  end →
  stored_task (resume (ProductServiceExecutor d net) request task store).2 (VStr taskId)
    (history ++ [message; reply]).
Proof.
  intros Hprefix Ham Htask.
  destruct (product_prefix_accepted _ _ _ _ _ _ Hprefix) as (Hreq & Hm & Hid & Hsid & Hpd).
  set (taskObj := default (product_new_task d (VStr taskId) sessionId) task).
  assert (history_of taskObj = Some history ∧ lookup_prop taskObj "id" = Some (VStr taskId))
    as [Hh Hlookup].
  { unfold taskObj. destruct task as [t|]; cbn [default].
    - destruct Htask. split; [by apply history_of_array|done].
    - by subst history. }
  pose proof (Product_try_accepted d net _ task _ _ _ _ _ _ Hprefix Ham Hh) as Htry.
  cbv zeta in Htry. fold taskObj in Htry.
  rewrite (result_response_Normal _ _ Hreq) in Htry.
  set (result := product_result d message reply productData taskObj history) in *.
  assert (onMessageSend (ProductServiceExecutor d net) request task
          = Product_try d net request task) as Hrun.
  { cbn [onMessageSend]. unfold Product_onMessageSend.
    eapply catch_all_Normal. by rewrite Htry. }
  assert (lookup_prop result "id" = Some (VStr taskId)) as Hresult_id
    by by (unfold result; rewrite product_result_other).
  erewrite resume_task.
  - exists result. cbn [snd]. unfold prop at 1. rewrite Hresult_id. cbn [default].
    split_and!; [apply lookup_insert_eq|done|apply product_result_history].
  - by rewrite Hrun, Htry.
  - unfold has_prop. by rewrite Hresult_id.
  - eapply has_prop_prop; [apply product_result_status|done].
Qed.

(** C5 (amended). The handler does not serialise calls for one task id.  Two
    accepted tasks/send calls to the product service agent for a task id under
    which nothing is stored leave the messages of both in the stored history
    when they are served one after the other; when the second is dispatched
    before the first has completed, the stored history holds the messages of
    the second call only. *)
Theorem same_id_calls_not_serialised (d1 d2 : Dates) (net1 net2 : fetch_outcome)
    (request1 request2 : value) (store : TaskStore) (taskId : string)
    (message1 message2 productData1 productData2 sessionId1 sessionId2 : value) :
  product_prefix net1 request1
  = Normal (inr (message1, productData1, VStr taskId, sessionId1)) →
  product_prefix net2 request2
  = Normal (inr (message2, productData2, VStr taskId, sessionId2)) →
  TaskStore_get store (VStr taskId) = None →
  ∃ reply1 reply2,
    product_agentMessage productData1 = Normal reply1
    ∧ product_agentMessage productData2 = Normal reply2
    ∧ stored_task
        (serve_all [(ProductServiceExecutor d1 net1, request1);
                    (ProductServiceExecutor d2 net2, request2)] store)
        (VStr taskId) [message1; reply1; message2; reply2]
    ∧ stored_task
        (interleaved (ProductServiceExecutor d1 net1) request1
                     (ProductServiceExecutor d2 net2) request2 store)
        (VStr taskId) [message2; reply2].
Proof.
  intros Hprefix1 Hprefix2 Hfresh.
  destruct (product_prefix_accepted _ _ _ _ _ _ Hprefix1) as (_ & _ & Hid1 & _ & Hpd1).
  destruct (product_prefix_accepted _ _ _ _ _ _ Hprefix2) as (_ & _ & Hid2 & _ & Hpd2).
  destruct (product_agentMessage_Normal _ _ Hpd1) as [text1 Hreply1].
  destruct (product_agentMessage_Normal _ _ Hpd2) as [text2 Hreply2].
  exists (agent_text_message text1), (agent_text_message text2).
  split_and!; [done..| |].
  - cbn [serve_all snd].
    rewrite (serve_resume _ request1) by by eapply product_prefix_message.
    rewrite (serve_resume _ request2) by by eapply product_prefix_message.
    rewrite !load_task_id by by rewrite <-?Hid1, <-?Hid2.
    rewrite <-Hid1, <-Hid2, Hfresh.
    destruct (product_resume_step d1 net1 request1 None store _ _ _ _ _ []
                Hprefix1 Hreply1 eq_refl) as (t1 & Ht1 & Hid_t1 & Hh_t1).
    rewrite Ht1.
    apply (product_resume_step d2 net2 request2 (Some t1) _ _ _ _ _ _ [message1; _]
             Hprefix2 Hreply2). done.
  - unfold interleaved. rewrite !load_task_id by by rewrite <-?Hid1, <-?Hid2.
    rewrite <-Hid1, <-Hid2, Hfresh.
    apply (product_resume_step d2 net2 request2 None _ _ _ _ _ _ [] Hprefix2 Hreply2 eq_refl).
Qed.

(** ** The statements at the sample requests *)

(** C2, as stated, fails for the product service agent: the second of two
    identical requests finds its message in the history and appends it
    again. *)
Lemma product_agent_appends_duplicate :
  ¬ appends_unless_duplicate sample_shop (tasks_send "t1" (user_text "Get all products"))
      sample_listed_task.
Proof.
  intros H.
  destruct (H (envelope_of sample_relisted) (result_of sample_relisted)
              [Message_value (user_text "Get all products");
               agent_text_message "Found 1 products in inventory."]
              eq_refl eq_refl eq_refl eq_refl) as [agentMessage Hhistory].
  vm_compute in Hhistory. discriminate.
Qed.

Lemma history_by_agent_witness :
  let calls := [(sample_dates, tasks_send "t1" (user_text "hello"));
                (sample_dates, tasks_send "t1" (user_text "hello"))] in
  let replies := [agent_text_message "Hey friend, greetings from Agent B 🤝";
                  agent_text_message "Hey friend, greetings from Agent B 🤝"] in
  let exchanges := zip (map (λ call, request_message call.2) calls) replies in
  stored_task (serve_all (map (greeting_call JSON_parse_literals) calls) ∅) (VStr "t1")
    (spec_history [] exchanges)
  ∧ length (spec_history [] exchanges) = (2 * length calls - suppressed [] exchanges)%nat.
Proof.
  intros calls replies.
  apply (proj1 (proj2 (proj2 history_by_agent)) JSON_parse_literals "t1" calls replies ∅).
  - discriminate.
  - reflexivity.
  - discriminate.
  - repeat constructor.
Defined.



(** C4, as stated, fails for the product service agent: a message/send
    request makes it create a task, which the handler stores. *)
Lemma product_agent_stores_message_send :
  ¬ message_send_leaves_store sample_shop (message_send (user_text "Get all products")) ∅.
Proof.
  intros [Hstore _]. apply (f_equal (λ store, store !! VUndefined)) in Hstore.
  vm_compute in Hstore. discriminate.
Qed.

Lemma message_send_by_agent_witness :
  message_send_leaves_store sample_greeter (message_send (user_text "hello")) ∅
  ∧ (serve sample_shop (message_send (user_text "Get all products")) ∅).2
    = <[VUndefined := result_of (onMessageSend sample_shop
                                   (message_send (user_text "Get all products")) None)]> ∅.
Proof.
  split.
  - apply (proj1 message_send_by_agent JSON_parse_literals sample_dates
             (message_send (user_text "hello")) ∅). reflexivity.
  - apply (proj2 message_send_by_agent sample_dates sample_catalogue
             (message_send (user_text "Get all products")) ∅
             (envelope_of (onMessageSend sample_shop
                             (message_send (user_text "Get all products")) None))
             (result_of (onMessageSend sample_shop
                           (message_send (user_text "Get all products")) None)));
      vm_compute; reflexivity.
Defined.

(** C5, as stated, fails: of two interleaved calls for a fresh task id, the
    first one's message is not in the stored history. *)
Lemma interleaved_calls_lose_update :
  ¬ no_lost_update sample_shop (tasks_send "t1" (user_text "Get all products"))
                   sample_shop (tasks_send "t1" (user_text "Show inventory")) ∅.
Proof.
  intros (task & history & Htask & Hhistory & Hfirst & _).
  vm_compute in Htask. injection Htask as <-.
  vm_compute in Hhistory. injection Hhistory as <-.
  vm_compute in Hfirst.
  repeat (apply elem_of_cons in Hfirst as [Hfirst|Hfirst]; [discriminate|]).
  by apply elem_of_nil in Hfirst.
Qed.

Lemma same_id_calls_not_serialised_witness :
  ∃ reply1 reply2,
    product_agentMessage sample_productData = Normal reply1
    ∧ product_agentMessage sample_productData = Normal reply2
    ∧ stored_task
        (serve_all [(sample_shop, tasks_send "t1" (user_text "Get all products"));
                    (sample_shop, tasks_send "t1" (user_text "Show inventory"))] ∅)
        (VStr "t1")
        [Message_value (user_text "Get all products"); reply1;
         Message_value (user_text "Show inventory"); reply2]
    ∧ stored_task
        (interleaved sample_shop (tasks_send "t1" (user_text "Get all products"))
                     sample_shop (tasks_send "t1" (user_text "Show inventory")) ∅)
        (VStr "t1") [Message_value (user_text "Show inventory"); reply2].
Proof.
  apply (same_id_calls_not_serialised sample_dates sample_dates sample_catalogue
           sample_catalogue (tasks_send "t1" (user_text "Get all products"))
           (tasks_send "t1" (user_text "Show inventory")) ∅ "t1"
           (Message_value (user_text "Get all products"))
           (Message_value (user_text "Show inventory"))
           sample_productData sample_productData VNull VNull);
    vm_compute; reflexivity.
Defined.

(** C6, as stated, fails for the product service agent: it rejects the text
    "hello", which is not about products. *)
Lemma product_agent_rejects_hello :
  ¬ completes_with_two_messages
      (onMessageSend sample_shop (tasks_send "t1" (user_text "hello")) None).
Proof.
  intros (envelope & result & userMessage & agentMessage & Hret & Hres & _).
  vm_compute in Hret. injection Hret as <-. vm_compute in Hres. discriminate.
Qed.

Lemma first_send_completes_witness :
  completes_with_two_messages
    (onMessageSend sample_greeter (tasks_send "t1" (user_text "hello")) None)
  ∧ completes_with_two_messages
      (onMessageSend sample_shop (tasks_send "t1" (user_text "Get all products")) None).
Proof.
  split.
  - apply (first_send_completes sample_greeter (tasks_send "t1" (user_text "hello"))
             (VObj [("id", VStr "t1"); ("message", Message_value (user_text "hello"))])
             "t1" "hello"); try reflexivity; [discriminate|].
    intros parsed Hparsed. vm_compute in Hparsed. discriminate.
  - apply (first_send_completes sample_shop (tasks_send "t1" (user_text "Get all products"))
             (VObj [("id", VStr "t1");
                    ("message", Message_value (user_text "Get all products"))])
             "t1" "Get all products"); try reflexivity; [discriminate|].
    split_and!; [reflexivity..|]. exists sample_productData. vm_compute. reflexivity.
Defined.

Lemma artifacts_replaced_wholesale_witness :
  ∃ productData,
    getProducts sample_catalogue = Normal productData
    ∧ prop (result_of sample_relisted) "artifacts"
      = VArr [productArtifact sample_dates productData].
Proof.
  apply (artifacts_replaced_wholesale sample_dates sample_catalogue
           (tasks_send "t1" (user_text "Get all products")) (Some sample_listed_task)
           (envelope_of sample_relisted) (result_of sample_relisted));
    vm_compute; reflexivity.
Defined.

Lemma status_message_is_last_of_history_witness :
  ∃ history,
    prop sample_greeted_task "history" = VArr history
    ∧ last history = Some (get_prop_opt (prop sample_greeted_task "status") "message")
    ∧ get_prop_opt (prop sample_greeted_task "status") "state" = TaskState_Completed.
Proof.
  apply (status_message_is_last_of_history sample_greeter
           (tasks_send "t1" (user_text "hello")) None
           (VObj [("jsonrpc", VStr "2.0"); ("id", VNum 1);
                  ("result", VObj sample_greeted_task)])
           sample_greeted_task); reflexivity.
Defined.

(** * Further properties of the code *)

(** ** Every request is answered *)

(** What the [try] block returns when it returns. *)
Lemma try_block_Normal a request task envelope :
  response (try_block a request task) = Normal envelope →
  is_nullish request = false
  ∧ ((∃ result, envelope = VObj [("jsonrpc", VStr "2.0"); ("id", get_prop_opt request "id");
                                 ("result", VObj result)])
     ∨ ((∃ d net, a = ProductServiceExecutor d net)
        ∧ task_after (try_block a request task) = task
        ∧ envelope = VObj [("jsonrpc", VStr "2.0"); ("id", get_prop_opt request "id");
                           ("error", VObj [("code", VNum INVALID_PARAMS);
                                           ("message", VStr "This agent only handles product inventory requests")])])).
Proof.
  intros Hret. destruct a as [JSON_parse d|d net]; cbn [try_block] in *.
  - destruct (greeting_prefix JSON_parse request) as [[[am params] id]|e] eqn:Hprefix.
    + destruct (greeting_prefix_Normal _ _ _ _ _ Hprefix) as (Ham & Hreq & -> & -> & Hmsg).
      split; [done|]. left.
      destruct (truthy (request_task_id request)) eqn:Hid.
      * destruct (history_of (default (greeting_new_task d (request_task_id request)
                    (js_or (get_prop_opt (get_prop_opt request "params") "sessionId") VNull))
                    task)) as [history|] eqn:Hh.
        -- rewrite (Greeting_try_task _ d _ task _ _ _ _ Hprefix Hid Hh) in Hret.
           cbn [response] in Hret. rewrite (result_response_Normal _ _ Hreq) in Hret.
           injection Hret as <-. eauto.
        -- destruct (Greeting_try_no_history _ d _ task _ _ _ Hprefix Hid Hh) as [e He].
           congruence.
      * rewrite (Greeting_try_message _ d _ task _ _ _ Hprefix Hid) in Hret.
        cbn [response] in Hret. rewrite (result_response_Normal _ _ Hreq) in Hret.
        injection Hret as <-.
        destruct (greeting_agentMessage_text _ _ _ Ham) as [text ->]. eauto.
    + rewrite (Greeting_try_throw _ d _ task _ Hprefix) in Hret. done.
  - destruct (product_prefix net request) as [[rejection|[[[message pd] taskId] sessionId]]|e]
      eqn:Hprefix.
    + destruct (product_prefix_rejected _ _ _ Hprefix) as (Hreq & ->).
      rewrite (Product_try_rejected d net _ task _ Hprefix) in Hret |- *.
      cbn in Hret. injection Hret as <-. split; [done|]. right. eauto.
    + destruct (product_prefix_accepted _ _ _ _ _ _ Hprefix) as (Hreq & -> & -> & -> & Hpd).
      destruct (product_agentMessage_Normal _ _ Hpd) as [text Ham].
      split; [done|]. left.
      destruct (history_of (default (product_new_task d (request_task_id request)
                  (js_or (get_prop_opt (get_prop_opt request "params") "sessionId") VNull))
                  task)) as [history|] eqn:Hh.
      * rewrite (Product_try_accepted d net _ task _ _ _ _ _ _ Hprefix Ham Hh) in Hret.
        cbn [response] in Hret. rewrite (result_response_Normal _ _ Hreq) in Hret.
        injection Hret as <-. eauto.
      * destruct (Product_try_no_history d net _ task _ _ _ _ Hprefix Hh) as [e Htry].
        rewrite Htry in Hret. done.
    + rewrite (Product_try_throw d net _ task _ Hprefix) in Hret. done.
Qed.

(** The envelope of a request that is an object: a result that is an object,
    or an error with a code and a message. *)
Lemma onMessageSend_envelope a request task :
  is_nullish request = false →
  ∃ body,
    response (onMessageSend a request task)
    = Normal (VObj [("jsonrpc", VStr "2.0"); ("id", get_prop_opt request "id"); body])
    ∧ ((∃ result, body = ("result", VObj result))
       ∨ (∃ code message,
            body = ("error", VObj [("code", VNum code); ("message", VStr message)])
            ∧ message ≠ ""
            ∧ (code = INTERNAL_ERROR
               ∨ (code = INVALID_PARAMS ∧ ∃ d net, a = ProductServiceExecutor d net)))).
Proof.
  intros Hreq. rewrite onMessageSend_catch.
  destruct (response (try_block a request task)) as [envelope|e] eqn:Hret.
  - rewrite (catch_all_Normal _ _ _ _ Hret), Hret.
    destruct (try_block_Normal _ _ _ _ Hret) as (_ & [[result ->]|(Ha & _ & ->)]).
    + eexists. split; [done|]. eauto.
    + eexists. split; [done|]. right. eexists _, _. split_and!; [done|done|]. eauto.
  - rewrite (catch_all_Throw _ _ _ _ Hret Hreq). cbn [response].
    eexists. split; [done|]. right. eexists _, _. split_and!; [done| |by left].
    unfold message_or. destruct (String.eqb e "") eqn:E.
    + by destruct a.
    + intros ->. by rewrite String.eqb_refl in E.
Qed.

(** X1. [onMessageSend] of either executor resolves for every request that
    is an object, whatever the task: with an envelope that carries
    [jsonrpc: '2.0'], the request's [id], and either a result that is an
    object or an error whose message is not empty and whose code is -32000
    (or, from the product service agent only, -32602).  For a request that is
    [undefined] or [null] the [catch] clause itself throws, reading
    [request.id]: the promise is rejected. *)
Theorem onMessageSend_answers_every_request (a : AgentExecutor) (request : value)
    (task : option object) :
  (is_nullish request = false →
   ∃ body,
     response (onMessageSend a request task)
     = Normal (VObj [("jsonrpc", VStr "2.0"); ("id", get_prop_opt request "id"); body])
     ∧ ((∃ result, body = ("result", VObj result))
        ∨ (∃ code message,
             body = ("error", VObj [("code", VNum code); ("message", VStr message)])
             ∧ message ≠ ""
             ∧ (code = INTERNAL_ERROR
                ∨ (code = INVALID_PARAMS ∧ ∃ d net, a = ProductServiceExecutor d net)))))
  ∧ (is_nullish request = true → ∃ e, response (onMessageSend a request task) = Throw e).
Proof.
  split; [apply onMessageSend_envelope|].
  intros Hreq. rewrite onMessageSend_catch.
  destruct (response (try_block a request task)) as [envelope|e] eqn:Hret.
  - apply try_block_Normal in Hret as [Hne _]. congruence.
  - unfold catch_all. rewrite Hret. cbn [response]. unfold error_response.
    destruct request; try done; eauto.
Qed.

Lemma onMessageSend_answers_every_request_witness :
  (∃ body,
     response (onMessageSend sample_shop (tasks_send "t1" (user_text "hello")) None)
     = Normal (VObj [("jsonrpc", VStr "2.0"); ("id", VNum 1); body]))
  ∧ (∃ e, response (onMessageSend sample_greeter VNull None) = Throw e).
Proof.
  destruct (onMessageSend_answers_every_request sample_shop
              (tasks_send "t1" (user_text "hello")) None) as [Hanswer _].
  destruct (onMessageSend_answers_every_request sample_greeter VNull None) as [_ Hthrow].
  split.
  - destruct (Hanswer eq_refl) as (body & Hbody & _). exists body. exact Hbody.
  - exact (Hthrow eq_refl).
Defined.

(** ** Requests without a readable message *)

Lemma catch_all_task_after fallback request run :
  task_after (catch_all fallback request run) = task_after run.
Proof. unfold catch_all. by destruct (response run). Qed.

(** Without an array of parts the text of the message cannot be taken. *)
Lemma message_text_needs_parts request params message parts :
  get_prop request "params" = Normal params →
  get_prop params "message" = Normal message →
  get_prop message "parts" = Normal parts →
  Array_isArray (get_prop_opt (request_message request) "parts") = false →
  ∃ e, text_of_parts parts = Throw e.
Proof.
  intros Hp Hm Hparts. unfold request_message.
  rewrite (get_prop_Normal _ _ _ Hp), (get_prop_Normal _ _ _ Hm), (get_prop_Normal _ _ _ Hparts).
  unfold text_of_parts. destruct parts; try done; cbn; eauto.
Qed.

Lemma try_block_needs_parts a request task :
  Array_isArray (get_prop_opt (request_message request) "parts") = false →
  ∃ e, try_block a request task = {| response := Throw e; task_after := task |}.
Proof.
  intros Hparts. destruct a as [JSON_parse d|d net]; cbn [try_block].
  - assert (∃ e, greeting_prefix JSON_parse request = Throw e) as [e He].
    { unfold greeting_prefix, greeting_agentMessage.
      destruct (get_prop request "params") as [params|] eqn:Hp; [|by eexists].
      cbn [mbind completion_bind].
      destruct (get_prop params "message") as [message|] eqn:Hm; [|by eexists].
      cbn [mbind completion_bind].
      destruct (get_prop message "parts") as [parts|] eqn:Hpa; [|by eexists].
      cbn [mbind completion_bind].
      destruct (message_text_needs_parts _ _ _ _ Hp Hm Hpa Hparts) as [e ->]. by eexists. }
    exists e. by apply Greeting_try_throw.
  - assert (∃ e, product_prefix net request = Throw e) as [e He].
    { unfold product_prefix.
      destruct (get_prop request "id") as [id|] eqn:Hid; [|by eexists].
      cbn [mbind completion_bind].
      destruct (interpolate id); [|by eexists]. cbn [mbind completion_bind].
      destruct (get_prop request "method") as [method|] eqn:Hmethod; [|by eexists].
      cbn [mbind completion_bind].
      destruct (interpolate method); [|by eexists]. cbn [mbind completion_bind].
      destruct (get_prop request "params") as [params|] eqn:Hp; [|by eexists].
      cbn [mbind completion_bind].
      destruct (get_prop params "message") as [message|] eqn:Hm; [|by eexists].
      cbn [mbind completion_bind].
      destruct (get_prop message "parts") as [parts|] eqn:Hpa; [|by eexists].
      cbn [mbind completion_bind].
      destruct (message_text_needs_parts _ _ _ _ Hp Hm Hpa Hparts) as [e ->]. by eexists. }
    exists e. by apply Product_try_throw.
Qed.

(** X2. A request whose [params.message.parts] is not an array ([params],
    [message] or [parts] missing, or [parts] of another type) is answered by
    either executor with the internal-error code -32000, not with the
    invalid-params code, and the task the executor was given is left as it
    was. *)
Theorem malformed_message_is_internal_error (a : AgentExecutor) (request : value)
    (task : option object) :
  is_nullish request = false →
  Array_isArray (get_prop_opt (request_message request) "parts") = false →
  ∃ message,
    onMessageSend a request task
    = {| response :=
           Normal (VObj [("jsonrpc", VStr "2.0"); ("id", get_prop_opt request "id");
                         ("error", VObj [("code", VNum INTERNAL_ERROR);
                                         ("message", VStr message)])]);
         task_after := task |}.
Proof.
  intros Hreq Hparts. destruct (try_block_needs_parts a request task Hparts) as [e Htry].
  rewrite onMessageSend_catch, (catch_all_Throw _ _ _ e); [|by rewrite Htry|done].
  rewrite Htry. eauto.
Qed.

Lemma malformed_message_is_internal_error_witness :
  ∃ message,
    onMessageSend sample_shop sample_no_message (Some sample_listed_task)
    = {| response :=
           Normal (VObj [("jsonrpc", VStr "2.0"); ("id", VNum 3);
                         ("error", VObj [("code", VNum (-32000)); ("message", VStr message)])]);
         task_after := Some sample_listed_task |}.
Proof.
  apply (malformed_message_is_internal_error sample_shop sample_no_message
           (Some sample_listed_task)); reflexivity.
Defined.

(** ** Failures and the task object *)

(** The product service agent touches the task only on the way to a
    result. *)
Lemma Product_try_task_after d net request task :
  task_after (Product_try d net request task) = task
  ∨ ∃ result,
      response (Product_try d net request task)
      = Normal (VObj [("jsonrpc", VStr "2.0"); ("id", get_prop_opt request "id");
                      ("result", VObj result)]).
Proof.
  destruct (product_prefix net request) as [[rejection|[[[message pd] taskId] sessionId]]|e]
    eqn:Hprefix.
  - left. by rewrite (Product_try_rejected d net _ task _ Hprefix).
  - destruct (product_prefix_accepted _ _ _ _ _ _ Hprefix) as (Hreq & -> & -> & -> & Hpd).
    destruct (product_agentMessage_Normal _ _ Hpd) as [text Ham].
    destruct (history_of (default (product_new_task d (request_task_id request)
                (js_or (get_prop_opt (get_prop_opt request "params") "sessionId") VNull))
                task)) as [history|] eqn:Hh.
    + right. rewrite (Product_try_accepted d net _ task _ _ _ _ _ _ Hprefix Ham Hh).
      cbn [response]. rewrite (result_response_Normal _ _ Hreq). eauto.
    + left. destruct (Product_try_no_history d net _ task _ _ _ _ Hprefix Hh) as [e ->]. done.
  - left. by rewrite (Product_try_throw d net _ task _ Hprefix).
Qed.

(** X3. Whenever [onMessageSend] of the product service agent ends in an
    error envelope, or throws, the task object it was given is exactly as it
    was, whatever that task held: everything that can fail in the call fails
    before the first change to the task. *)
Theorem product_failure_leaves_task (d : Dates) (net : fetch_outcome) (request : value)
    (task : option object) :
  (∀ e, response (Product_onMessageSend d net request task) = Throw e →
        task_after (Product_onMessageSend d net request task) = task)
  ∧ (∀ envelope,
       response (Product_onMessageSend d net request task) = Normal envelope →
       get_prop_opt envelope "error" ≠ VUndefined →
       task_after (Product_onMessageSend d net request task) = task).
Proof.
  unfold Product_onMessageSend. rewrite catch_all_task_after.
  destruct (Product_try_task_after d net request task) as [H|[result Hret]];
    [by split|].
  rewrite (catch_all_Normal _ _ _ _ Hret), Hret. split; [done|].
  by intros envelope [= <-].
Qed.

Lemma product_failure_leaves_task_witness :
  task_after (Product_onMessageSend sample_dates network_down
                (tasks_send "t1" (user_text "Get all products")) (Some sample_damaged_task))
  = Some sample_damaged_task.
Proof.
  destruct (product_failure_leaves_task sample_dates network_down
              (tasks_send "t1" (user_text "Get all products")) (Some sample_damaged_task))
    as [_ Herror].
  eapply Herror; [reflexivity|]. vm_compute. discriminate.
Defined.

Lemma greeting_update_malformed d userMessage agentMessage taskObj :
  history_of taskObj = None →
  ∃ e, greeting_update d userMessage agentMessage taskObj
       = (Throw e, set_prop taskObj "status"
                     (status_object TaskState_Completed agentMessage (now_completed d))).
Proof.
  unfold history_of, greeting_update. intros H.
  rewrite !prop_set_prop_ne by done.
  destruct (prop taskObj "history") as [| | [] | n | s | l | o] eqn:E;
    cbn [truthy negb] in H |- *;
    try (destruct (Z.eqb n 0)); try (destruct (String.eqb s ""));
    cbn [negb] in H |- *; try discriminate;
    rewrite prop_set_prop_ne, E by done; eauto.
Qed.

(** X4. The greeting agent assigns the Completed status before it looks at
    the history.  For a tasks/send request on a task whose [history] is truthy
    but not an array, it therefore answers with the error code -32000 and yet
    leaves the task object with its status replaced by the Completed status
    that carries the reply; nothing else of the task is changed. *)
Theorem greeting_failure_after_status_update (JSON_parse : string → option value) (d : Dates)
    (request : value) (task : object) (agentMessage : value) :
  greeting_agentMessage JSON_parse request = Normal agentMessage →
  truthy (request_task_id request) = true →
  history_of task = None →
  (∃ message,
     response (Greeting_onMessageSend JSON_parse d request (Some task))
     = Normal (VObj [("jsonrpc", VStr "2.0"); ("id", get_prop_opt request "id");
                     ("error", VObj [("code", VNum INTERNAL_ERROR); ("message", VStr message)])]))
  ∧ task_after (Greeting_onMessageSend JSON_parse d request (Some task))
    = Some (set_prop task "status"
              (status_object TaskState_Completed agentMessage (now_completed d))).
Proof.
  intros Ham Hid Hh.
  assert (∃ params, greeting_prefix JSON_parse request
                    = Normal (agentMessage, params, request_task_id request)) as [params Hprefix].
  { unfold greeting_prefix. rewrite Ham. cbn [mbind completion_bind].
    unfold greeting_agentMessage in Ham.
    apply bind_Normal_inv in Ham as (params & Hp & Ham).
    apply bind_Normal_inv in Ham as (message & Hm & _).
    rewrite Hp. cbn [mbind completion_bind].
    rewrite (get_prop_not_nullish params "id") by by eapply get_prop_nullish.
    unfold request_task_id. rewrite (get_prop_Normal _ _ _ Hp). eauto. }
  destruct (greeting_prefix_Normal _ _ _ _ _ Hprefix) as (_ & Hreq & _).
  unfold Greeting_onMessageSend. rewrite catch_all_task_after.
  assert (∃ e, Greeting_try JSON_parse d request (Some task)
               = {| response := Throw e;
                    task_after := Some (set_prop task "status"
                      (status_object TaskState_Completed agentMessage (now_completed d))) |})
    as [e Htry].
  { unfold Greeting_try. rewrite Hprefix, Hid. cbn [default from_option id alias].
    destruct (greeting_update_malformed d (get_prop_opt params "message") agentMessage task Hh)
      as [e ->]. eauto. }
  rewrite Htry. split; [|done].
  rewrite (catch_all_Throw _ _ _ e); [|done..]. cbn [response]. eauto.
Qed.

Lemma greeting_failure_after_status_update_witness :
  task_after (Greeting_onMessageSend JSON_parse_literals sample_dates
                (tasks_send "t1" (user_text "hello")) (Some sample_damaged_task))
  = Some [("id", VStr "t1"); ("sessionId", VStr "s1");
          ("status", status_object TaskState_Completed
                       (agent_text_message "Hey friend, greetings from Agent B 🤝")
                       "2025-01-01T00:00:02.000Z");
          ("history", VStr "lost")].
Proof.
  apply (greeting_failure_after_status_update JSON_parse_literals sample_dates
           (tasks_send "t1" (user_text "hello")) sample_damaged_task
           (agent_text_message "Hey friend, greetings from Agent B 🤝"));
    reflexivity.
Defined.

(** ** Requests the product service agent turns away *)

Lemma product_prefix_rejected_any net net' request rejection :
  product_prefix net request = Normal (inl rejection) →
  product_prefix net' request = Normal (inl rejection).
Proof.
  unfold product_prefix. intros H.
  repeat match type of H with
  | (?c ≫= _) = Normal _ =>
      let x := fresh "x" in let Hx := fresh "Hx" in
      destruct c as [x|] eqn:Hx; [cbn [mbind completion_bind] in H |- *|done]
  end.
  destruct (negb _); [done|].
  apply bind_Normal_inv in H as (? & _ & H).
  apply bind_Normal_inv in H as (? & _ & H).
  apply bind_Normal_inv in H as (? & _ & H). discriminate.
Qed.

(** X5. When the product service agent answers with the code -32602, the
    catalogue was not consulted and nothing depends on the clock: the call
    returns the same envelope, and leaves the task object as it was, whatever
    the network would have answered. *)
Theorem rejected_request_skips_catalogue (d : Dates) (net : fetch_outcome) (request : value)
    (task : option object) (envelope : value) :
  response (Product_onMessageSend d net request task) = Normal envelope →
  get_prop_opt (get_prop_opt envelope "error") "code" = VNum INVALID_PARAMS →
  ∀ d' net',
    Product_onMessageSend d' net' request task
    = {| response := Normal envelope; task_after := task |}.
Proof.
  intros Hret Hcode d' net'. unfold Product_onMessageSend in *.
  destruct (response (Product_try d net request task)) as [envelope'|e] eqn:Htry.
  - rewrite (catch_all_Normal _ _ _ _ Htry), Htry in Hret. injection Hret as ->.
    destruct (product_prefix net request) as [[rejection|[[[message pd] taskId] sessionId]]|e]
      eqn:Hprefix.
    + rewrite (Product_try_rejected d net _ task _ Hprefix) in Htry. injection Htry as ->.
      apply (product_prefix_rejected_any _ net') in Hprefix.
      by rewrite (Product_try_rejected d' net' _ task _ Hprefix).
    + exfalso.
      destruct (product_prefix_accepted _ _ _ _ _ _ Hprefix) as (Hreq & -> & -> & -> & Hpd).
      destruct (product_agentMessage_Normal _ _ Hpd) as [text Ham].
      destruct (history_of (default (product_new_task d (request_task_id request)
                  (js_or (get_prop_opt (get_prop_opt request "params") "sessionId") VNull))
                  task)) as [history|] eqn:Hh.
      * rewrite (Product_try_accepted d net _ task _ _ _ _ _ _ Hprefix Ham Hh) in Htry.
        cbn [response] in Htry. rewrite (result_response_Normal _ _ Hreq) in Htry.
        injection Htry as <-. done.
      * destruct (Product_try_no_history d net _ task _ _ _ _ Hprefix Hh) as [e He].
        by rewrite He in Htry.
    + by rewrite (Product_try_throw d net _ task _ Hprefix) in Htry.
  - destruct (is_nullish request) eqn:Hreq.
    + unfold catch_all in Hret. rewrite Htry in Hret. cbn [response] in Hret.
      by destruct request.
    + rewrite (catch_all_Throw _ _ _ _ Htry Hreq) in Hret. cbn [response] in Hret.
      injection Hret as <-. done.
Qed.

Lemma rejected_request_skips_catalogue_witness :
  Product_onMessageSend sample_dates network_down (tasks_send "t1" (user_text "hello"))
    (Some sample_listed_task)
  = {| response :=
         Normal (VObj [("jsonrpc", VStr "2.0"); ("id", VNum 1);
                       ("error", VObj [("code", VNum (-32602));
                                       ("message",
                                        VStr "This agent only handles product inventory requests")])]);
       task_after := Some sample_listed_task |}.
Proof.
  apply (rejected_request_skips_catalogue sample_dates sample_catalogue
           (tasks_send "t1" (user_text "hello")) (Some sample_listed_task)); reflexivity.
Defined.

(** ** Which texts are product requests *)

Lemma prefix_app (sub s : string) :
  String.prefix sub s = true ↔ ∃ post, s = sub +:+ post.
Proof.
  revert s. induction sub as [|c sub IH]; intros s.
  - split; [by exists s|]. intros _. by destruct s.
  - destruct s as [|c' s]; simpl.
    + split; [done|]. by intros [post H].
    + destruct (ascii_dec c c') as [->|Hne].
      * rewrite IH. split.
        -- intros [post ->]. by exists post.
        -- intros [post H]. exists post. by injection H.
      * split; [done|]. intros [post H]. by injection H.
Qed.

Lemma includes_app (s sub : string) :
  includes s sub = true ↔ ∃ pre post, s = pre +:+ sub +:+ post.
Proof.
  induction s as [|c s IH].
  - cbn [includes]. rewrite orb_false_r, prefix_app. split.
    + intros [post ->]. by exists "", post.
    + intros (pre & post & H). destruct pre as [|]; [|done]. by exists post.
  - cbn [includes]. rewrite orb_true_iff, prefix_app, IH. split.
    + intros [[post ->]|(pre & post & ->)].
      * by exists "", post.
      * by exists (String c pre), post.
    + intros (pre & post & H). destruct pre as [|c' pre].
      * left. by exists post.
      * right. injection H as -> ->. by exists pre, post.
Qed.

Lemma toLowerCase_app (a b : string) : toLowerCase (a +:+ b) = toLowerCase a +:+ toLowerCase b.
Proof.
  induction a as [|c a IH]; [done|].
  change (String (lower_ascii c) (toLowerCase (a +:+ b))
          = String (lower_ascii c) (toLowerCase a +:+ toLowerCase b)). by rewrite IH.
Qed.

Lemma toLowerCase_split (s a b : string) :
  toLowerCase s = a +:+ b → ∃ a' b', s = a' +:+ b' ∧ toLowerCase a' = a ∧ toLowerCase b' = b.
Proof.
  revert s. induction a as [|c a IH]; intros s H.
  - by exists "", s.
  - destruct s as [|c' s]; [done|]. injection H as <- H.
    destruct (IH _ H) as (a' & b' & -> & <- & <-). by exists (String c' a'), b'.
Qed.

Lemma includes_toLowerCase (text k : string) :
  includes (toLowerCase text) k = true
  ↔ ∃ pre word post, text = pre +:+ word +:+ post ∧ toLowerCase word = k.
Proof.
  rewrite includes_app. split.
  - intros (pre & post & H).
    apply toLowerCase_split in H as (pre' & rest & -> & _ & H).
    apply toLowerCase_split in H as (word & post' & -> & Hw & _).
    by exists pre', word, post'.
  - intros (pre & word & post & -> & <-).
    exists (toLowerCase pre), (toLowerCase post). by rewrite !toLowerCase_app.
Qed.

(** X6. The test [isProductRequest] holds exactly when the text of the
    message contains, anywhere and in any mixture of upper and lower case
    (inside a longer word too), one of the words product, inventory and get,
    or when the structured request is truthy and its [action] is the string
    get_products. *)
Theorem isProductRequest_by_keyword (messageText : string) (structuredRequest : value) :
  isProductRequest messageText structuredRequest = true
  ↔ (∃ pre word post,
       messageText = pre +:+ word +:+ post
       ∧ toLowerCase word ∈ ["product"; "inventory"; "get"])
    ∨ (truthy structuredRequest = true
       ∧ get_prop_opt structuredRequest "action" = VStr "get_products").
Proof.
  unfold isProductRequest.
  rewrite !orb_true_iff, andb_true_iff, !includes_toLowerCase, strict_eq_str_true.
  split.
  - intros [[[H|H]|H]|H]; [left..|by right];
      destruct H as (pre & word & post & H & Hw); exists pre, word, post;
      (split; [done|]); rewrite Hw, !elem_of_cons; auto.
  - intros [(pre & word & post & H & Hw)|H]; [|by right].
    left. rewrite !elem_of_cons, elem_of_nil in Hw.
    destruct Hw as [Hw|[Hw|[Hw|[]]]]; [left; left|left; right|right]; by exists pre, word, post.
Qed.

Lemma isProductRequest_by_keyword_witness :
  isProductRequest "Forget it" VNull = true
  ∧ isProductRequest "" (VObj [("action", VStr "get_products")]) = true.
Proof.
  split.
  - apply (isProductRequest_by_keyword "Forget it" VNull). left.
    exists "For", "get", " it". split; [reflexivity|]. repeat constructor.
  - apply (isProductRequest_by_keyword "" (VObj [("action", VStr "get_products")])). right.
    split; reflexivity.
Defined.

(** ** What the greeting agent replies *)

Lemma greeting_agentMessage_of_text JSON_parse request params m :
  get_prop request "params" = Normal params →
  get_prop params "message" = Normal (Message_value m) →
  greeting_agentMessage JSON_parse request
  = (let messageText := spec_extractText (parts m) in
     let taskData :=
       match JSON_parse messageText with
       | Some parsed => parsed
       | None => VObj [("type", VStr "greeting"); ("input", VObj [("message", VStr messageText)])]
       end in
     type ← get_prop taskData "type";
     result ← (if strict_eq_str type "greeting"
               then input ← get_prop taskData "input"; handleGreeting input
               else mret "Unsupported task type");
     mret (agent_text_message result)).
Proof.
  intros Hparams Hmessage. unfold greeting_agentMessage.
  rewrite Hparams. cbn [mbind completion_bind]. rewrite Hmessage.
  cbn [mbind completion_bind Message_value get_prop].
  change (prop _ "parts") with (VArr (map Part_value (parts m))).
  by rewrite text_of_parts_spec.
Qed.

Lemma greeting_agentMessage_unanswerable JSON_parse request params m parsed :
  get_prop request "params" = Normal params →
  get_prop params "message" = Normal (Message_value m) →
  JSON_parse (spec_extractText (parts m)) = Some parsed →
  unanswerable parsed = true →
  ∃ e, greeting_agentMessage JSON_parse request = Throw e.
Proof.
  intros Hparams Hmessage Hparse Hun.
  rewrite (greeting_agentMessage_of_text _ _ _ _ Hparams Hmessage). cbv zeta.
  rewrite Hparse, bind_assoc_type.
  destruct (taskData_unanswerable parsed Hun) as [e ->]. by exists e.
Qed.

Lemma greeting_agentMessage_parsed JSON_parse request params m :
  get_prop request "params" = Normal params →
  get_prop params "message" = Normal (Message_value m) →
  (∀ parsed, JSON_parse (spec_extractText (parts m)) = Some parsed →
             unanswerable parsed = false) →
  ∃ reply, greeting_agentMessage JSON_parse request = Normal reply.
Proof.
  intros Hparams Hmessage Hparsed.
  rewrite (greeting_agentMessage_of_text _ _ _ _ Hparams Hmessage). cbv zeta.
  destruct (JSON_parse (spec_extractText (parts m))) as [parsed|] eqn:Hparse.
  - rewrite bind_assoc_type.
    destruct (taskData_answerable parsed (Hparsed parsed eq_refl)) as [reply ->]. by eexists.
  - by eexists.
Qed.

(** X7. The reply of the greeting agent to a message of the data model is
    decided by what [JSON.parse] makes of the message's text.  A text that
    does not parse is greeted as friend; a parsed value of type greeting is
    greeted by its [input.name] when that is a non-empty string (so the
    payload of the test client comes back as a greeting by name) and as friend
    when it is the empty string; any other parsed value that is not [null]
    gets the reply Unsupported task type; the text null makes the executor
    throw. *)
Theorem greeting_reply_by_payload (JSON_parse : string → option value)
    (request params : value) (m : Message) :
  get_prop request "params" = Normal params →
  get_prop params "message" = Normal (Message_value m) →
  (JSON_parse (spec_extractText (parts m)) = None →
   greeting_agentMessage JSON_parse request
   = Normal (agent_text_message "Hey friend, greetings from Agent B 🤝"))
  ∧ (∀ parsed name,
       JSON_parse (spec_extractText (parts m)) = Some parsed →
       get_prop_opt parsed "type" = VStr "greeting" →
       get_prop_opt (get_prop_opt parsed "input") "name" = VStr name →
       greeting_agentMessage JSON_parse request
       = Normal (agent_text_message
                   ("Hey " +:+ (if String.eqb name "" then "friend" else name)
                    +:+ ", greetings from Agent B 🤝")))
  ∧ (∀ parsed,
       JSON_parse (spec_extractText (parts m)) = Some parsed →
       is_nullish parsed = false →
       get_prop_opt parsed "type" ≠ VStr "greeting" →
       greeting_agentMessage JSON_parse request
       = Normal (agent_text_message "Unsupported task type"))
  ∧ (∀ parsed,
       JSON_parse (spec_extractText (parts m)) = Some parsed →
       is_nullish parsed = true →
       ∃ e, greeting_agentMessage JSON_parse request = Throw e).
Proof.
  intros Hparams Hmessage.
  rewrite (greeting_agentMessage_of_text _ _ _ _ Hparams Hmessage). cbv zeta.
  split_and!.
  - by intros ->.
  - intros parsed name -> Htype Hname.
    assert (is_nullish parsed = false) as Hp by (by destruct parsed).
    rewrite (get_prop_not_nullish _ "type" Hp), Htype. cbn [mbind completion_bind].
    change (strict_eq_str (VStr "greeting") "greeting") with true. cbv iota.
    rewrite (get_prop_not_nullish _ "input" Hp). cbn [mbind completion_bind mret completion_ret].
    unfold handleGreeting. rewrite Hname. unfold js_or. cbn [truthy].
    by destruct (String.eqb name "").
  - intros parsed -> Hp Htype.
    rewrite (get_prop_not_nullish _ "type" Hp). cbn [mbind completion_bind].
    destruct (strict_eq_str _ _) eqn:E; [|done]. by apply strict_eq_str_true in E.
  - intros parsed -> Hp. destruct parsed; try done; eauto.
Qed.

Lemma greeting_reply_by_payload_witness :
  greeting_agentMessage JSON_parse_literals (tasks_send "t1" (user_text "hello"))
  = Normal (agent_text_message "Hey friend, greetings from Agent B 🤝")
  ∧ greeting_agentMessage (JSON_parse_payload (greeting_payload "Bhanu"))
      (tasks_send "t1" (user_text (json_text (greeting_payload "Bhanu"))))
    = Normal (agent_text_message "Hey Bhanu, greetings from Agent B 🤝").
Proof.
  split.
  - apply (greeting_reply_by_payload JSON_parse_literals (tasks_send "t1" (user_text "hello"))
             (VObj [("id", VStr "t1"); ("message", Message_value (user_text "hello"))])
             (user_text "hello")); reflexivity.
  - destruct (greeting_reply_by_payload (JSON_parse_payload (greeting_payload "Bhanu"))
                (tasks_send "t1" (user_text (json_text (greeting_payload "Bhanu"))))
                (VObj [("id", VStr "t1");
                       ("message",
                        Message_value (user_text (json_text (greeting_payload "Bhanu"))))])
                (user_text (json_text (greeting_payload "Bhanu"))) eq_refl eq_refl)
      as (_ & Hnamed & _).
    apply (Hnamed (greeting_payload "Bhanu") "Bhanu"); reflexivity.
Defined.

(** X8. For a request that carries a message of the data model, the outcome
    of the greeting agent is decided by what [JSON.parse] makes of the text
    and by the truthiness of [params.id].  When the text parses to a payload
    the agent fails on ([null], or a greeting whose [input.name] cannot be
    converted to a string, as an object with an own [toString] property) the
    answer is the error code -32000 and the task object is untouched.
    Otherwise there is a reply, and: when [params.id] is falsy (missing, but
    also the empty string or 0) the result is that reply, a message, and the
    task object is untouched; when [params.id] is truthy and the task's
    history can take a message, the result is a task whose status is
    Completed with that reply. *)
Theorem greeting_outcome_by_request (JSON_parse : string → option value) (d : Dates)
    (request params : value) (m : Message) (task : option object) :
  get_prop request "params" = Normal params →
  get_prop params "message" = Normal (Message_value m) →
  let run := Greeting_onMessageSend JSON_parse d request task in
  let envelope body := VObj [("jsonrpc", VStr "2.0"); ("id", get_prop_opt request "id"); body] in
  (∀ parsed,
     JSON_parse (spec_extractText (parts m)) = Some parsed → unanswerable parsed = true →
     (∃ message,
        response run
        = Normal (envelope ("error", VObj [("code", VNum INTERNAL_ERROR);
                                           ("message", VStr message)])))
     ∧ task_after run = task)
  ∧ ((∀ parsed, JSON_parse (spec_extractText (parts m)) = Some parsed →
                unanswerable parsed = false) →
     ∃ reply,
       greeting_agentMessage JSON_parse request = Normal reply
       ∧ (truthy (get_prop_opt params "id") = false →
          response run = Normal (envelope ("result", reply)) ∧ task_after run = task)
       ∧ (truthy (get_prop_opt params "id") = true →
          (∀ before, task = Some before → is_Some (history_of before)) →
          ∃ result,
            response run = Normal (envelope ("result", VObj result))
            ∧ prop result "status"
              = status_object TaskState_Completed reply (now_completed d))).
Proof.
  intros Hparams Hmessage run envelope. subst run envelope. cbv beta.
  assert (is_nullish request = false) as Hreq by by eapply get_prop_nullish.
  assert (is_nullish params = false) as Hp by by eapply get_prop_nullish.
  split.
  - intros parsed Hparse Hun.
    destruct (greeting_agentMessage_unanswerable _ _ _ _ _ Hparams Hmessage Hparse Hun)
      as [e He].
    assert (greeting_prefix JSON_parse request = Throw e) as Hprefix
      by (unfold greeting_prefix; by rewrite He).
    unfold Greeting_onMessageSend.
    rewrite (Greeting_try_throw _ d _ task _ Hprefix).
    rewrite (catch_all_Throw _ _ _ e); [|done..]. cbn [response task_after]. eauto.
  - intros Hparsed.
    destruct (greeting_agentMessage_parsed _ _ _ _ Hparams Hmessage Hparsed) as [reply Ham].
    exists reply. split; [done|].
    assert (greeting_prefix JSON_parse request
            = Normal (reply, params, get_prop_opt params "id")) as Hprefix.
    { unfold greeting_prefix. rewrite Ham. cbn [mbind completion_bind].
      rewrite Hparams. cbn [mbind completion_bind].
      by rewrite (get_prop_not_nullish params "id" Hp). }
    unfold Greeting_onMessageSend. split.
    + intros Hid. rewrite (Greeting_try_message _ d _ task _ _ _ Hprefix Hid).
      unfold catch_all. cbn [response]. by rewrite (result_response_Normal _ _ Hreq).
    + intros Hid Htask.
      destruct (history_of_default_greeting d (get_prop_opt params "id")
                  (js_or (get_prop_opt params "sessionId") VNull) task Htask) as [h Hh].
      pose proof (Greeting_try_task JSON_parse d request task _ _ _ h Hprefix Hid Hh) as Htry.
      cbv zeta in Htry. rewrite (result_response_Normal _ _ Hreq) in Htry.
      erewrite catch_all_Normal by by rewrite Htry.
      rewrite Htry. cbn [response]. eexists. split; [done|].
      apply greeting_result_status.
Qed.

Lemma greeting_outcome_by_request_witness :
  (response (Greeting_onMessageSend JSON_parse_literals sample_dates
               (tasks_send "" (user_text "hello")) (Some sample_greeted_task))
   = Normal (VObj [("jsonrpc", VStr "2.0"); ("id", VNum 1);
                   ("result", agent_text_message "Hey friend, greetings from Agent B 🤝")])
   ∧ task_after (Greeting_onMessageSend JSON_parse_literals sample_dates
                   (tasks_send "" (user_text "hello")) (Some sample_greeted_task))
     = Some sample_greeted_task)
  ∧ ((∃ message,
        response (Greeting_onMessageSend (JSON_parse_payload sample_unnamed) sample_dates
                    (tasks_send "t1" (user_text (json_text sample_unnamed)))
                    (Some sample_greeted_task))
        = Normal (VObj [("jsonrpc", VStr "2.0"); ("id", VNum 1);
                        ("error", VObj [("code", VNum (-32000));
                                        ("message", VStr message)])]))
     ∧ task_after (Greeting_onMessageSend (JSON_parse_payload sample_unnamed) sample_dates
                     (tasks_send "t1" (user_text (json_text sample_unnamed)))
                     (Some sample_greeted_task))
       = Some sample_greeted_task).
Proof.
  split.
  - destruct (greeting_outcome_by_request JSON_parse_literals sample_dates
                (tasks_send "" (user_text "hello"))
                (VObj [("id", VStr ""); ("message", Message_value (user_text "hello"))])
                (user_text "hello") (Some sample_greeted_task) eq_refl eq_refl)
      as [_ Hreply].
    destruct Hreply as (reply & Ham & Hmessage & _).
    + intros parsed Hparse. discriminate Hparse.
    + injection Ham as <-. apply Hmessage. reflexivity.
  - destruct (greeting_outcome_by_request (JSON_parse_payload sample_unnamed) sample_dates
                (tasks_send "t1" (user_text (json_text sample_unnamed)))
                (VObj [("id", VStr "t1");
                       ("message", Message_value (user_text (json_text sample_unnamed)))])
                (user_text (json_text sample_unnamed)) (Some sample_greeted_task)
                eq_refl eq_refl)
      as [Hfails _].
    apply (Hfails sample_unnamed); reflexivity.
Defined.

(** ** What a cycle leaves of the task *)

(** X9. When either executor returns a task: if it was given a task, the
    result is that very object in its final state, and every property other
    than [status], [history] and [artifacts] ([id], [sessionId] and [metadata]
    among them) is as it was before, whatever the request says; if it was
    given none, the new task has the request's [params.id] as its [id],
    [params.sessionId] or [null] as its [sessionId], and empty [metadata]. *)
Theorem cycle_keeps_other_properties (a : AgentExecutor) (request : value)
    (task : option object) (envelope : value) (result : object) :
  response (onMessageSend a request task) = Normal envelope →
  get_prop_opt envelope "result" = VObj result →
  has_prop result "status" = true →
  match task with
  | Some before =>
      task_after (onMessageSend a request task) = Some result
      ∧ ∀ k, k ∉ ["status"; "history"; "artifacts"] → lookup_prop result k = lookup_prop before k
  | None =>
      task_after (onMessageSend a request task) = None
      ∧ lookup_prop result "id" = Some (request_task_id request)
      ∧ lookup_prop result "sessionId"
        = Some (js_or (get_prop_opt (get_prop_opt request "params") "sessionId") VNull)
      ∧ lookup_prop result "metadata" = Some (VObj [])
  end.
Proof.
  intros Hret Hres Hstatus.
  destruct (onMessageSend_result a request task envelope Hret) as (_ & _ & Hshape);
    [by rewrite Hres|].
  rewrite Hres in Hshape.
  destruct Hshape as [JSON_parse d _ _ Ham _
                     |JSON_parse d am taskObj h _ _ _ -> _ Hresult Hafter
                     |d net pd am taskObj h _ _ _ -> _ Hresult Hafter].
  - apply greeting_agentMessage_text in Ham as [text Ham]. injection Ham as ->. done.
  - injection Hresult as ->. rewrite Hafter. destruct task as [before|]; cbn [alias default].
    + split; [done|]. intros k Hk. apply greeting_result_other; set_solver.
    + rewrite !greeting_result_other by done. done.
  - injection Hresult as ->. rewrite Hafter. destruct task as [before|]; cbn [alias default].
    + split; [done|]. intros k Hk. apply product_result_other; set_solver.
    + rewrite !product_result_other by done. done.
Qed.

Lemma cycle_keeps_other_properties_witness :
  task_after sample_relisted = Some (result_of sample_relisted)
  ∧ ∀ k, k ∉ ["status"; "history"; "artifacts"] →
         lookup_prop (result_of sample_relisted) k = lookup_prop sample_listed_task k.
Proof.
  apply (cycle_keeps_other_properties sample_shop
           (tasks_send "t1" (user_text "Get all products")) (Some sample_listed_task)
           (envelope_of sample_relisted) (result_of sample_relisted));
    reflexivity.
Defined.

(** ** The catalogue *)

Lemma mapM_Normal {A B} (f : A → completion B) (l : list A) (k : list B) :
  mapM f l = Normal k ↔ Forall2 (λ x y, f x = Normal y) l k.
Proof.
  revert k. induction l as [|x l IH]; intros k.
  - cbn. split.
    + intros [= <-]. constructor.
    + intros H. by inversion H.
  - cbn [mapM]. split.
    + intros H. apply bind_Normal_inv in H as (y & Hy & H).
      apply bind_Normal_inv in H as (k' & Hk & H). injection H as <-.
      constructor; [done|]. by apply IH.
    + intros H. inversion H as [|? y ? k' Hy Hk]; subst.
      apply IH in Hk. by rewrite Hy, Hk.
Qed.

Lemma normalize_product_Normal product :
  is_nullish product = false →
  ∃ normalized, normalize_product product = Normal (VObj normalized)
    ∧ map fst normalized
      = ["id"; "sku"; "name"; "description"; "price"; "currency"; "inStock"; "quantity";
         "category"; "vendor"; "tags"]
    ∧ (∀ k, k ∈ ["id"; "sku"; "name"] → prop normalized k = get_prop_opt product k)
    ∧ (∀ k, k ∈ defaulted_fields → is_nullish (prop normalized k) = false).
Proof.
  intros Hp. unfold normalize_product.
  rewrite !(get_prop_not_nullish product) by done. cbn [mbind completion_bind mret completion_ret].
  eexists. split; [done|]. split; [done|]. split.
  - intros k Hk. rewrite !elem_of_cons, elem_of_nil in Hk.
    destruct Hk as [->|[->|[->|[]]]]; done.
  - intros k Hk. unfold defaulted_fields in Hk. rewrite !elem_of_cons, elem_of_nil in Hk.
    assert (∀ v w, is_nullish w = false → is_nullish (js_or v w) = false) as Hor.
    { intros v w Hw. unfold js_or. destruct (truthy v) eqn:E; [|done]. by destruct v. }
    destruct Hk as [->|[->|[->|[->|[->|[->|[->|[->|[]]]]]]]]]; by apply Hor.
Qed.

Lemma normalize_product_nullish product normalized :
  normalize_product product = Normal normalized → is_nullish product = false.
Proof.
  unfold normalize_product. intros H.
  apply bind_Normal_inv in H as (? & Hid & _). by eapply get_prop_nullish.
Qed.

Lemma catalogue_products_as_array acpResponse products :
  as_array (js_or (get_prop_opt acpResponse "products") (VArr [])) "map" = Normal products
  ↔ catalogue_products acpResponse = Some products.
Proof.
  unfold catalogue_products, js_or.
  destruct (get_prop_opt acpResponse "products") as [| |[]|n|s|l'|o]; cbn;
    try (destruct (Z.eqb n 0)); try (destruct (String.eqb s ""));
    cbn; split; intros H; try done; by injection H as <-.
Qed.

(** The log line of [getProducts] can print the number of products of
    whatever goes on to be normalized. *)
Lemma catalogue_products_logged acpResponse products :
  catalogue_products acpResponse = Some products →
  printable (js_or (get_prop_opt (get_prop_opt acpResponse "products") "length") (VNum 0))
  = true.
Proof.
  unfold catalogue_products, js_or.
  destruct (get_prop_opt acpResponse "products") as [| |[]|n|s|l'|o]; cbn;
    try (destruct (Z.eqb n 0)); try (destruct (String.eqb s "")); cbn; try done;
    by destruct (_ =? 0).
Qed.

Lemma getProducts_inv net productData :
  getProducts net = Normal productData →
  ∃ status statusText acpResponse products normalizedProducts,
    net = FetchResponse true status statusText (Normal acpResponse)
    ∧ is_nullish acpResponse = false
    ∧ catalogue_products acpResponse = Some products
    ∧ mapM normalize_product products = Normal normalizedProducts
    ∧ productData
      = VObj [("products", VArr normalizedProducts);
              ("metadata",
               VObj [("total", js_or (get_prop_opt (get_prop_opt acpResponse "metadata") "total")
                                     (VNum (Z.of_nat (length normalizedProducts))));
                     ("shop", js_or (get_prop_opt (get_prop_opt acpResponse "shop") "name")
                                    (VStr "Unknown"));
                     ("currency", js_or (get_prop_opt (get_prop_opt acpResponse "shop") "currency")
                                        (VStr "USD"));
                     ("lastSync", js_or (get_prop_opt (get_prop_opt acpResponse "shop") "lastSync")
                                        VNull)])].
Proof.
  intros H. unfold getProducts in H.
  destruct net as [|[] status statusText [acpResponse|]]; try done.
  cbn [negb mbind completion_bind] in H.
  apply bind_Normal_inv in H as (? & Hp & H).
  apply bind_Normal_inv in H as (? & _ & H).
  apply bind_Normal_inv in H as (products & Hproducts & H).
  apply bind_Normal_inv in H as (l & Hl & H).
  apply bind_Normal_inv in H as (normalizedProducts & Hn & H).
  apply bind_Normal_inv in H as (metadata & Hm & H).
  apply bind_Normal_inv in H as (shop & Hs & H).
  injection H as <-.
  rewrite <-(get_prop_Normal _ _ _ Hproducts) in Hl. apply catalogue_products_as_array in Hl.
  exists status, statusText, acpResponse, l, normalizedProducts.
  rewrite (get_prop_Normal _ _ _ Hm), (get_prop_Normal _ _ _ Hs).
  split_and!; try done. by eapply get_prop_nullish.
Qed.

(** X10. [getProducts] returns, rather than throws, exactly when the request
    was answered with an ok status, the body parsed to something other than
    [undefined] and [null], its [products] are either falsy (then taken as
    none) or an array, and no entry of that array is [undefined] or [null].  A
    rejected request, a status that is not ok, a body that does not parse, a
    truthy [products] that is not an array, and a [null] entry all make it
    throw. *)
Theorem getProducts_succeeds_iff (net : fetch_outcome) :
  (∃ productData, getProducts net = Normal productData)
  ↔ ∃ status statusText acpResponse products,
      net = FetchResponse true status statusText (Normal acpResponse)
      ∧ is_nullish acpResponse = false
      ∧ catalogue_products acpResponse = Some products
      ∧ Forall (λ product, is_nullish product = false) products.
Proof.
  split.
  - intros [productData H].
    apply getProducts_inv in H
      as (status & statusText & acpResponse & products & normalizedProducts
          & -> & Hresp & Hcat & Hn & _).
    exists status, statusText, acpResponse, products. split_and!; try done.
    apply mapM_Normal in Hn. clear -Hn.
    induction Hn as [|x y l k Hx _ IH]; constructor; [|done].
    by eapply normalize_product_nullish.
  - intros (status & statusText & acpResponse & products & -> & Hresp & Hcat & Hall).
    unfold getProducts. cbn [negb mbind completion_bind].
    rewrite !(get_prop_not_nullish acpResponse) by done. cbn [mbind completion_bind].
    rewrite (interpolate_printable _ (catalogue_products_logged _ _ Hcat)).
    cbn [mbind completion_bind].
    apply catalogue_products_as_array in Hcat. rewrite Hcat. cbn [mbind completion_bind].
    assert (∃ normalizedProducts, mapM normalize_product products = Normal normalizedProducts)
      as [normalizedProducts ->].
    { clear -Hall. induction Hall as [|x l Hx _ [k IH]]; [by exists []|].
      destruct (normalize_product_Normal x Hx) as (n & Hn & _).
      exists (VObj n :: k). cbn [mapM]. by rewrite Hn, IH. }
    cbn [mbind completion_bind]. eauto.
Qed.

Lemma getProducts_succeeds_iff_witness :
  (∃ productData, getProducts sample_catalogue = Normal productData)
  ∧ ¬ (∃ productData,
         getProducts (FetchResponse true 200 "OK" (Normal (VObj [("products", VArr [VNull])])))
         = Normal productData).
Proof.
  split.
  - apply (getProducts_succeeds_iff sample_catalogue).
    eexists _, _, _, _. split; [reflexivity|]. split; [reflexivity|]. split; [reflexivity|].
    repeat constructor.
  - intros H.
    apply (getProducts_succeeds_iff
             (FetchResponse true 200 "OK" (Normal (VObj [("products", VArr [VNull])])))) in H
      as (status & statusText & acpResponse & products & Hnet & _ & Hcat & Hall).
    injection Hnet as _ _ <-. injection Hcat as <-.
    inversion Hall as [|? ? Hnull _]. discriminate Hnull.
Defined.

(** X11. What [getProducts] returns has one normalized product for each
    product of the catalogue, in the catalogue's order: an object with the
    eleven properties [id], [sku], [name], [description], [price], [currency],
    [inStock], [quantity], [category], [vendor], [tags], in which [id], [sku]
    and [name] are the catalogue's own and none of the other eight is
    [undefined] or [null]; and its [metadata.total] is the catalogue's
    [metadata.total] when that is truthy and the number of products
    otherwise. *)
Theorem getProducts_normalizes_every_product (net : fetch_outcome) (productData : value) :
  getProducts net = Normal productData →
  ∃ status statusText acpResponse products normalizedProducts,
    net = FetchResponse true status statusText (Normal acpResponse)
    ∧ catalogue_products acpResponse = Some products
    ∧ get_prop_opt productData "products" = VArr normalizedProducts
    ∧ Forall2 normalized_from products normalizedProducts
    ∧ get_prop_opt (get_prop_opt productData "metadata") "total"
      = js_or (get_prop_opt (get_prop_opt acpResponse "metadata") "total")
              (VNum (Z.of_nat (length products))).
Proof.
  intros (status & statusText & acpResponse & products & normalizedProducts
          & -> & _ & Hcat & Hn & ->)%getProducts_inv.
  exists status, statusText, acpResponse, products, normalizedProducts.
  apply mapM_Normal in Hn.
  split_and!; try done.
  - clear -Hn. induction Hn as [|x y l k Hx _ IH]; constructor; [|done].
    destruct (normalize_product_Normal x) as (fields & Hf & H); [by eapply normalize_product_nullish|].
    rewrite Hf in Hx. injection Hx as <-. by exists fields.
  - cbn. by rewrite (Forall2_length _ _ _ Hn).
Qed.

Lemma getProducts_normalizes_every_product_witness :
  ∃ status statusText acpResponse products normalizedProducts,
    sample_catalogue = FetchResponse true status statusText (Normal acpResponse)
    ∧ catalogue_products acpResponse = Some products
    ∧ get_prop_opt sample_productData "products" = VArr normalizedProducts
    ∧ Forall2 normalized_from products normalizedProducts
    ∧ get_prop_opt (get_prop_opt sample_productData "metadata") "total"
      = js_or (get_prop_opt (get_prop_opt acpResponse "metadata") "total")
              (VNum (Z.of_nat (length products))).
Proof.
  apply (getProducts_normalizes_every_product sample_catalogue sample_productData).
  reflexivity.
Defined.

(** X12. The text of the reply in every task the product service agent
    returns is Found N products in inventory., where N is the number of
    products of the catalogue that was fetched in this call (0 when the
    catalogue has no [products]). *)
Theorem product_reply_counts_catalogue (d : Dates) (net : fetch_outcome) (request : value)
    (task : option object) (envelope : value) (result : object) :
  response (Product_onMessageSend d net request task) = Normal envelope →
  get_prop_opt envelope "result" = VObj result →
  ∃ status statusText acpResponse products,
    net = FetchResponse true status statusText (Normal acpResponse)
    ∧ catalogue_products acpResponse = Some products
    ∧ get_prop_opt (prop result "status") "message"
      = agent_text_message
          ("Found " +:+ pretty (Z.of_nat (length products)) +:+ " products in inventory.").
Proof.
  intros Hret Hres.
  destruct (onMessageSend_result (ProductServiceExecutor d net) request task envelope Hret)
    as (_ & _ & Hshape); [by rewrite Hres|].
  rewrite Hres in Hshape.
  destruct Hshape as [JSON_parse d' Ha _ _ _
                     |JSON_parse d' am taskObj h Ha _ _ _ _ _ _
                     |d' net' pd am taskObj h Ha Hpd Ham _ _ Hresult _]; try discriminate.
  injection Ha as <- <-. injection Hresult as ->.
  apply getProducts_inv in Hpd
    as (status & statusText & acpResponse & products & normalizedProducts
        & -> & _ & Hcat & Hn & ->).
  exists status, statusText, acpResponse, products. split_and!; [done..|].
  rewrite product_result_status. apply mapM_Normal, Forall2_length in Hn.
  rewrite product_agentMessage_count in Ham. injection Ham as <-. by rewrite Hn.
Qed.

Lemma product_reply_counts_catalogue_witness :
  ∃ status statusText acpResponse products,
    sample_catalogue = FetchResponse true status statusText (Normal acpResponse)
    ∧ catalogue_products acpResponse = Some products
    ∧ get_prop_opt (prop sample_listed_task "status") "message"
      = agent_text_message
          ("Found " +:+ pretty (Z.of_nat (length products)) +:+ " products in inventory.").
Proof.
  apply (product_reply_counts_catalogue sample_dates sample_catalogue
           (tasks_send "t1" (user_text "Get all products")) None
           (VObj [("jsonrpc", VStr "2.0"); ("id", VNum 1); ("result", VObj sample_listed_task)])
           sample_listed_task);
    reflexivity.
Defined.

(** ** The outcomes of the product service agent *)

Lemma find_by_type_data ps :
  find_by_type "data" (map Part_value ps) ≫= (λ dataPart,
    if truthy dataPart then get_prop dataPart "data" else mret VNull)
  = Normal (first_data ps).
Proof.
  induction ps as [|p ps IH]; [done|].
  destruct p as [text|data|name mimeType content]; cbn [map Part_value find_by_type]; try done.
Qed.

Lemma product_prefix_of_message net request params m :
  get_prop request "params" = Normal params →
  get_prop params "message" = Normal (Message_value m) →
  printable (get_prop_opt request "id") = true →
  printable (get_prop_opt request "method") = true →
  product_prefix net request
  = (if negb (isProductRequest (spec_extractText (parts m)) (first_data (parts m))) then
       rejection ← error_response request INVALID_PARAMS
                     "This agent only handles product inventory requests";
       mret (inl rejection)
     else
       productData ← getProducts net;
       mret (inr (Message_value m, productData, get_prop_opt params "id",
                  js_or (get_prop_opt params "sessionId") VNull))).
Proof.
  intros Hparams Hmessage Hid Hmethod. unfold product_prefix.
  assert (is_nullish request = false) as Hreq by by eapply get_prop_nullish.
  assert (is_nullish params = false) as Hp by by eapply get_prop_nullish.
  rewrite (get_prop_not_nullish request "id"), (get_prop_not_nullish request "method") by done.
  cbn [mbind completion_bind]. rewrite (interpolate_printable _ Hid).
  cbn [mbind completion_bind]. rewrite (interpolate_printable _ Hmethod).
  cbn [mbind completion_bind].
  rewrite Hparams. cbn [mbind completion_bind]. rewrite Hmessage.
  cbn [mbind completion_bind Message_value get_prop].
  change (prop _ "parts") with (VArr (map Part_value (parts m))).
  rewrite text_of_parts_spec. cbn [mbind completion_bind as_array].
  pose proof (find_by_type_data (parts m)) as Hfind.
  destruct (find_by_type "data" (map Part_value (parts m))) as [dataPart|]; [|done].
  cbn [mbind completion_bind] in Hfind |- *. rewrite Hfind. cbn [mbind completion_bind].
  destruct (negb _); [done|].
  destruct (getProducts net); [|done]. cbn [mbind completion_bind].
  by rewrite !(get_prop_not_nullish params) by done.
Qed.

(** The first two log lines print [request.id] and [request.method]. *)
Lemma product_prefix_logged net request outcome :
  product_prefix net request = Normal outcome →
  printable (get_prop_opt request "id") = true
  ∧ printable (get_prop_opt request "method") = true.
Proof.
  unfold product_prefix. intros H.
  apply bind_Normal_inv in H as (id & Hid & H).
  apply bind_Normal_inv in H as (? & Hpid & H).
  apply bind_Normal_inv in H as (method & Hmethod & H).
  apply bind_Normal_inv in H as (? & Hpmethod & _).
  rewrite (get_prop_Normal _ _ _ Hid), (get_prop_Normal _ _ _ Hmethod).
  split; apply interpolate_Normal; eauto.
Qed.

Lemma product_prefix_not_logged net request :
  printable (get_prop_opt request "id") && printable (get_prop_opt request "method") = false →
  ∃ e, product_prefix net request = Throw e.
Proof.
  intros H. destruct (product_prefix net request) as [outcome|e] eqn:Hprefix; [|by exists e].
  destruct (product_prefix_logged _ _ _ Hprefix) as [Hid Hmethod].
  by rewrite Hid, Hmethod in H.
Qed.

(** X13. For a request that carries a message of the data model, the outcome
    of the product service agent is decided by whether [request.id] and
    [request.method] can be printed in the first log lines, by
    [isProductRequest] on the message's text and its first data part, and by
    the catalogue call.  When one of the two cannot be converted to a string
    (an object with an own [toString] property) the answer is the code -32000
    and the task is untouched.  Otherwise: the code -32602 when the test
    fails; the code -32000 with the message of the exception [getProducts]
    threw, or the fallback text when that message is empty, when the call
    throws; and otherwise, for a task whose history can take a message, a
    result whose artifacts are the one artifact with the product data. *)
Theorem product_outcome_by_request (d : Dates) (net : fetch_outcome) (request params : value)
    (m : Message) (task : option object) :
  get_prop request "params" = Normal params →
  get_prop params "message" = Normal (Message_value m) →
  let logged :=
    printable (get_prop_opt request "id") && printable (get_prop_opt request "method") in
  let accepted := isProductRequest (spec_extractText (parts m)) (first_data (parts m)) in
  let run := Product_onMessageSend d net request task in
  let error code message :=
    VObj [("jsonrpc", VStr "2.0"); ("id", get_prop_opt request "id");
          ("error", VObj [("code", VNum code); ("message", VStr message)])] in
  (logged = false →
   (∃ message, response run = Normal (error INTERNAL_ERROR message)) ∧ task_after run = task)
  ∧ (logged = true → accepted = false →
     response run
     = Normal (error INVALID_PARAMS "This agent only handles product inventory requests"))
  ∧ (∀ e, logged = true → accepted = true → getProducts net = Throw e →
          response run
          = Normal (error INTERNAL_ERROR
                      (if String.eqb e "" then "Internal error processing product request"
                       else e)))
  ∧ (∀ productData,
       logged = true → accepted = true → getProducts net = Normal productData →
       (∀ before, task = Some before → is_Some (history_of before)) →
       ∃ result,
         response run
         = Normal (VObj [("jsonrpc", VStr "2.0"); ("id", get_prop_opt request "id");
                         ("result", VObj result)])
         ∧ prop result "artifacts" = VArr [productArtifact d productData]).
Proof.
  intros Hparams Hmessage logged accepted run error.
  assert (is_nullish request = false) as Hreq by by eapply get_prop_nullish.
  assert (logged = true →
          product_prefix net request
          = (if negb accepted then
               rejection ← error_response request INVALID_PARAMS
                             "This agent only handles product inventory requests";
               mret (inl rejection)
             else
               productData ← getProducts net;
               mret (inr (Message_value m, productData, get_prop_opt params "id",
                          js_or (get_prop_opt params "sessionId") VNull)))) as Hprefix.
  { intros [Hid Hmethod]%andb_true_iff.
    apply (product_prefix_of_message net _ _ _ Hparams Hmessage Hid Hmethod). }
  subst run. unfold Product_onMessageSend.
  split_and!.
  - intros Hlogged. destruct (product_prefix_not_logged net request Hlogged) as [e He].
    rewrite (Product_try_throw d net _ task _ He).
    rewrite (catch_all_Throw _ _ _ e); [|done..]. cbn [response task_after]. eauto.
  - intros Hlogged Hacc. specialize (Hprefix Hlogged).
    rewrite Hacc in Hprefix. cbn [negb] in Hprefix.
    rewrite (error_response_Normal _ _ _ Hreq) in Hprefix.
    rewrite (Product_try_rejected d net _ task _ Hprefix). done.
  - intros e Hlogged Hacc He. specialize (Hprefix Hlogged).
    rewrite Hacc, He in Hprefix. cbn [negb mbind completion_bind] in Hprefix.
    rewrite (catch_all_Throw _ _ _ e); [done| |done].
    by rewrite (Product_try_throw d net _ task _ Hprefix).
  - intros productData Hlogged Hacc Hpd Htask. specialize (Hprefix Hlogged).
    rewrite Hacc, Hpd in Hprefix.
    cbn [negb mbind completion_bind mret completion_ret] in Hprefix.
    destruct (product_agentMessage_Normal _ _ Hpd) as [text Ham].
    destruct (history_of_default_product d (get_prop_opt params "id")
                (js_or (get_prop_opt params "sessionId") VNull) task Htask) as [h Hh].
    pose proof (Product_try_accepted d net _ task _ _ _ _ _ _ Hprefix Ham Hh) as Htry.
    cbv zeta in Htry. rewrite (result_response_Normal _ _ Hreq) in Htry.
    erewrite catch_all_Normal by by rewrite Htry.
    rewrite Htry. cbn [response]. eexists. split; [done|].
    apply product_result_artifacts.
Qed.

Lemma product_outcome_by_request_witness :
  response (Product_onMessageSend sample_dates
              (FetchResponse false 503 "Service Unavailable" (Throw "no body"))
              (tasks_send "t1" {| role := User; parts := [Data (VObj [("action", VStr "get_products")])] |})
              None)
  = Normal (VObj [("jsonrpc", VStr "2.0"); ("id", VNum 1);
                  ("error", VObj [("code", VNum (-32000));
                                  ("message",
                                   VStr "ACP endpoint error: 503 Service Unavailable")])])
  ∧ ((∃ message,
        response (Product_onMessageSend sample_dates sample_catalogue sample_unprintable_id
                    (Some sample_listed_task))
        = Normal (VObj [("jsonrpc", VStr "2.0"); ("id", VObj [("toString", VNum 1)]);
                        ("error", VObj [("code", VNum (-32000));
                                        ("message", VStr message)])]))
     ∧ task_after (Product_onMessageSend sample_dates sample_catalogue sample_unprintable_id
                     (Some sample_listed_task))
       = Some sample_listed_task).
Proof.
  split.
  - destruct (product_outcome_by_request sample_dates
                (FetchResponse false 503 "Service Unavailable" (Throw "no body"))
                (tasks_send "t1" {| role := User; parts := [Data (VObj [("action", VStr "get_products")])] |})
                (VObj [("id", VStr "t1");
                       ("message",
                        Message_value {| role := User;
                                         parts := [Data (VObj [("action", VStr "get_products")])] |})])
                {| role := User; parts := [Data (VObj [("action", VStr "get_products")])] |}
                None eq_refl eq_refl) as (_ & _ & Hthrow & _).
    apply (Hthrow "ACP endpoint error: 503 Service Unavailable"); reflexivity.
  - destruct (product_outcome_by_request sample_dates sample_catalogue sample_unprintable_id
                (VObj [("id", VStr "t1");
                       ("message", Message_value (user_text "Get all products"))])
                (user_text "Get all products") (Some sample_listed_task) eq_refl eq_refl)
      as (Hlogged & _).
    apply Hlogged. reflexivity.
Defined.

(** ** The request handler passes the response on *)

Lemma is_Task_response_object response :
  typeof_object response = true → is_nullish response = false →
  ∃ b, is_Task_response response = Normal b.
Proof.
  intros Ht Hn. unfold is_Task_response.
  destruct response as [| | | | |l|o]; try done; cbn [js_in mbind completion_bind negb];
    [by eexists|].
  destruct (has_prop o "result"); cbn [negb]; [|by eexists].
  cbn [get_prop mbind completion_bind].
  destruct (prop o "result") as [| |[] | n | s | l' | o']; cbn; eauto.
  - destruct (Z.eqb n 0); cbn; eauto.
  - destruct (String.eqb s ""); cbn; eauto.
  - destruct (has_prop o' "id"); cbn; eauto.
Qed.

(** X14. Whatever the parent's [onMessageSend] is: when it resolves with a
    response that is an object, [CustomRequestHandler.onMessageSend] returns
    that same response; the store it leaves differs from the store the parent
    left at most in the entry under [response.result.id]; and when the
    response is not a task (its condition is false) the store is the one the
    parent left. *)
Theorem custom_handler_passes_response_through
    (super_onMessageSend : value → TaskStore → completion value * TaskStore)
    (request : value) (store : TaskStore) (envelope : value) (store1 : TaskStore) :
  super_onMessageSend request store = (Normal envelope, store1) →
  typeof_object envelope = true →
  is_nullish envelope = false →
  (CustomRequestHandler_onMessageSend super_onMessageSend request store).1 = Normal envelope
  ∧ (∀ id, id ≠ get_prop_opt (get_prop_opt envelope "result") "id" →
           TaskStore_get (CustomRequestHandler_onMessageSend super_onMessageSend request store).2 id
           = TaskStore_get store1 id)
  ∧ (is_Task_response envelope = Normal false →
     (CustomRequestHandler_onMessageSend super_onMessageSend request store).2 = store1).
Proof.
  intros Hsuper Ht Hn. unfold CustomRequestHandler_onMessageSend. rewrite Hsuper.
  destruct (is_Task_response_object envelope Ht Hn) as [b ->].
  destruct b; [|done].
  destruct (get_prop_opt envelope "result") as [| | | | | |result] eqn:Hres; try done.
  split_and!; [done| |done].
  intros id Hid. cbn [snd get_prop_opt get_prop] in *. unfold TaskStore_get, TaskStore_save.
  by rewrite lookup_insert_ne.
Qed.

Lemma custom_handler_passes_response_through_witness :
  (CustomRequestHandler_onMessageSend
     (λ request store, (Normal (VObj [("jsonrpc", VStr "2.0"); ("id", VNum 1);
                                      ("result", VObj sample_greeted_task)]), store))
     (tasks_send "t1" (user_text "hello")) ∅).1
  = Normal (VObj [("jsonrpc", VStr "2.0"); ("id", VNum 1); ("result", VObj sample_greeted_task)]).
Proof.
  apply (custom_handler_passes_response_through
           (λ request store, (Normal (VObj [("jsonrpc", VStr "2.0"); ("id", VNum 1);
                                            ("result", VObj sample_greeted_task)]), store))
           (tasks_send "t1" (user_text "hello")) ∅
           (VObj [("jsonrpc", VStr "2.0"); ("id", VNum 1); ("result", VObj sample_greeted_task)])
           ∅);
    reflexivity.
Defined.

(** ** The client reads what the agents return *)

(** X15. For every message of the data model, [extractDataFromMessage]
    returns the [data] of the first [Data] part, and [null] when the message
    has none; it does not throw. *)
Theorem extractDataFromMessage_first_data (m : Message) :
  extractDataFromMessage (Message_value m) = Normal (first_data (parts m)).
Proof.
  unfold extractDataFromMessage, Message_value. cbn -[find_by_type].
  apply find_by_type_data.
Qed.

Lemma extract_artifact_data_parts (o : object) (ps : list Part) :
  prop o "parts" = VArr (map Part_value ps) →
  extract_artifact (VObj o) = Normal (extracted (o, ps)).
Proof.
  intros Hparts. unfold extract_artifact, extracted. cbn [get_prop mbind completion_bind fst snd].
  rewrite Hparts. cbn [as_array mbind completion_bind].
  assert (filter_by_type "data" (map Part_value ps) ≫= (λ dataParts,
            mapM (λ part, get_prop part "data") dataParts) = Normal (data_parts ps)) as H.
  { clear. induction ps as [|p ps IH]; [done|].
    cbn [map filter_by_type].
    destruct (filter_by_type "data" (map Part_value ps)) as [kept|]; [|done].
    cbn [mbind completion_bind] in IH.
    destruct p as [text|data|name mimeType content]; cbn; try done.
    cbn in IH. by rewrite IH. }
  destruct (filter_by_type "data" (map Part_value ps)) as [dataParts|]; [|done].
  cbn [mbind completion_bind] in H |- *. by rewrite H.
Qed.

(** X16. [extractArtifacts] returns the empty list, without throwing, for a
    task that is falsy or whose [artifacts] are not an array (missing, [null],
    a string, an object).  For a task whose artifacts are objects with parts
    of the data model it returns one entry per artifact, in order, with the
    artifact's [name] and [description] and, as [data], the [data] of its
    [Data] parts in their order; text and file parts leave no trace. *)
Theorem extractArtifacts_collects_data_parts :
  (∀ task,
     truthy task = false ∨ Array_isArray (get_prop_opt task "artifacts") = false →
     extractArtifacts task = Normal [])
  ∧ (∀ (task : object) (artifacts : list (object * list Part)),
       prop task "artifacts" = VArr (map (λ artifact, VObj artifact.1) artifacts) →
       Forall (λ artifact, prop artifact.1 "parts" = VArr (map Part_value artifact.2)) artifacts →
       extractArtifacts (VObj task) = Normal (map extracted artifacts)).
Proof.
  split.
  - intros task [H|H]; unfold extractArtifacts.
    + by rewrite H.
    + destruct (truthy task) eqn:Ht; [|done]. cbn [negb].
      assert (is_nullish task = false) as Hn by by destruct task.
      rewrite (get_prop_not_nullish _ _ Hn).
      cbn [mbind completion_bind]. rewrite H.
      by destruct (truthy (get_prop_opt task "artifacts")).
  - intros task artifacts Hart Hparts. unfold extractArtifacts.
    cbn [truthy negb get_prop mbind completion_bind]. rewrite Hart.
    cbn [truthy negb Array_isArray as_array mbind completion_bind].
    apply mapM_Normal. clear Hart.
    induction Hparts as [|[o ps] l Hx _ IH]; cbn [map]; constructor; [|done].
    by apply extract_artifact_data_parts.
Qed.

Lemma extractArtifacts_collects_data_parts_witness :
  extractArtifacts (VObj [("id", VStr "t1"); ("artifacts", VStr "none")]) = Normal []
  ∧ extractArtifacts
      (VObj [("artifacts",
              VArr [VObj [("name", VStr "Report");
                          ("parts", VArr (map Part_value [Text "see"; Data (VNum 1); Data VNull]))]])])
    = Normal [{| artifact_name := VStr "Report"; artifact_description := VUndefined;
                 artifact_data := [VNum 1; VNull] |}].
Proof.
  destruct extractArtifacts_collects_data_parts as [Hguard Hdata]. split.
  - apply Hguard. right. reflexivity.
  - apply (Hdata
             [("artifacts",
               VArr [VObj [("name", VStr "Report");
                           ("parts", VArr (map Part_value [Text "see"; Data (VNum 1); Data VNull]))]])]
             [([("name", VStr "Report");
                ("parts", VArr (map Part_value [Text "see"; Data (VNum 1); Data VNull]))],
               [Text "see"; Data (VNum 1); Data VNull])]).
    + reflexivity.
    + repeat constructor.
Defined.

(** X17. What the product service agent returns is what the client unpacks:
    for every task in a response of the product service agent,
    [extractArtifacts] returns exactly one entry, named Product Inventory,
    whose [data] is the one value that [getProducts] returned in this call,
    and the [products] of that value are an array. *)
Theorem client_extracts_product_artifact (d : Dates) (net : fetch_outcome) (request : value)
    (task : option object) (envelope : value) (result : object) :
  response (Product_onMessageSend d net request task) = Normal envelope →
  get_prop_opt envelope "result" = VObj result →
  ∃ productData products,
    getProducts net = Normal productData
    ∧ get_prop_opt productData "products" = VArr products
    ∧ extractArtifacts (VObj result)
      = Normal [{| artifact_name := VStr "Product Inventory";
                   artifact_description := VStr "Current inventory of available products";
                   artifact_data := [productData] |}].
Proof.
  intros Hret Hres.
  destruct (onMessageSend_result (ProductServiceExecutor d net) request task envelope Hret)
    as (_ & _ & Hshape); [by rewrite Hres|].
  rewrite Hres in Hshape.
  destruct Hshape as [JSON_parse d' Ha _ _ _
                     |JSON_parse d' am taskObj h Ha _ _ _ _ _ _
                     |d' net' pd am taskObj h Ha Hpd Ham _ _ Hresult _]; try discriminate.
  injection Ha as <- <-. injection Hresult as ->.
  destruct (getProducts_shape _ _ Hpd) as (products & metadata & ->).
  eexists _, products. split_and!; [done..|].
  unfold extractArtifacts. cbn [truthy negb get_prop mbind completion_bind].
  rewrite product_result_artifacts. done.
Qed.

Lemma client_extracts_product_artifact_witness :
  ∃ productData products,
    getProducts sample_catalogue = Normal productData
    ∧ get_prop_opt productData "products" = VArr products
    ∧ extractArtifacts (VObj sample_listed_task)
      = Normal [{| artifact_name := VStr "Product Inventory";
                   artifact_description := VStr "Current inventory of available products";
                   artifact_data := [productData] |}].
Proof.
  apply (client_extracts_product_artifact sample_dates sample_catalogue
           (tasks_send "t1" (user_text "Get all products")) None
           (VObj [("jsonrpc", VStr "2.0"); ("id", VNum 1); ("result", VObj sample_listed_task)])
           sample_listed_task);
    reflexivity.
Defined.

Lemma greeting_agentMessage_nonempty JSON_parse request agentMessage :
  greeting_agentMessage JSON_parse request = Normal agentMessage →
  ∃ text, agentMessage = agent_text_message text ∧ text ≠ "".
Proof.
  unfold greeting_agentMessage. intros H.
  apply bind_Normal_inv in H as (params & _ & H).
  apply bind_Normal_inv in H as (message & _ & H).
  apply bind_Normal_inv in H as (parts & _ & H).
  apply bind_Normal_inv in H as (messageText & _ & H).
  apply bind_Normal_inv in H as (type & _ & H).
  apply bind_Normal_inv in H as (result & Hresult & H).
  injection H as <-. exists result. split; [done|].
  destruct (strict_eq_str type "greeting").
  - apply bind_Normal_inv in Hresult as (input & _ & Hresult).
    apply bind_Normal_inv in Hresult as (name & _ & Hresult). by injection Hresult as <-.
  - by injection Hresult as <-.
Qed.

Lemma product_agentMessage_nonempty productData agentMessage :
  product_agentMessage productData = Normal agentMessage →
  ∃ text, agentMessage = agent_text_message text ∧ text ≠ "".
Proof.
  unfold product_agentMessage. intros H.
  apply bind_Normal_inv in H as (products & _ & H).
  apply bind_Normal_inv in H as (count & _ & H). injection H as <-. eauto.
Qed.

(** The status of the task either executor returns. *)
Lemma task_result_message a request task envelope result :
  response (onMessageSend a request task) = Normal envelope →
  get_prop_opt envelope "result" = VObj result →
  has_prop result "status" = true →
  ∃ text, text ≠ ""
    ∧ prop result "status"
      = status_object TaskState_Completed (agent_text_message text)
          (now_completed match a with
                         | GreetingAgentExecutor _ d | ProductServiceExecutor d _ => d
                         end).
Proof.
  intros Hret Hres Hstatus.
  destruct (onMessageSend_result a request task envelope Hret) as (_ & _ & Hshape);
    [by rewrite Hres|].
  rewrite Hres in Hshape.
  destruct Hshape as [JSON_parse d _ _ Ham _
                     |JSON_parse d am taskObj h -> _ Ham _ _ Hresult _
                     |d net pd am taskObj h -> _ Ham _ _ Hresult _].
  - apply greeting_agentMessage_text in Ham as [text Ham]. injection Ham as ->. done.
  - injection Hresult as ->. rewrite greeting_result_status.
    apply greeting_agentMessage_nonempty in Ham as (text & -> & Hne). eauto.
  - injection Hresult as ->. rewrite product_result_status.
    apply product_agentMessage_nonempty in Ham as (text & -> & Hne). eauto.
Qed.

(** X18. The message in the status of every task either executor returns
    has a single text part with a text that is not empty.  The client's
    [extractMessageText], and the same expression in the test client, return
    that text from it, and [extractDataFromMessage] returns [null]: the
    replies carry no data part. *)
Theorem client_reads_reply_text (a : AgentExecutor) (request : value) (task : option object)
    (envelope : value) (result : object) :
  response (onMessageSend a request task) = Normal envelope →
  get_prop_opt envelope "result" = VObj result →
  has_prop result "status" = true →
  ∃ text,
    text ≠ ""
    ∧ get_prop_opt (prop result "status") "message" = agent_text_message text
    ∧ extractMessageText (get_prop_opt (prop result "status") "message") = Normal text
    ∧ text_of_parts (get_prop_opt (get_prop_opt (prop result "status") "message") "parts")
      = Normal text
    ∧ extractDataFromMessage (get_prop_opt (prop result "status") "message") = Normal VNull.
Proof.
  intros Hret Hres Hstatus.
  destruct (task_result_message _ _ _ _ _ Hret Hres Hstatus) as (text & Hne & ->).
  exists text. by split_and!.
Qed.

Lemma client_reads_reply_text_witness :
  ∃ text,
    text ≠ ""
    ∧ get_prop_opt (prop sample_greeted_task "status") "message" = agent_text_message text
    ∧ extractMessageText (get_prop_opt (prop sample_greeted_task "status") "message")
      = Normal text
    ∧ text_of_parts
        (get_prop_opt (get_prop_opt (prop sample_greeted_task "status") "message") "parts")
      = Normal text
    ∧ extractDataFromMessage (get_prop_opt (prop sample_greeted_task "status") "message")
      = Normal VNull.
Proof.
  apply (client_reads_reply_text sample_greeter (tasks_send "t1" (user_text "hello")) None
           (VObj [("jsonrpc", VStr "2.0"); ("id", VNum 1); ("result", VObj sample_greeted_task)])
           sample_greeted_task);
    reflexivity.
Defined.

(** X19. A task the greeting agent creates has no [artifacts]: for every
    result the greeting agent returns when it was given no task,
    [extractArtifacts] returns the empty list, and the client is left with the
    message of the status. *)
Theorem greeting_task_has_no_artifacts (JSON_parse : string → option value) (d : Dates)
    (request : value) (envelope : value) (result : object) :
  response (Greeting_onMessageSend JSON_parse d request None) = Normal envelope →
  get_prop_opt envelope "result" = VObj result →
  has_prop result "artifacts" = false ∧ extractArtifacts (VObj result) = Normal [].
Proof.
  intros Hret Hres.
  destruct (onMessageSend_result (GreetingAgentExecutor JSON_parse d) request None envelope Hret)
    as (_ & _ & Hshape); [by rewrite Hres|].
  rewrite Hres in Hshape.
  destruct Hshape as [JSON_parse' d' _ _ Ham _
                     |JSON_parse' d' am taskObj h _ _ _ -> _ Hresult _
                     |d' net' pd am taskObj h Ha _ _ _ _ _ _]; try discriminate.
  - apply greeting_agentMessage_text in Ham as [text Ham]. injection Ham as ->. done.
  - injection Hresult as ->. unfold extractArtifacts, has_prop.
    cbn [truthy negb get_prop mbind completion_bind].
    unfold prop. rewrite greeting_result_other by done. done.
Qed.

Lemma greeting_task_has_no_artifacts_witness :
  has_prop sample_greeted_task "artifacts" = false
  ∧ extractArtifacts (VObj sample_greeted_task) = Normal [].
Proof.
  apply (greeting_task_has_no_artifacts JSON_parse_literals sample_dates
           (tasks_send "t1" (user_text "hello"))
           (VObj [("jsonrpc", VStr "2.0"); ("id", VNum 1); ("result", VObj sample_greeted_task)])
           sample_greeted_task);
    reflexivity.
Defined.

(** ** Streams *)

Lemma get_prop_envelope_result id0 result :
  get_prop (VObj [("jsonrpc", VStr "2.0"); ("id", id0); ("result", result)]) "result"
  = Normal result.
Proof. done. Qed.

Lemma get_prop_envelope_no_result id0 error :
  get_prop (VObj [("jsonrpc", VStr "2.0"); ("id", id0); ("error", error)]) "result"
  = Normal VUndefined.
Proof. done. Qed.

Lemma get_prop_envelope_error id0 error :
  get_prop (VObj [("jsonrpc", VStr "2.0"); ("id", id0); ("error", error)]) "error"
  = Normal error.
Proof. done. Qed.

(** X20. For a request that is an object, the stream of the greeting agent
    yields exactly one event and ends; the task object is left as
    [onMessageSend] leaves it.  When [onMessageSend] returned a result, the
    event is a taskStatusUpdate whose [status.state] is the string completed
    and whose [status.message] is that whole result (for a tasks/send request
    the task itself, not a message); otherwise the event is the error envelope
    that [onMessageSend] returned. *)
Theorem greeting_stream_yields_one_event (JSON_parse : string → option value) (d : Dates)
    (request : value) (task : option object) :
  is_nullish request = false →
  ∃ event,
    Greeting_onMessageStream JSON_parse d request task
    = {| yielded := [event]; ended := Normal ();
         stream_task_after := task_after (Greeting_onMessageSend JSON_parse d request task) |}
    ∧ ((∃ result,
          response (Greeting_onMessageSend JSON_parse d request task)
          = Normal (VObj [("jsonrpc", VStr "2.0"); ("id", get_prop_opt request "id");
                          ("result", VObj result)])
          ∧ event
            = VObj [("jsonrpc", VStr "2.0"); ("id", get_prop_opt request "id");
                    ("result",
                     VObj [("type", VStr "taskStatusUpdate");
                           ("status", VObj [("state", VStr "completed");
                                            ("message", VObj result)])])])
       ∨ (∃ error,
            event = VObj [("jsonrpc", VStr "2.0"); ("id", get_prop_opt request "id");
                          ("error", error)]
            ∧ response (Greeting_onMessageSend JSON_parse d request task) = Normal event)).
Proof.
  intros Hreq. unfold Greeting_onMessageStream.
  destruct (onMessageSend_envelope (GreetingAgentExecutor JSON_parse d) request task Hreq)
    as (body & Hret & [[result ->]|(code & message & -> & _)]);
    cbn [onMessageSend] in Hret; rewrite Hret; cbn [mbind completion_bind].
  - rewrite get_prop_envelope_result, (get_prop_not_nullish _ "id" Hreq).
    cbn [mbind completion_bind truthy]. eexists. split; [reflexivity|]. left. eauto.
  - rewrite get_prop_envelope_no_result, (get_prop_not_nullish _ "id" Hreq).
    cbn [mbind completion_bind truthy]. rewrite get_prop_envelope_error.
    eexists. split; [reflexivity|]. right. eauto.
Qed.

Lemma greeting_stream_yields_one_event_witness :
  ∃ event,
    Greeting_onMessageStream JSON_parse_literals sample_dates
      (tasks_send "t1" (user_text "hello")) None
    = {| yielded := [event]; ended := Normal ();
         stream_task_after :=
           task_after (Greeting_onMessageSend JSON_parse_literals sample_dates
                         (tasks_send "t1" (user_text "hello")) None) |}.
Proof.
  destruct (greeting_stream_yields_one_event JSON_parse_literals sample_dates
              (tasks_send "t1" (user_text "hello")) None eq_refl) as (event & Hstream & _).
  exists event. exact Hstream.
Defined.

(** X21. For a request that is an object, the stream of the product service
    agent ends without throwing and the task object is left as
    [onMessageSend] leaves it.  When [onMessageSend] returned a task, the
    stream yields exactly two events: a taskStatusUpdate with the task's [id]
    and [status] and [final: true], then a taskArtifactUpdate with the task's
    [id] and the one artifact that holds the product data.  Otherwise it
    yields the error envelope of [onMessageSend] and nothing else. *)
Theorem product_stream_yields_status_then_artifact (string_gt_zero : string → bool)
    (string_iterator : string → list string) (d : Dates) (net : fetch_outcome)
    (request : value) (task : option object) :
  is_nullish request = false →
  let run := Product_onMessageSend d net request task in
  let event body := VObj [("jsonrpc", VStr "2.0"); ("id", get_prop_opt request "id"); body] in
  (∃ result productData,
     response run = Normal (event ("result", VObj result))
     ∧ getProducts net = Normal productData
     ∧ Product_onMessageStream string_gt_zero string_iterator d net request task
       = {| yielded :=
              [event ("result", VObj [("type", VStr "taskStatusUpdate");
                                      ("id", prop result "id");
                                      ("status", prop result "status");
                                      ("final", VBool true)]);
               event ("result", VObj [("type", VStr "taskArtifactUpdate");
                                      ("id", prop result "id");
                                      ("artifact", productArtifact d productData)])];
            ended := Normal ();
            stream_task_after := task_after run |})
  ∨ (∃ error,
       response run = Normal (event ("error", error))
       ∧ Product_onMessageStream string_gt_zero string_iterator d net request task
         = {| yielded := [event ("error", error)]; ended := Normal ();
              stream_task_after := task_after run |}).
Proof.
  intros Hreq run event. subst run event. cbv beta.
  destruct (onMessageSend_envelope (ProductServiceExecutor d net) request task Hreq)
    as (body & Hret & [[result ->]|(code & message & -> & _)]).
  - left.
    destruct (onMessageSend_result _ request task _ Hret) as (_ & _ & Hshape); [done|].
    rewrite envelope_result in Hshape.
    destruct Hshape as [JSON_parse d' Ha _ _ _
                       |JSON_parse d' am taskObj h Ha _ _ _ _ _ _
                       |d' net' pd am taskObj h Ha Hpd _ _ _ Hresult _]; try discriminate.
    injection Ha as <- <-.
    cbn [onMessageSend] in Hret.
    exists result, pd. split_and!; [done..|].
    unfold Product_onMessageStream. rewrite Hret. cbn [mbind completion_bind].
    rewrite get_prop_envelope_result, (get_prop_not_nullish _ "id" Hreq).
    cbn [mbind completion_bind mret completion_ret truthy get_prop].
    injection Hresult as ->. rewrite product_result_artifacts. done.
  - right. cbn [onMessageSend] in Hret. eexists. split; [done|].
    unfold Product_onMessageStream. rewrite Hret. cbn [mbind completion_bind].
    rewrite get_prop_envelope_no_result, (get_prop_not_nullish _ "id" Hreq).
    cbn [mbind completion_bind truthy]. by rewrite get_prop_envelope_error.
Qed.

Lemma product_stream_yields_status_then_artifact_witness :
  length (yielded (Product_onMessageStream (λ _, false) (λ _, []) sample_dates sample_catalogue
                     (tasks_send "t1" (user_text "Get all products")) None)) = 2%nat
  ∧ length (yielded (Product_onMessageStream (λ _, false) (λ _, []) sample_dates network_down
                       (tasks_send "t1" (user_text "Get all products")) None)) = 1%nat.
Proof.
  split.
  - destruct (product_stream_yields_status_then_artifact (λ _, false) (λ _, []) sample_dates
                sample_catalogue (tasks_send "t1" (user_text "Get all products")) None eq_refl)
      as [(result & productData & _ & _ & ->)|(error & Hret & _)];
      [reflexivity|discriminate Hret].
  - destruct (product_stream_yields_status_then_artifact (λ _, false) (λ _, []) sample_dates
                network_down (tasks_send "t1" (user_text "Get all products")) None eq_refl)
      as [(result & productData & Hret & _)|(error & _ & ->)];
      [discriminate Hret|reflexivity].
Defined.

(** ** The display of products *)

Lemma format_product_displayable index product :
  (∃ block, format_product index product = Normal block) ↔ displayable product = true.
Proof.
  unfold displayable. rewrite !andb_true_iff, orb_true_iff, !negb_true_iff. cbn [forallb].
  rewrite !andb_true_iff. split.
  - intros [block H]. unfold format_product in H.
    apply bind_Normal_inv in H as (price & Hprice & H).
    apply bind_Normal_inv in H as (stock & Hstock & H).
    apply bind_Normal_inv in H as (name & Hname & H).
    apply bind_Normal_inv in H as (sku & Hsku & H).
    apply bind_Normal_inv in H as (category & Hcategory & H).
    apply bind_Normal_inv in H as (vendor & Hvendor & _).
    unfold priceStr in Hprice. apply bind_Normal_inv in Hprice as (currency & Hc & Hprice).
    assert (is_nullish product = false) as Hp by by eapply get_prop_nullish.
    rewrite (get_prop_not_nullish _ _ Hp) in Hc. injection Hc as <-.
    unfold stockStatus in Hstock. rewrite (get_prop_not_nullish _ _ Hp) in Hstock.
    cbn [mbind completion_bind] in Hstock.
    assert (∀ v text, interpolate v = Normal text → printable v = true) as Hi
      by (intros; apply interpolate_Normal; eauto).
    assert (∀ label v text, labelled label v = Normal text → printable v = true) as Hl.
    { intros label v text. unfold labelled. destruct (truthy v) eqn:E.
      - intros (? & ?%Hi & _)%bind_Normal_inv. done.
      - intros _. by apply falsy_printable. }
    apply Hi in Hname, Hsku. rewrite printable_js_or in Hname, Hsku by done.
    apply Hl in Hcategory, Hvendor.
    split_and!; try done.
    + destruct (truthy (get_prop_opt product "currency")) eqn:E; [|by apply falsy_printable].
      by apply bind_Normal_inv in Hprice as (? & ?%Hi & _).
    + destruct (truthy (get_prop_opt product "currency")) eqn:E.
      * apply bind_Normal_inv in Hprice as (? & _ & Hprice).
        by apply bind_Normal_inv in Hprice as (? & ?%Hi & _).
      * apply bind_Normal_inv in Hprice as (? & Hprice%Hi & _).
        by rewrite printable_js_or in Hprice.
    + destruct (truthy (get_prop_opt product "inStock")) eqn:E; [right|by left].
      by apply bind_Normal_inv in Hstock as (? & ?%Hi & _).
  - intros [[Hp (Hc & Hprice & Hname & Hsku & Hcat & Hven & _)] Hq].
    assert (∀ v, printable v = true → interpolate v = Normal (ToString v)) as Hi
      by (intros v Hv; unfold interpolate; by rewrite Hv).
    pose proof (printable_js_or (get_prop_opt product "price") (VStr "N/A") eq_refl) as Hprice'.
    pose proof (printable_js_or (get_prop_opt product "name") (VStr "Unnamed Product") eq_refl)
      as Hname'.
    pose proof (printable_js_or (get_prop_opt product "sku") (VStr "N/A") eq_refl) as Hsku'.
    rewrite Hprice in Hprice'. rewrite Hname in Hname'. rewrite Hsku in Hsku'.
    unfold format_product, priceStr, stockStatus, labelled.
    rewrite !(get_prop_not_nullish product) by done. cbn [mbind completion_bind].
    rewrite (Hi _ Hc), (Hi _ Hprice), (Hi _ Hprice'), (Hi _ Hname'), (Hi _ Hsku'),
      (Hi _ Hcat), (Hi _ Hven).
    destruct Hq as [->|Hq]; [|rewrite (Hi _ Hq)];
      repeat match goal with
             | |- context [if truthy ?v then _ else _] => destruct (truthy v)
             end;
      cbn [mbind completion_bind]; by eexists.
Qed.

Lemma format_products_displayable products : ∀ index,
  (∃ blocks, format_products index products = Normal blocks)
  ↔ forallb displayable products = true.
Proof.
  induction products as [|product rest IH]; intros index; cbn [format_products forallb].
  - split; [done|by eexists].
  - rewrite andb_true_iff, <-(IH (S index)), <-(format_product_displayable index). split.
    + intros [blocks H].
      apply bind_Normal_inv in H as (block & Hblock & H).
      apply bind_Normal_inv in H as (blocks' & Hblocks & _). eauto.
    + intros [[block ->] [blocks ->]]. by eexists.
Qed.

(** X22. [formatProductsForDisplay] answers No products found for anything
    that is not an array; for the empty array it returns the empty string, not
    that sentence; and for an array it returns a text, rather than throws,
    exactly when no entry is [undefined] or [null] and every property it
    prints of every entry ([currency], [price], [name], [sku], [category],
    [vendor], and [quantity] when [inStock] is truthy) can be converted to
    text. *)
Theorem formatProductsForDisplay_succeeds_iff :
  (∀ products,
     Array_isArray products = false →
     formatProductsForDisplay products = Normal "No products found")
  ∧ formatProductsForDisplay (VArr []) = Normal ""
  ∧ (∀ products,
       (∃ text, formatProductsForDisplay (VArr products) = Normal text)
       ↔ forallb displayable products = true).
Proof.
  split_and!.
  - intros products H. unfold formatProductsForDisplay. rewrite H.
    by destruct (truthy products).
  - done.
  - intros products. rewrite <-(format_products_displayable products 0).
    unfold formatProductsForDisplay.
    cbn [truthy negb Array_isArray as_array mbind completion_bind]. split.
    + intros [text H]. apply bind_Normal_inv in H as (blocks & Hblocks & _). eauto.
    + intros [blocks ->]. by eexists.
Qed.

Lemma formatProductsForDisplay_succeeds_iff_witness :
  formatProductsForDisplay (VObj [("products", VArr [])]) = Normal "No products found"
  ∧ (∃ text, formatProductsForDisplay (VArr [sample_normalized]) = Normal text)
  ∧ ¬ (∃ text, formatProductsForDisplay (VArr [sample_normalized; VNull]) = Normal text).
Proof.
  destruct formatProductsForDisplay_succeeds_iff as (Hguard & _ & Hiff). split_and!.
  - apply Hguard. reflexivity.
  - apply Hiff. reflexivity.
  - intros H. apply Hiff in H. discriminate H.
Defined.

(** X23. A product that went through the normalization of [getProducts]
    always has a truthy [currency] (USD when the catalogue gives none), so the
    price the client prints for it is the currency, a space and the price;
    the form with the dollar sign and N/A is never used for it. *)
Theorem normalized_price_line_has_currency (product normalized : value) (text : string) :
  normalize_product product = Normal normalized →
  priceStr normalized = Normal text →
  truthy (get_prop_opt normalized "currency") = true
  ∧ text = ToString (get_prop_opt normalized "currency") +:+ " "
           +:+ ToString (get_prop_opt normalized "price").
Proof.
  intros Hn Htext.
  assert (truthy (get_prop_opt normalized "currency") = true) as Hc.
  { unfold normalize_product in Hn.
    repeat (apply bind_Normal_inv in Hn as (? & _ & Hn)). injection Hn as <-.
    by apply truthy_js_or. }
  split; [done|].
  unfold priceStr in Htext. apply bind_Normal_inv in Htext as (currency & Hcur & Htext).
  rewrite (get_prop_Normal _ _ _ Hcur) in Hc. rewrite Hc in Htext.
  apply bind_Normal_inv in Htext as (c & Hc' & Htext).
  apply bind_Normal_inv in Htext as (p & Hp & Htext). injection Htext as <-.
  unfold interpolate in Hc', Hp.
  destruct (printable currency); [|done]. destruct (printable _); [|done].
  injection Hc' as <-. injection Hp as <-. by rewrite (get_prop_Normal _ _ _ Hcur).
Qed.

Lemma normalized_price_line_has_currency_witness :
  truthy (get_prop_opt sample_normalized "currency") = true
  ∧ "USD 0" = ToString (get_prop_opt sample_normalized "currency") +:+ " "
              +:+ ToString (get_prop_opt sample_normalized "price").
Proof.
  apply (normalized_price_line_has_currency sample_product sample_normalized "USD 0");
    reflexivity.
Defined.

(** ** The checks of the verification script *)

Lemma jsonrpc_checks_result id0 result :
  jsonrpc_checks (VObj [("jsonrpc", VStr "2.0"); ("id", id0); ("result", result)])
  = Normal [("Has jsonrpc field", true); ("Has id field", is_defined id0);
            ("Has result or error", is_defined result || false)].
Proof. done. Qed.

Lemma message_checks_text text :
  text ≠ "" →
  message_checks (agent_text_message text)
  = Normal [("Message has role", true); ("Message has parts", true);
            ("Parts have type and content", true)].
Proof.
  intros Hne. cbn. destruct (String.eqb text "") eqn:E; [|done]. by apply String.eqb_eq in E.
Qed.

(** X24. The envelope with which either executor returns a task passes every
    check of [verifyJSONRPCStructure]: all ten checks are made (three on the
    envelope, four on the task, three on the message of the status), none
    throws, and each of them holds, provided the request has an [id] and the
    task has one (the task that was passed, or else [params.id], is not
    [undefined]).  The checks are applied to the envelope as the executor
    returns it. *)
Theorem task_response_passes_structure_checks (a : AgentExecutor) (request : value)
    (task : option object) (envelope : value) (result : object) :
  response (onMessageSend a request task) = Normal envelope →
  get_prop_opt envelope "result" = VObj result →
  has_prop result "status" = true →
  get_prop_opt request "id" ≠ VUndefined →
  match task with
  | Some before => prop before "id"
  | None => request_task_id request
  end ≠ VUndefined →
  ∃ checks,
    verifyJSONRPCStructure_checks envelope = (checks, Normal ())
    ∧ map fst checks
      = ["Has jsonrpc field"; "Has id field"; "Has result or error";
         "Has id field"; "Has status field"; "Status has state"; "Status has message";
         "Message has role"; "Message has parts"; "Parts have type and content"]
    ∧ Forall (λ check, check.2 = true) checks.
Proof.
  intros Hret Hres Hstatus Hid Htask.
  destruct (task_result_message _ _ _ _ _ Hret Hres Hstatus) as (text & Hne & Hst).
  assert (prop result "id" ≠ VUndefined) as Hrid.
  { destruct (onMessageSend_result a request task envelope Hret) as (_ & _ & Hshape);
      [by rewrite Hres|].
    rewrite Hres in Hshape.
    destruct Hshape as [JSON_parse d _ _ Ham _
                       |JSON_parse d am taskObj h _ _ _ -> _ Hresult _
                       |d net pd am taskObj h _ _ _ -> _ Hresult _].
    - apply greeting_agentMessage_text in Ham as [text' Ham]. injection Ham as ->. done.
    - injection Hresult as ->. unfold prop. rewrite greeting_result_other by done.
      by destruct task.
    - injection Hresult as ->. unfold prop. rewrite product_result_other by done.
      by destruct task. }
  destruct (onMessageSend_result a request task envelope Hret) as (_ & -> & _);
    [by rewrite Hres|].
  unfold verifyJSONRPCStructure_checks.
  rewrite Hres, jsonrpc_checks_result, !envelope_result.
  cbn [truthy negb task_checks get_prop mbind completion_bind].
  change (get_prop_opt (VObj result) "status") with (prop result "status").
  rewrite Hst. cbn [mret completion_ret].
  change (get_prop_opt (status_object _ ?m _) "message") with m.
  cbn [agent_text_message truthy negb]. fold (agent_text_message text).
  rewrite (message_checks_text _ Hne).
  eexists. split; [reflexivity|]. split; [reflexivity|].
  repeat constructor; cbn.
  - by destruct (get_prop_opt request "id").
  - by destruct (prop result "id").
Qed.

Lemma task_response_passes_structure_checks_witness :
  ∃ checks,
    verifyJSONRPCStructure_checks
      (VObj [("jsonrpc", VStr "2.0"); ("id", VNum 1); ("result", VObj sample_greeted_task)])
    = (checks, Normal ())
    ∧ map fst checks
      = ["Has jsonrpc field"; "Has id field"; "Has result or error";
         "Has id field"; "Has status field"; "Status has state"; "Status has message";
         "Message has role"; "Message has parts"; "Parts have type and content"]
    ∧ Forall (λ check, check.2 = true) checks.
Proof.
  apply (task_response_passes_structure_checks sample_greeter
           (tasks_send "t1" (user_text "hello")) None
           (VObj [("jsonrpc", VStr "2.0"); ("id", VNum 1); ("result", VObj sample_greeted_task)])
           sample_greeted_task);
    [reflexivity|reflexivity|reflexivity|discriminate|discriminate].
Defined.
(** ** What the client prints *)

Lemma printing_bind_eval {A B} (a : A) (k : A → printing B) : eval (Normal a) ≫= k = k a.
Proof. unfold eval, mbind, printing_bind. cbn. by destruct (k a). Qed.

Lemma printing_bind_eval_Throw {A B} (e : string) (k : A → printing B) :
  eval (Throw e) ≫= k = ([], Throw e).
Proof. done. Qed.

Lemma printing_bind_ret {A B} (a : A) (k : A → printing B) : mret a ≫= k = k a.
Proof. unfold mret, printing_ret, mbind, printing_bind. cbn. by destruct (k a). Qed.

Lemma printing_bind_log {B} (text : string) (k : () → printing B) :
  console_log text ≫= k = prepend [Out text] (k ()).
Proof. done. Qed.

Lemma printing_bind_assoc {A B C} (m : printing A) (f : A → printing B) (g : B → printing C) :
  (m ≫= f) ≫= g = m ≫= (λ a, f a ≫= g).
Proof.
  destruct m as [l [a|e]]; [|done]. unfold mbind, printing_bind. cbn.
  destruct (f a) as [l' [b|e]]; cbn; [|done]. by rewrite (assoc_L (++)).
Qed.

Lemma printing_bind_prepend {A B} l (m : printing A) (k : A → printing B) :
  prepend l m ≫= k = prepend l (m ≫= k).
Proof.
  destruct m as [l' [a|e]]; unfold prepend, mbind, printing_bind; cbn; [|done].
  by rewrite (assoc_L (++)).
Qed.

Lemma printing_bind_pair {A B} l (a : A) (k : A → printing B) :
  (l, Normal a) ≫= k = prepend l (k a).
Proof. done. Qed.

Lemma prepend_prepend {A} l l' (m : printing A) : prepend l (prepend l' m) = prepend (l ++ l') m.
Proof. unfold prepend. cbn. by rewrite (assoc_L (++)). Qed.

Lemma prepend_log l text : prepend l (console_log text) = (l ++ [Out text], Normal ()).
Proof. done. Qed.

Lemma prepend_pair {A} l l' (c : completion A) : prepend l (l', c) = (l ++ l', c).
Proof. done. Qed.

Ltac print_step :=
  first [ rewrite printing_bind_assoc
        | rewrite printing_bind_log
        | rewrite printing_bind_eval
        | rewrite printing_bind_ret
        | rewrite printing_bind_prepend
        | rewrite printing_bind_pair
        | rewrite prepend_prepend
        | rewrite prepend_log
        | rewrite prepend_pair
        | rewrite interpolate_printable by done ].

Section report.
(** [JSON.stringify(v, null, 2)] is the engine's. *)
Variable JSON_stringify_indented : value → string.

Lemma report_data_inventory products total shop currency lastSync formatted :
  let productData :=
    VObj [("products", VArr products);
          ("metadata", VObj [("total", total); ("shop", shop); ("currency", currency);
                             ("lastSync", lastSync)])] in
  truthy shop = true → truthy currency = true →
  printable shop = true → printable currency = true → printable total = true →
  printable lastSync = true →
  formatProductsForDisplay (VArr products) = Normal formatted →
  report_data JSON_stringify_indented productData
  = ([Out (LF +:+ "🏪 Shop: " +:+ ToString shop);
      Out ("   Currency: " +:+ ToString currency);
      Out ("   Total Products: "
           +:+ ToString (js_or total (VNum (Z.of_nat (length products)))))]
     ++ (if truthy lastSync then [Out ("   Last Sync: " +:+ ToString lastSync)] else [])
     ++ [Out (LF +:+ "📦 Products Received: " +:+ pretty (Z.of_nat (length products))
              +:+ " items");
         Out formatted],
     Normal ()).
Proof.
  intros productData Hshop Hcur Hps Hpc Hpt Hpl Hf. subst productData.
  unfold report_data.
  change (get_prop (VObj ?o) "products") with (Normal (prop o "products")).
  rewrite printing_bind_eval.
  cbn [get_prop prop lookup_prop String.eqb Ascii.eqb Bool.eqb default from_option id
       truthy Array_isArray andb get_prop_opt].
  rewrite (js_or_truthy shop), (js_or_truthy currency) by done.
  assert (printable (js_or total (VNum (Z.of_nat (length products)))) = true) as Hpt'
    by by rewrite printable_js_or.
  assert (printable (VNum (Z.of_nat (length products))) = true) as Hpn by done.
  destruct (truthy lastSync); repeat print_step; rewrite Hf; repeat print_step; done.
Qed.

Lemma extractArtifacts_product_result d message agentMessage productData taskObj history :
  extractArtifacts (VObj (product_result d message agentMessage productData taskObj history))
  = Normal [{| artifact_name := VStr "Product Inventory";
               artifact_description := VStr "Current inventory of available products";
               artifact_data := [productData] |}].
Proof.
  unfold extractArtifacts. cbn [truthy negb get_prop mbind completion_bind].
  by rewrite product_result_artifacts.
Qed.

Lemma summary_lines : summary = (summary.1, Normal ()).
Proof. done. Qed.

Lemma report_product_result d message agentMessage products total shop currency lastSync
    taskObj history formatted :
  let productData :=
    VObj [("products", VArr products);
          ("metadata", VObj [("total", total); ("shop", shop); ("currency", currency);
                             ("lastSync", lastSync)])] in
  let result := product_result d message agentMessage productData taskObj history in
  truthy shop = true → truthy currency = true →
  printable (prop result "id") = true →
  printable shop = true → printable currency = true → printable total = true →
  printable lastSync = true →
  formatProductsForDisplay (VArr products) = Normal formatted →
  requestProducts_report JSON_stringify_indented (VObj result)
  = ([Out "✅ Task Response Received";
      Out ("   Task ID: " +:+ ToString (prop result "id"));
      Out "   Task State: completed";
      Out "";
      Out "📥 Step 4: Extracting Product Data";
      Out "✅ Found 1 artifact(s)";
      Out "   Artifact: Product Inventory";
      Out "   Description: Current inventory of available products";
      Out (LF +:+ "🏪 Shop: " +:+ ToString shop);
      Out ("   Currency: " +:+ ToString currency);
      Out ("   Total Products: "
           +:+ ToString (js_or total (VNum (Z.of_nat (length products)))))]
     ++ (if truthy lastSync then [Out ("   Last Sync: " +:+ ToString lastSync)] else [])
     ++ [Out (LF +:+ "📦 Products Received: " +:+ pretty (Z.of_nat (length products))
              +:+ " items");
         Out formatted]
     ++ summary.1,
     Normal ()).
Proof.
  intros productData result Hshop Hcur Hid Hps Hpc Hpt Hpl Hf.
  pose proof (report_data_inventory products total shop currency lastSync formatted
                Hshop Hcur Hps Hpc Hpt Hpl Hf) as Hdata.
  cbv zeta in Hdata. fold productData in Hdata.
  unfold requestProducts_report. cbn [truthy negb].
  change (get_prop_opt (VObj result) "status") with (prop result "status").
  change (get_prop_opt (VObj result) "id") with (prop result "id").
  assert (prop result "status"
          = status_object TaskState_Completed agentMessage (now_completed d)) as ->
    by apply product_result_status.
  change (get_prop_opt (status_object _ _ _) "state") with (VStr "completed").
  unfold result at 2. rewrite extractArtifacts_product_result.
  repeat print_step.
  cbn [length]. rewrite bool_decide_eq_true_2 by lia.
  unfold report_artifact. cbn [artifact_name artifact_description artifact_data for_of truthy].
  rewrite (js_or_truthy (VStr "Product Inventory")) by done.
  change (negb (String.eqb "Current inventory of available products" "")) with true.
  cbv iota. rewrite Hdata.
  repeat print_step. rewrite summary_lines. repeat print_step.
  f_equal. cbn [app ToString]. by rewrite <-!(assoc_L (++)).
Qed.

(** X25. What the client prints for an answer of the product service agent.
    For every task the agent returns, when the id of the task, the four
    fields of the metadata and the products can be printed, the report is
    exactly: the header with the id and the state [completed], one artifact
    found, its name and description, the shop, the currency and the total of
    the metadata, the time of the last synchronisation when there is one,
    the number of products, the list [formatProductsForDisplay] gives, and
    the summary; the [try] block comes to its end. *)
Theorem client_shows_product_inventory (d : Dates) (net : fetch_outcome) (request : value)
    (task : option object) (envelope : value) (result : object) (productData : value)
    (formatted : string) :
  response (Product_onMessageSend d net request task) = Normal envelope →
  get_prop_opt envelope "result" = VObj result →
  getProducts net = Normal productData →
  let metadata := get_prop_opt productData "metadata" in
  let products := get_prop_opt productData "products" in
  printable (prop result "id") = true →
  forallb (λ k, printable (get_prop_opt metadata k)) ["shop"; "currency"; "total"; "lastSync"]
  = true →
  formatProductsForDisplay products = Normal formatted →
  requestProducts_report JSON_stringify_indented (VObj result)
  = ([Out "✅ Task Response Received";
      Out ("   Task ID: " +:+ ToString (prop result "id"));
      Out "   Task State: completed";
      Out "";
      Out "📥 Step 4: Extracting Product Data";
      Out "✅ Found 1 artifact(s)";
      Out "   Artifact: Product Inventory";
      Out "   Description: Current inventory of available products";
      Out (LF +:+ "🏪 Shop: " +:+ ToString (get_prop_opt metadata "shop"));
      Out ("   Currency: " +:+ ToString (get_prop_opt metadata "currency"));
      Out ("   Total Products: " +:+ ToString (get_prop_opt metadata "total"))]
     ++ (if truthy (get_prop_opt metadata "lastSync")
         then [Out ("   Last Sync: " +:+ ToString (get_prop_opt metadata "lastSync"))]
         else [])
     ++ [Out (LF +:+ "📦 Products Received: " +:+ ToString (get_prop_opt products "length")
              +:+ " items");
         Out formatted]
     ++ summary.1,
     Normal ()).
Proof.
  intros Hret Hres Hpd metadata products Hid Hmeta Hformat.
  destruct (onMessageSend_result (ProductServiceExecutor d net) request task envelope Hret)
    as (_ & _ & Hshape); [by rewrite Hres|].
  rewrite Hres in Hshape.
  destruct Hshape as [JSON_parse d' Ha _ _ _
                     |JSON_parse d' am taskObj h Ha _ _ _ _ _ _
                     |d' net' pd am taskObj h Ha Hpd' _ _ _ Hresult _]; try discriminate.
  injection Ha as <- <-. rewrite Hpd in Hpd'. injection Hpd' as <-.
  injection Hresult as ->.
  apply getProducts_inv in Hpd
    as (status & statusText & acpResponse & catalogue & normalizedProducts
        & _ & _ & _ & _ & ->).
  subst metadata products. cbn [forallb] in Hmeta.
  apply andb_true_iff in Hmeta as [Hshop Hmeta].
  apply andb_true_iff in Hmeta as [Hcurrency Hmeta].
  apply andb_true_iff in Hmeta as [Htotal Hmeta].
  apply andb_true_iff in Hmeta as [HlastSync _].
  rewrite (report_product_result d _ am normalizedProducts _ _ _ _ taskObj h formatted
             (truthy_js_or _ (VStr "Unknown") eq_refl) (truthy_js_or _ (VStr "USD") eq_refl)
             Hid Hshop Hcurrency Htotal HlastSync Hformat).
  by rewrite js_or_idempotent.
Qed.

Lemma extractArtifacts_greeting_result d userMessage agentMessage taskId sessionId history :
  extractArtifacts
    (VObj (greeting_result d userMessage agentMessage (greeting_new_task d taskId sessionId)
             history))
  = Normal [].
Proof.
  unfold extractArtifacts. cbn [truthy negb get_prop mbind completion_bind].
  unfold prop. rewrite greeting_result_other by done. done.
Qed.

Lemma report_greeting_result d userMessage text taskId sessionId history :
  let result :=
    greeting_result d userMessage (agent_text_message text)
      (greeting_new_task d taskId sessionId) history in
  printable (prop result "id") = true →
  requestProducts_report JSON_stringify_indented (VObj result)
  = ([Out "✅ Task Response Received";
      Out ("   Task ID: " +:+ ToString (prop result "id"));
      Out "   Task State: completed";
      Out "";
      Out "📥 Step 4: Extracting Product Data";
      Out "📝 Response Message:";
      Out text]
     ++ summary.1,
     Normal ()).
Proof.
  intros result Hid.
  unfold requestProducts_report, report_message. cbn [truthy negb].
  change (get_prop_opt (VObj result) "status") with (prop result "status").
  change (get_prop_opt (VObj result) "id") with (prop result "id").
  assert (prop result "status"
          = status_object TaskState_Completed (agent_text_message text) (now_completed d))
    as -> by apply greeting_result_status.
  change (get_prop_opt (status_object _ _ _) "state") with (VStr "completed").
  change (get_prop_opt (status_object _ ?m _) "message") with m.
  unfold result at 2. rewrite extractArtifacts_greeting_result.
  repeat print_step. cbn [length]. rewrite bool_decide_eq_false_2 by (cbn; lia).
  change (extractMessageText (agent_text_message text)) with (Normal (A:=string) text).
  change (extractDataFromMessage (agent_text_message text)) with (Normal (A:=value) VNull).
  cbn [truthy andb]. repeat print_step. rewrite summary_lines. repeat print_step.
  done.
Qed.

(** X26. What the client prints for a task the greeting agent created: the
    task has no artifacts, so the report falls back on the message of the
    status, and is exactly the header with the id and the state [completed],
    the line announcing the response message, the text of the agent's reply,
    and the summary; the [try] block comes to its end. *)
Theorem client_shows_greeting_reply (JSON_parse : string → option value) (d : Dates)
    (request : value) (envelope : value) (result : object) :
  truthy (request_task_id request) = true →
  response (Greeting_onMessageSend JSON_parse d request None) = Normal envelope →
  get_prop_opt envelope "result" = VObj result →
  printable (prop result "id") = true →
  ∃ text,
    get_prop_opt (prop result "status") "message" = agent_text_message text
    ∧ requestProducts_report JSON_stringify_indented (VObj result)
      = ([Out "✅ Task Response Received";
          Out ("   Task ID: " +:+ ToString (prop result "id"));
          Out "   Task State: completed";
          Out "";
          Out "📥 Step 4: Extracting Product Data";
          Out "📝 Response Message:";
          Out text]
         ++ summary.1,
         Normal ()).
Proof.
  intros Hid0 Hret Hres Hid.
  destruct (onMessageSend_result (GreetingAgentExecutor JSON_parse d) request None envelope Hret)
    as (_ & _ & Hshape); [by rewrite Hres|].
  rewrite Hres in Hshape.
  destruct Hshape as [JSON_parse' d' _ Hno _ _
                     |JSON_parse' d' am taskObj h Ha _ Ham -> Hh Hresult _
                     |d' net' pd am taskObj h Ha _ _ _ _ _ _]; try discriminate.
  - by rewrite Hid0 in Hno.
  - injection Ha as <- <-. injection Hresult as ->.
    apply greeting_agentMessage_text in Ham as [text ->]. exists text.
    cbn [default from_option id] in *.
    split; [by rewrite greeting_result_status|].
    by apply report_greeting_result.
Qed.

(** A computation that throws. *)
Lemma throws_bind_l {A B} (m : printing A) (k : A → printing B) e :
  m.2 = Throw e → (m ≫= k).2 = Throw e.
Proof. destruct m as [l c]. cbn. intros ->. done. Qed.

Lemma throws_bind_r {A B} (m : printing A) (k : A → printing B) :
  (∀ a, ∃ e, (k a).2 = Throw e) → ∃ e, (m ≫= k).2 = Throw e.
Proof.
  intros Hk. destruct m as [l [a|e]]; [|by exists e].
  destruct (Hk a) as [e He]. exists e. unfold mbind, printing_bind. cbn. done.
Qed.

Lemma for_of_throws {A} (body : A → printing ()) (l : list A) x :
  x ∈ l → (∃ e, (body x).2 = Throw e) → ∃ e, (for_of body l).2 = Throw e.
Proof.
  intros Hin Hx. induction Hin as [x l|x y l Hin IH]; cbn [for_of].
  - destruct Hx as [e He]. exists e. by apply throws_bind_l.
  - apply throws_bind_r. intros _. by apply IH.
Qed.

(** X27. The client's report does not survive an artifact whose data has an
    undefined or null entry (a data part without [data]): once
    [extractArtifacts] has returned such an artifact for the task, reading
    [data.products] throws, so the [try] block of [requestProducts] is left
    by an exception, whatever the other artifacts hold. *)
Theorem client_report_throws_on_missing_data (task : value)
    (artifacts : list extracted_artifact) (artifact : extracted_artifact) (data : value) :
  truthy task = true →
  extractArtifacts task = Normal artifacts →
  artifact ∈ artifacts → data ∈ artifact_data artifact → is_nullish data = true →
  ∃ e, (requestProducts_report JSON_stringify_indented task).2 = Throw e.
Proof.
  intros Htask Hart Hin Hdata Hnull. unfold requestProducts_report. rewrite Htask.
  cbn [negb].
  apply throws_bind_r. intros _. apply throws_bind_r. intros id0.
  apply throws_bind_r. intros _. apply throws_bind_r. intros state.
  apply throws_bind_r. intros _. apply throws_bind_r. intros _.
  apply throws_bind_r. intros _. rewrite Hart. rewrite printing_bind_eval.
  assert (∃ e, (report_data JSON_stringify_indented data).2 = Throw e) as Hthrow.
  { unfold report_data. destruct data; try done; by eexists. }
  assert (∃ e, (for_of (report_artifact JSON_stringify_indented) artifacts).2 = Throw e) as [e He].
  { apply (for_of_throws _ _ artifact Hin). unfold report_artifact.
    apply throws_bind_r. intros name. apply throws_bind_r. intros _.
    apply throws_bind_r. intros _. by apply (for_of_throws _ _ data). }
  exists e. apply throws_bind_l.
  rewrite bool_decide_eq_true_2 by (destruct Hin; cbn; lia).
  by rewrite printing_bind_log.
Qed.

End report.

Lemma client_shows_product_inventory_witness :
  requestProducts_report (λ _, "") (VObj sample_listed_task)
  = ([Out "✅ Task Response Received";
      Out "   Task ID: t1";
      Out "   Task State: completed";
      Out "";
      Out "📥 Step 4: Extracting Product Data";
      Out "✅ Found 1 artifact(s)";
      Out "   Artifact: Product Inventory";
      Out "   Description: Current inventory of available products";
      Out (LF +:+ "🏪 Shop: Store");
      Out "   Currency: USD";
      Out "   Total Products: 1";
      Out (LF +:+ "📦 Products Received: 1 items");
      Out sample_formatted]
     ++ summary.1,
     Normal ()).
Proof.
  etrans.
  - apply (client_shows_product_inventory (λ _, "") sample_dates sample_catalogue
             (tasks_send "t1" (user_text "Get all products")) None
             (VObj [("jsonrpc", VStr "2.0"); ("id", VNum 1);
                    ("result", VObj sample_listed_task)])
             sample_listed_task sample_productData sample_formatted);
      reflexivity.
  - reflexivity.
Defined.

Lemma client_shows_greeting_reply_witness :
  ∃ text,
    get_prop_opt (prop sample_greeted_task "status") "message" = agent_text_message text
    ∧ requestProducts_report (λ _, "") (VObj sample_greeted_task)
      = ([Out "✅ Task Response Received";
          Out "   Task ID: t1";
          Out "   Task State: completed";
          Out "";
          Out "📥 Step 4: Extracting Product Data";
          Out "📝 Response Message:";
          Out text]
         ++ summary.1,
         Normal ()).
Proof.
  apply (client_shows_greeting_reply (λ _, "") JSON_parse_literals sample_dates
           (tasks_send "t1" (user_text "hello"))
           (VObj [("jsonrpc", VStr "2.0"); ("id", VNum 1); ("result", VObj sample_greeted_task)])
           sample_greeted_task);
    reflexivity.
Defined.

Lemma client_report_throws_on_missing_data_witness :
  ∃ e, (requestProducts_report (λ _, "") sample_empty_data_task).2 = Throw e.
Proof.
  apply (client_report_throws_on_missing_data (λ _, "") sample_empty_data_task
           [{| artifact_name := VStr "Product Inventory";
               artifact_description := VUndefined;
               artifact_data := [VUndefined] |}]
           {| artifact_name := VStr "Product Inventory";
              artifact_description := VUndefined;
              artifact_data := [VUndefined] |}
           VUndefined);
    [reflexivity|reflexivity|repeat constructor|repeat constructor|reflexivity].
Defined.
